(** * BlobStorageArea: a document chunked over fixed-size slots of a key-value store

    Shallow embedding of [BlobStorageArea.ts] (with [DummyStorageArea.ts],
    [enums.ts], [types.ts] and the two error classes) and the properties
    checked against it.

    Conventions of the embedding.
    - A JavaScript string is kept in its UTF-8 form, as a [string] (a list
      of bytes); a [Blob] is a list of bytes.  [new Blob([s])] is then the
      byte list of [s], and [blob.text()] is the UTF-8 decoder of the
      platform (malformed sequences become U+FFFD, a leading byte order mark
      is dropped), written out below.
    - The calls of an [async] method take effect in the order in which they
      are issued; [await] is sequencing.  One operation runs at a time.
    - Objects are association lists of their own string-keyed properties in
      insertion order; inherited properties and the reordering of
      integer-like keys are outside the model.
    - Hashing, zlib and [JSON.parse] are library code: they are parameters
      of the development (section [Engine]). *)

From Stdlib Require Import ZArith Lia Ascii String.
From stdpp Require Import gmap strings list fin_maps pretty.

#[local] Set Warnings "-register-all".

Open Scope string_scope.
Open Scope list_scope.

(** ** Bytes, blobs and text *)

Definition Blob := list ascii.

Definition byte (n : N) : ascii := ascii_of_N n.
Definition code (b : ascii) : N := N_of_ascii b.

(** [new Blob([s])] for a string [s]. *)
Definition blob_of_string (s : string) : Blob := list_ascii_of_string s.

(** [blob.size] *)
Definition blob_size (b : Blob) : nat := length b.

(** [blob.slice(start, end)] for [0 <= start] and [0 <= end]: both ends are
    clamped to the size and an inverted range is empty. *)
Definition blob_slice (start end_ : nat) (b : Blob) : Blob :=
  take (end_ - start) (drop start b).

(** [new Blob(blobs)] for a list of blobs. *)
Definition blob_concat (blobs : list Blob) : Blob := concat blobs.

(** *** The UTF-8 decoder behind [blob.text()]

    The decoder of the Encoding standard, as a state machine over the bytes:
    [needed] continuation bytes are still expected, [pending] holds the bytes
    of the sequence read so far, and the next byte has to lie in
    [[lower, upper]].  The output is produced in UTF-8 again. *)

Definition replacement : list ascii := [byte 239; byte 191; byte 189].

Record utf8_state := Utf8State {
  needed : nat;
  pending : list ascii;
  lower : N;
  upper : N
}.

Definition utf8_idle : utf8_state := Utf8State 0 [] 128 191.

Definition between (lo hi n : N) : bool := (lo <=? n)%N && (n <=? hi)%N.

Definition utf8_lead (b : ascii) : utf8_state * list ascii :=
  let n := code b in
  if (n <=? 127)%N then (utf8_idle, [b])
  else if between 194 223 n then (Utf8State 1 [b] 128 191, [])
  else if between 224 239 n then
    (Utf8State 2 [b] (if (n =? 224)%N then 160 else 128)
                     (if (n =? 237)%N then 159 else 191), [])
  else if between 240 244 n then
    (Utf8State 3 [b] (if (n =? 240)%N then 144 else 128)
                     (if (n =? 244)%N then 143 else 191), [])
  else (utf8_idle, replacement).

Definition utf8_step (st : utf8_state) (b : ascii) : utf8_state * list ascii :=
  match needed st with
  | 0 => utf8_lead b
  | S k =>
      if between (lower st) (upper st) (code b) then
        match k with
        | 0 => (utf8_idle, pending st ++ [b])
        | S _ => (Utf8State k (pending st ++ [b]) 128 191, [])
        end
      else
        (* the sequence is broken: one U+FFFD, and the byte is read again *)
        let '(st', out) := utf8_lead b in (st', replacement ++ out)
  end.

Fixpoint utf8_run (st : utf8_state) (bs : list ascii) : list ascii :=
  match bs with
  | [] => match needed st with 0 => [] | S _ => replacement end
  | b :: rest => let '(st', out) := utf8_step st b in out ++ utf8_run st' rest
  end.

Definition strip_bom (bs : list ascii) : list ascii :=
  match bs with
  | b1 :: b2 :: b3 :: rest =>
      if ((code b1 =? 239) && (code b2 =? 187) && (code b3 =? 191))%N
      then rest else bs
  | _ => bs
  end.

(** [await blob.text()] *)
Definition blob_text (b : Blob) : string :=
  string_of_list_ascii (utf8_run utf8_idle (strip_bom b)).

(** ** JSON values and [JSON.stringify] *)

(** Numbers are the integers, printed in decimal: that is how
    [JSON.stringify] prints an integer below [10^21] in magnitude. *)
Inductive json :=
| JNull
| JBool (b : bool)
| JNum (n : Z)
| JStr (s : string)
| JArr (elems : list json)
| JObj (props : list (string * json)).

Definition dquote : ascii := byte 34.
Definition backslash : ascii := byte 92.

Definition hex_digit (n : N) : ascii :=
  if (n <? 10)%N then byte (48 + n) else byte (87 + n).

(** The escape of one byte inside a JSON string literal.  Bytes from 128 on
    belong to characters outside ASCII, which [JSON.stringify] copies. *)
Definition json_escape (c : ascii) : string :=
  let n := code c in
  if (n =? 34)%N then String backslash (String dquote "")
  else if (n =? 92)%N then String backslash (String backslash "")
  else if (n =? 8)%N then String backslash "b"
  else if (n =? 12)%N then String backslash "f"
  else if (n =? 10)%N then String backslash "n"
  else if (n =? 13)%N then String backslash "r"
  else if (n =? 9)%N then String backslash "t"
  else if (n <? 32)%N then
    String backslash ("u00" +:+ String (hex_digit (n / 16)) (String (hex_digit (n mod 16)) ""))
  else String c "".

Fixpoint json_escape_all (s : string) : string :=
  match s with
  | "" => ""
  | String c rest => json_escape c +:+ json_escape_all rest
  end.

Definition json_quote (s : string) : string :=
  String dquote (json_escape_all s +:+ String dquote "").

Fixpoint stringify (j : json) : string :=
  match j with
  | JNull => "null"
  | JBool true => "true"
  | JBool false => "false"
  | JNum n => pretty n
  | JStr s => json_quote s
  | JArr elems =>
      "[" +:+
      (fix items (l : list json) : string :=
         match l with
         | [] => ""
         | [x] => stringify x
         | x :: rest => stringify x +:+ "," +:+ items rest
         end) elems +:+ "]"
  | JObj props =>
      "{" +:+
      (fix members (l : list (string * json)) : string :=
         match l with
         | [] => ""
         | [(k, v)] => json_quote k +:+ ":" +:+ stringify v
         | (k, v) :: rest => json_quote k +:+ ":" +:+ stringify v +:+ "," +:+ members rest
         end) props +:+ "}"
  end.

(** [JSON.stringify] of an object given by its properties. *)
Definition JSON_stringify (o : list (string * json)) : string :=
  stringify (JObj o).

(** *** Objects as association lists *)

(** [o[k] = v]: an existing property keeps its place, a new one goes last. *)
Fixpoint obj_set {V : Type} (o : list (string * V)) (k : string) (v : V)
  : list (string * V) :=
  match o with
  | [] => [(k, v)]
  | (k', v') :: rest =>
      if String.eqb k' k then (k', v) :: rest else (k', v') :: obj_set rest k v
  end.

(** [o[k]], [undefined] being [None]. *)
Fixpoint obj_get {V : Type} (o : list (string * V)) (k : string) : option V :=
  match o with
  | [] => None
  | (k', v) :: rest => if String.eqb k' k then Some v else obj_get rest k
  end.

(** [{ ...a, ...b }] *)
Definition obj_spread {V : Type} (a b : list (string * V)) : list (string * V) :=
  fold_left (fun o kv => obj_set o kv.1 kv.2) b
    (fold_left (fun o kv => obj_set o kv.1 kv.2) a []).

(** [Object.keys(o)] *)
Definition Object_keys {V : Type} (o : list (string * V)) : list string :=
  map fst o.

(** ** Enumerations, metadata and configuration ([enums.ts], [types.ts]) *)

Inductive LastCompressStates := Uncomporessed | Compressed | Failed.

Inductive StorageStates := Idle | Uploading | Downloading.

Record MetaValues := {
  hash : option string;
  hashPreCompress : option string;
  lastUpdated : option Z;
  lastCompressState : LastCompressStates
}.

Module Config.
(** The fields of [BlobStorageConfigInterface] that reach the engine's
    behaviour ([storage] is the backend the engine runs on; [debugLog],
    [disableDummyWarning] and [id] only reach the console). *)
Record t := {
  slotSize : nat;
  slotCount : nat;
  compress : bool
}.
End Config.

(** [BlobStorageConfig(configOverride)] with an empty override. *)
Definition BlobStorageConfig : Config.t :=
  {| Config.slotCount := 256; Config.slotSize := 1024; Config.compress := false |}.

(** ** The errors ([TooLargeDataError.ts], [ZippingError.ts]) and results *)

Inductive Error :=
| TooLargeDataError (exceeded : Z)
| ZippingError
| TypeError
| SyntaxError
| UntypedMeta.

(** The message built by the constructor of [TooLargeDataError]. *)
Definition TooLargeDataError_message (exceeded : Z) : string :=
  if (exceeded =? 0)%Z then "Set data exceeded size of storage."
  else "Set data exceeded size of storage by " +:+ pretty exceeded +:+ " bytes.".

Inductive Result (A : Type) :=
| Ok (a : A)
| Err (e : Error).
Arguments Ok {A} a.
Arguments Err {A} e.

(** ** The backend ([DummyStorageArea.ts]) *)

(** What the engine stores: slot texts and the metadata record. *)
Inductive StorageValue :=
| VString (s : string)
| VMeta (m : MetaValues).

Module DummyStorageArea.
(** [data] is the [Map] of the store. *)
Record t := { data : gmap string StorageValue }.

Definition empty : t := {| data := ∅ |}.

(** [set(items)] *)
Definition set (items : list (string * StorageValue)) (s : t) : t :=
  {| data := fold_left (fun d kv => <[kv.1 := kv.2]> d) items (data s) |}.

(** [get(key)[key]] for one string key *)
Definition get (key : string) (s : t) : option StorageValue := data s !! key.

(** [remove(key)] for one string key *)
Definition remove (key : string) (s : t) : t :=
  {| data := delete key (data s) |}.

(** [clear()] *)
Definition clear (s : t) : t := {| data := ∅ |}.
End DummyStorageArea.

(** The calls an engine can make to its backend. *)
Inductive StorageCall :=
| CallGet (key : string)
| CallSet (key : string) (v : StorageValue)
| CallRemove (key : string)
| CallClear.

(** A call, and what [getState()] answers while the call is pending. *)
Record Event := {
  during : StorageStates;
  call : StorageCall
}.

(** ** The platform: hashing, zlib, [Buffer] and [JSON.parse] *)

Class Platform := {
  (** [createHash("md5").update(s).digest("hex")] *)
  md5 : string -> string;
  (** [zlib.deflate]; [None] when the callback receives an error *)
  deflate : Blob -> option Blob;
  (** [buffer.toString("base64")] *)
  toString_base64 : Blob -> string;
  (** [Buffer.alloc(size).fill(s, 0, size, "base64")] *)
  fill_base64 : string -> nat -> Blob;
  (** [zlib.unzip]; [None] when the callback receives an error *)
  unzip : Blob -> option Blob;
  (** [JSON.parse]; [None] when it throws *)
  JSON_parse : string -> option json
}.

(** [buffer.toString()]: UTF-8 decoding that keeps a byte order mark. *)
Definition Buffer_toString (b : Blob) : string :=
  string_of_list_ascii (utf8_run utf8_idle b).

(** ** The engine ([BlobStorageArea.ts]) *)

Module BlobStorageArea.

(** The fields of an instance. *)
Record t := {
  config : Config.t;
  meta : MetaValues;
  localData : list (string * json);
  occupiedStorage : nat;
  state : StorageStates
}.

(** An instance together with the backend it talks to, and the journal
    of the calls made to the backend so far, oldest first. *)
Record Machine := {
  this : t;
  storage : DummyStorageArea.t;
  journal : list Event
}.

(** A method body: it may change the instance and the backend, and it
    returns or throws; what it changed before throwing stays changed. *)
Definition M (A : Type) : Type := Machine -> Result A * Machine.

Definition ret {A} (a : A) : M A := fun m => (Ok a, m).

Definition bind {A B} (c : M A) (k : A -> M B) : M B :=
  fun m => match c m with
           | (Ok a, m') => k a m'
           | (Err e, m') => (Err e, m')
           end.

Definition throw {A} (e : Error) : M A := fun m => (Err e, m).

(** [try { body } catch (error) { handler(error) }] *)
Definition try_catch {A} (body : M A) (handler : Error -> M A) : M A :=
  fun m => match body m with
           | (Ok a, m') => (Ok a, m')
           | (Err e, m') => handler e m'
           end.

Notation "x <- c ;; k" := (bind c (fun x => k))
  (at level 100, c at next level, right associativity).
Notation "c ;;; k" := (bind c (fun _ => k))
  (at level 100, right associativity).

Definition getThis : M t := fun m => (Ok (this m), m).

Definition update (f : t -> t) : M unit :=
  fun m => (Ok tt, {| this := f (this m); storage := storage m;
                      journal := journal m |}).

Definition record (c : StorageCall) (m : Machine) : list Event :=
  journal m ++ [{| during := state (this m); call := c |}].

Definition storage_get (key : string) : M (option StorageValue) :=
  fun m => (Ok (DummyStorageArea.get key (storage m)),
            {| this := this m; storage := storage m;
               journal := record (CallGet key) m |}).

Definition storage_set (key : string) (v : StorageValue) : M unit :=
  fun m => (Ok tt, {| this := this m;
                      storage := DummyStorageArea.set [(key, v)] (storage m);
                      journal := record (CallSet key v) m |}).

Definition storage_remove (key : string) : M unit :=
  fun m => (Ok tt, {| this := this m;
                      storage := DummyStorageArea.remove key (storage m);
                      journal := record (CallRemove key) m |}).

(** Assignments to the fields of [this]. *)
Definition with_meta (v : MetaValues) (e : t) : t :=
  {| config := config e; meta := v; localData := localData e;
     occupiedStorage := occupiedStorage e; state := state e |}.
Definition with_localData (v : list (string * json)) (e : t) : t :=
  {| config := config e; meta := meta e; localData := v;
     occupiedStorage := occupiedStorage e; state := state e |}.
Definition with_occupiedStorage (v : nat) (e : t) : t :=
  {| config := config e; meta := meta e; localData := localData e;
     occupiedStorage := v; state := state e |}.
Definition with_state (v : StorageStates) (e : t) : t :=
  {| config := config e; meta := meta e; localData := localData e;
     occupiedStorage := occupiedStorage e; state := v |}.

(** Assignments to the fields of a metadata record. *)
Definition with_hash (v : option string) (m : MetaValues) : MetaValues :=
  {| hash := v; hashPreCompress := hashPreCompress m;
     lastUpdated := lastUpdated m; lastCompressState := lastCompressState m |}.
Definition with_hashPreCompress (v : option string) (m : MetaValues) : MetaValues :=
  {| hash := hash m; hashPreCompress := v;
     lastUpdated := lastUpdated m; lastCompressState := lastCompressState m |}.
Definition with_lastUpdated (v : option Z) (m : MetaValues) : MetaValues :=
  {| hash := hash m; hashPreCompress := hashPreCompress m;
     lastUpdated := v; lastCompressState := lastCompressState m |}.
Definition with_lastCompressState (v : LastCompressStates) (m : MetaValues) : MetaValues :=
  {| hash := hash m; hashPreCompress := hashPreCompress m;
     lastUpdated := lastUpdated m; lastCompressState := v |}.

(** [for (let i = start; i < start + count; i++) { if (body(i)) break; }]:
    the body answers whether it left the loop with [break]. *)
Fixpoint for_loop (count i : nat) (body : nat -> M bool) : M unit :=
  match count with
  | 0 => ret tt
  | S count' =>
      stop <- body i ;;
      if stop : bool then ret tt else for_loop count' (S i) body
  end.

Definition keyMeta : string := "__storage_meta".
Definition keyPrefix : string := "__storage_stack_".

(** [this.keyPrefix + index] *)
Definition slotKey (index : nat) : string := keyPrefix +:+ pretty index.

(** The constructor. *)
Definition new (config : Config.t) : t :=
  {| config := config;
     meta := {| hash := None; hashPreCompress := None; lastUpdated := None;
                lastCompressState := Uncomporessed |};
     localData := [];
     occupiedStorage := 0;
     state := Idle |}.

Definition getMaxCapacity : M nat :=
  e <- getThis ;;
  ret (Config.slotCount (config e) * Config.slotSize (config e)).

Definition getState (e : t) : StorageStates := state e.
Definition getMeta (e : t) : MetaValues := meta e.
Definition getHash (e : t) : option string := hash (getMeta e).
Definition getPreCompressHash (e : t) : option string := hashPreCompress (getMeta e).
Definition getLastUpdated (e : t) : option Z := lastUpdated (getMeta e).
Definition getLastCompressState (e : t) : LastCompressStates :=
  lastCompressState (getMeta e).

(** [setMeta(meta)].  The record handed to the backend is the object the
    instance keeps; every assignment to one of its fields is followed at
    once by this call, so the backend's copy and the instance's agree
    whenever another call can observe them. *)
Definition setMeta (v : MetaValues) : M unit :=
  update (with_meta v) ;;;
  storage_set keyMeta (VMeta v).

Definition setHash (h : option string) : M unit :=
  e <- getThis ;;
  setMeta (with_hash h (getMeta e)).

Definition setPreCompressHash (h : option string) : M unit :=
  e <- getThis ;;
  setMeta (with_hashPreCompress h (getMeta e)).

Definition setLastCompress (s : LastCompressStates) : M unit :=
  e <- getThis ;;
  setMeta (with_lastCompressState s (getMeta e)).

(** [setLastUpdated()]: called without argument, it takes [Date.now()],
    here [now]. *)
Definition setLastUpdated (now : Z) : M unit :=
  e <- getThis ;;
  setMeta (with_lastUpdated (Some now) (getMeta e)).

(** [new Blob([value ?? ""])]: a part that is no string is turned into
    one. *)
Definition blob_of_value (v : option StorageValue) : Blob :=
  match v with
  | None => blob_of_string ""
  | Some (VString s) => blob_of_string s
  | Some (VMeta _) => blob_of_string "[object Object]"
  end.

Definition getBlob (index : nat) : M Blob :=
  value <- storage_get (slotKey index) ;;
  ret (blob_of_value value).

Definition setBlob (index : nat) (value : Blob) : M unit :=
  storage_set (slotKey index) (VString (blob_text value)).

Fixpoint connectedBlobs_from (count i : nat) (blobs : list Blob) : M (list Blob) :=
  match count with
  | 0 => ret blobs
  | S count' =>
      b <- getBlob i ;;
      connectedBlobs_from count' (S i) (blobs ++ [b])
  end.

Definition connectedBlobs : M Blob :=
  e <- getThis ;;
  blobs <- connectedBlobs_from (Config.slotCount (config e)) 0 [] ;;
  ret (blob_concat blobs).

Definition getCurrentUsed (live : bool) : M nat :=
  (if live then
     blobs <- connectedBlobs ;;
     update (with_occupiedStorage (blob_size blobs))
   else ret tt) ;;;
  e <- getThis ;;
  ret (occupiedStorage e).

Definition calculateHash `{Platform} (data : string) : string := md5 data.

(** [isUpToDate()].  Reading [lastUpdated] off a missing record throws;
    off a string it gives [undefined], which equals no cached value. *)
Definition isUpToDate : M bool :=
  liveMeta <- storage_get keyMeta ;;
  e <- getThis ;;
  match liveMeta with
  | None => throw TypeError
  | Some (VString _) => ret false
  | Some (VMeta live) =>
      ret (bool_decide (lastUpdated live = lastUpdated (meta e)))
  end.

(** [initStorageMeta()].  A stored string is falsy when empty; the spread
    of a non-empty one has none of the four fields, which [MetaValues]
    cannot express: that case ends in [UntypedMeta]. *)
Definition initStorageMeta : M unit :=
  inStorage <- storage_get keyMeta ;;
  match inStorage with
  | None => e <- getThis ;; setMeta (meta e)
  | Some (VMeta m) => update (with_meta m)
  | Some (VString s) =>
      if String.eqb s "" then e <- getThis ;; setMeta (meta e)
      else throw UntypedMeta
  end.

(** [BlobStorageArea.create(config)] on the backend [s]. *)
Definition create (config : Config.t) (s : DummyStorageArea.t) : Result unit * Machine :=
  (initStorageMeta ;;;
   used <- getCurrentUsed true ;;
   update (with_occupiedStorage used))
  {| this := new config; storage := s; journal := [] |}.

(** [compress(data)].  Neither call of [setLastCompress] is awaited; the
    backend answers at once, so each has taken effect when the promise
    settles.  On an error of zlib the promise is rejected with
    [ZippingError]; the callback then runs on into [buffer.toString] of a
    buffer zlib did not pass, which throws inside the callback, after the
    promise has settled and before the second [setLastCompress].  The
    definition follows the promise, which is what [set] awaits; what the
    exception does to the host is not part of it. *)
Definition compress `{Platform} (data : Blob) : M Blob :=
  max <- getMaxCapacity ;;
  match deflate data with
  | None =>
      setLastCompress Failed ;;;
      throw ZippingError
  | Some buffer =>
      let newBlob := blob_of_string (toString_base64 buffer) in
      setLastCompress Compressed ;;;
      ret newBlob
  end.

Definition decompress `{Platform} (data : Blob) : M Blob :=
  let bufferData := fill_base64 (blob_text data) (blob_size data) in
  match unzip bufferData with
  | None => throw ZippingError
  | Some buffer => ret (blob_of_string (Buffer_toString buffer))
  end.

Definition getAsBlob `{Platform} : M Blob :=
  data <- connectedBlobs ;;
  e <- getThis ;;
  match getLastCompressState e with
  | Compressed => decompress data
  | _ => ret data
  end.

(** [clear()] *)
Definition clear : M unit :=
  e <- getThis ;;
  for_loop (Config.slotCount (config e)) 0
    (fun i => storage_remove (slotKey i) ;;; ret false) ;;;
  update (with_occupiedStorage 0) ;;;
  update (with_localData []).

(** The own enumerable string-keyed properties of a [Blob] object, which
    is what an object spread copies from it and [JSON.stringify] then
    prints: a [Blob] keeps its bytes behind symbols, so there are none. *)
Definition Blob_properties (b : Blob) : list (string * json) := [].

(** The loop of [set] that splits the payload into parts and saves them. *)
Definition splitIntoParts (cfg : Config.t) (data : Blob) : M unit :=
  for_loop (Config.slotCount cfg) 0
    (fun index =>
       let end_ := Nat.min ((index + 1) * Config.slotSize cfg) (blob_size data) in
       let part := blob_slice (index * Config.slotSize cfg) end_ data in
       setBlob index part ;;;
       update (fun e => with_occupiedStorage (occupiedStorage e + blob_size part) e) ;;;
       ret (end_ =? blob_size data)%nat).

(** [set(items)]; [now] is what [Date.now()] returns during the call. *)
Definition set `{Platform} (now : Z) (items : list (string * json)) : M unit :=
  try_catch
    (update (with_state Uploading) ;;;
     e <- getThis ;;
     let cfg := config e in
     (* Need to get all previous data before and merge items... *)
     oldData <- connectedBlobs ;;
     let newJson := obj_spread (Blob_properties oldData) items in
     let precompressedData := blob_of_string (JSON_stringify newJson) in
     (* Compress if needed. *)
     let preCompressHash := calculateHash (blob_text precompressedData) in
     data <- (if Config.compress cfg then compress precompressedData
              else ret precompressedData) ;;
     (* Check for capacity. *)
     max <- getMaxCapacity ;;
     let over := (Z.of_nat (blob_size data) - Z.of_nat max)%Z in
     (if (0 <? over)%Z then
        update (with_state Idle) ;;;
        throw (TooLargeDataError over)
      else ret tt) ;;;
     (* Clear it before we set anything. *)
     clear ;;;
     setHash None ;;;
     (* Split into parts and save. *)
     splitIntoParts cfg data ;;;
     (* Set hash and states depending on compression. *)
     (if Config.compress cfg then
        setPreCompressHash (Some preCompressHash)
      else
        setPreCompressHash None ;;;
        setLastCompress Uncomporessed) ;;;
     (* Recalculate hash and set updated. *)
     blob <- connectedBlobs ;;
     setHash (Some (calculateHash (blob_text blob))) ;;;
     setLastUpdated now ;;;
     (* All went ok, set to local cache. *)
     update (fun e =>
       with_localData
         (fold_left (fun cache key =>
                       match obj_get items key with
                       | Some v => obj_set cache key v
                       | None => cache
                       end) (Object_keys items) (localData e)) e) ;;;
     update (with_state Idle))
    (fun error =>
       update (with_state Idle) ;;;
       throw error).

(** The argument of [get]: [undefined], [null], a string, an array of
    strings, or another object given by its properties. *)
Inductive KeysArg :=
| ArgUndefined
| ArgNull
| ArgString (key : string)
| ArgArray (elems : list string)
| ArgObject (props : list (string * json)).

(** What [argKeysToArray] can return. *)
Inductive KeysValue :=
| KeysList (l : list string)
| KeysFunction          (* [Array.prototype.keys] *)
| KeysUndefined
| KeysJson (j : json).  (* the own property [keys] of the argument *)

Definition argKeysToArray (e : t) (keys : KeysArg) : KeysValue :=
  match keys with
  | ArgUndefined | ArgNull => KeysList (map fst (localData e))
  | ArgString key => KeysList [key]
  | ArgArray _ => KeysFunction
  | ArgObject props =>
      match obj_get props "keys" with
      | None => KeysUndefined
      | Some j => KeysJson j
      end
  end.

(** The string a value becomes when it is used as a property key. *)
Fixpoint property_key (j : json) : string :=
  match j with
  | JNull => "null"
  | JBool true => "true"
  | JBool false => "false"
  | JNum n => pretty n
  | JStr s => s
  | JArr elems =>
      (fix join (l : list json) : string :=
         let item x := match x with JNull => "" | _ => property_key x end in
         match l with
         | [] => ""
         | [x] => item x
         | x :: rest => item x +:+ "," +:+ join rest
         end) elems
  | JObj _ => "[object Object]"
  end.

(** The characters of a string: a byte [10xxxxxx] continues the character
    before it. *)
Fixpoint utf8_chars (s : string) : list string :=
  match s with
  | "" => []
  | String c rest =>
      match utf8_chars rest with
      | next :: others =>
          match next with
          | String c' _ =>
              if between 128 191 (code c') then String c next :: others
              else String c "" :: next :: others
          | "" => String c "" :: others
          end
      | [] => [String c ""]
      end
  end.

(** [for (const key of ks)]: the values the loop runs over, or the
    [TypeError] of a value that is not iterable. *)
Definition iterate (ks : KeysValue) : M (list json) :=
  match ks with
  | KeysList l => ret (map JStr l)
  | KeysJson (JArr elems) => ret elems
  | KeysJson (JStr s) => ret (map JStr (utf8_chars s))
  | KeysFunction | KeysUndefined | KeysJson _ => throw TypeError
  end.

(** [this.localData.get(key)]: the keys of the cache are strings, and a
    [Map] finds a key only under the same value. *)
Definition Map_get (cache : list (string * json)) (key : json) : option json :=
  match key with
  | JStr s => obj_get cache s
  | _ => None
  end.

(** [json[key]] on a parsed document: [null] has no properties; of the
    other values only objects are given own properties here. *)
Definition json_get (j : json) (key : string) : M (option json) :=
  match j with
  | JNull => throw TypeError
  | JObj props => ret (obj_get props key)
  | _ => ret None
  end.

(** The loop [for (const key of keys) values[key] = json[key]]. *)
Fixpoint read_keys (j : json) (keys : list json)
    (values : list (string * option json)) : M (list (string * option json)) :=
  match keys with
  | [] => ret values
  | key :: rest =>
      v <- json_get j (property_key key) ;;
      read_keys j rest (obj_set values (property_key key) v)
  end.

(** [get(items)].  The object it returns is given by its own properties,
    [values[key] = v] being read as the definition of the property [key].
    That is what the assignment does for every key but [__proto__], of
    which it makes no property; what is proved of the values returned is
    proved for the other keys. *)
Definition get `{Platform} (items : KeysArg) : M (list (string * option json)) :=
  try_catch
    (let values := [] in
     update (with_state Downloading) ;;;
     e <- getThis ;;
     let keys := argKeysToArray e items in
     (* Take into account lastUpdate and use cache. *)
     upToDate <- isUpToDate ;;
     values <-
       (if upToDate : bool then
          ks <- iterate keys ;;
          ret (fold_left (fun values key =>
                            obj_set values (property_key key) (Map_get (localData e) key))
                         ks values)
        else
          (* Or take live data. *)
          blobData <- getAsBlob ;;
          match JSON_parse (blob_text blobData) with
          | None => throw SyntaxError
          | Some json =>
              ks <- iterate keys ;;
              read_keys json ks values
          end) ;;
     update (with_state Idle) ;;;
     ret values)
    (fun error =>
       update (with_state Idle) ;;;
       throw error).

End BlobStorageArea.

Import BlobStorageArea.

(** ** The backend's whole interface ([DummyStorageArea.ts])

    The engine calls [get] with one string and [remove] with one string;
    the class takes more. *)

Module DummyStorage.

(** [this.data.get(key)]: the keys of the [Map] are strings, and a [Map]
    finds a key only under the same value. *)
Definition data_get (d : gmap string StorageValue) (key : json) : option StorageValue :=
  match key with
  | JStr s => d !! s
  | _ => None
  end.

(** [values[key] = v] on the object [values], read as a finite map from
    its own property names; a property holding [undefined] is a key bound to
    [None].  Assigning to [__proto__] goes to the setter every object
    inherits and makes no property. *)
Definition assign {V : Type} (values : gmap string (option V)) (key : string)
    (v : option V) : gmap string (option V) :=
  if String.eqb key "__proto__" then values else <[key := v]> values.

(** [get(keys)]: the object it resolves with. *)
Definition get (keys : KeysArg) (s : DummyStorageArea.t)
  : gmap string (option StorageValue) :=
  let d := DummyStorageArea.data s in
  let keys : list json :=
    match keys with
    | ArgUndefined | ArgNull => map JStr (map fst (map_to_list d))
    | ArgString key => [JStr key]
    | ArgArray elems => map JStr elems
    | ArgObject props => map snd props
    end in
  fold_left (fun values key => assign values (property_key key) (data_get d key)) keys ∅.

(** [remove(keys)] for a string or an array of strings *)
Definition remove (keys : string + list string) (s : DummyStorageArea.t)
  : DummyStorageArea.t :=
  let arr := match keys with inl key => [key] | inr arr => arr end in
  fold_left (fun s key => DummyStorageArea.remove key s) arr s.

End DummyStorage.

(** ** Vocabulary of the properties *)

(** The bytes held by the slots [0 .. count-1] of a store, in index order,
    an absent slot counting as the empty string. *)
Definition slots_content (count : nat) (d : gmap string StorageValue) : Blob :=
  blob_concat (map (fun i => blob_of_value (d !! slotKey i)) (seq 0 count)).

(** The store without its slots [0 .. count-1]. *)
Definition remove_slots (count : nat) (s : DummyStorageArea.t) : DummyStorageArea.t :=
  fold_left (fun s i => DummyStorageArea.remove (slotKey i) s) (seq 0 count) s.

(** The machine after the calls [cs], none of which changes anything. *)
Definition note (cs : list StorageCall) (m : Machine) : Machine :=
  {| this := this m; storage := storage m;
     journal := journal m ++ map (Build_Event (state (this m))) cs |}.

(** The keys the engine reserves for itself in the backend. *)
Definition reserved (cfg : Config.t) (key : string) : Prop :=
  key = keyMeta \/ exists i, i < Config.slotCount cfg /\ key = slotKey i.

(** A call that stays within the reserved keys: it reads, it sets a reserved
    key, or it removes a slot; [clear()] is none of these. *)
Definition own_call (cfg : Config.t) (c : StorageCall) : Prop :=
  match c with
  | CallGet _ => True
  | CallSet key _ => reserved cfg key
  | CallRemove key => exists i, i < Config.slotCount cfg /\ key = slotKey i
  | CallClear => False
  end.

(** [preserves cfg R c]: run by an engine configured by [cfg], [c] leaves it
    configured by [cfg], and whatever [c] does, and however it ends, the
    machines before and after are related by [R]. *)
Definition preserves {A} (cfg : Config.t) (R : Machine -> Machine -> Prop)
    (c : M A) : Prop :=
  forall m, config (this m) = cfg ->
    config (this (c m).2) = cfg /\ R m (c m).2.

(** Every key outside the namespace of the engine is left as it was, and
    only calls of its own were made. *)
Definition framed (cfg : Config.t) (m m' : Machine) : Prop :=
  (forall key, ~ reserved cfg key ->
     DummyStorageArea.data (storage m') !! key = DummyStorageArea.data (storage m) !! key) /\
  exists new, journal m' = journal m ++ new /\ Forall (fun ev => own_call cfg (call ev)) new.

(** The state field stays [s], and every call made meanwhile is made in
    state [s]. *)
Definition in_flight (s : StorageStates) (m m' : Machine) : Prop :=
  state (this m) = s ->
  state (this m') = s /\
  exists new, journal m' = journal m ++ new /\ Forall (fun ev => during ev = s) new.

(** The payload [set(items)] is about to store: the serialized document,
    compressed when the configuration says so ([None] when zlib fails). *)
Definition final_payload `{Platform} (cfg : Config.t) (items : list (string * json))
  : option Blob :=
  let precompressedData := blob_of_string (JSON_stringify (obj_spread [] items)) in
  if Config.compress cfg then
    match deflate precompressedData with
    | Some buffer => Some (blob_of_string (toString_base64 buffer))
    | None => None
    end
  else Some precompressedData.

(** The capacity, [slotCount * slotSize]. *)
Definition maxCapacity (cfg : Config.t) : nat :=
  Config.slotCount cfg * Config.slotSize cfg.

(** The instance and the store once [set] has built its payload: with
    compression enabled, [compress] has recorded [Compressed] by then. *)
Definition compressed_this (e : t) : t :=
  if Config.compress (config e)
  then with_meta (with_lastCompressState Compressed (meta e)) e else e.

Definition compressed_storage (e : t) (s : DummyStorageArea.t) : DummyStorageArea.t :=
  if Config.compress (config e)
  then DummyStorageArea.set [(keyMeta, VMeta (with_lastCompressState Compressed (meta e)))] s
  else s.

(** The local cache after [items] went into [cache]. *)
Definition cache_items (items : list (string * json)) (cache : list (string * json))
  : list (string * json) :=
  fold_left (fun cache key =>
               match obj_get items key with
               | Some v => obj_set cache key v
               | None => cache
               end) (Object_keys items) cache.

(** [flight cfg s ok c]: started in state [s], [c] makes all its calls in
    state [s]; when it returns the state is [ok], when it throws the state
    is still [s] or already [Idle]. *)
Definition flight {A} (cfg : Config.t) (s ok : StorageStates) (c : M A) : Prop :=
  forall m, config (this m) = cfg -> state (this m) = s ->
    config (this (c m).2) = cfg /\
    (exists new, journal (c m).2 = journal m ++ new /\ Forall (fun ev => during ev = s) new) /\
    match (c m).1 with
    | Ok _ => state (this (c m).2) = ok
    | Err _ => state (this (c m).2) = s \/ state (this (c m).2) = Idle
    end.

(** Bytes below 128 only. *)
Definition is_ascii (b : Blob) : Prop := Forall (fun c => (code c < 128)%N) b.

(** The decoder run over [bs] without the end of the stream: the state it is
    left in and what it has put out. *)
Fixpoint utf8_feed (st : utf8_state) (bs : list ascii) : utf8_state * list ascii :=
  match bs with
  | [] => (st, [])
  | b :: rest =>
      let '(st1, out) := utf8_step st b in
      let '(st2, out') := utf8_feed st1 rest in
      (st2, out ++ out')
  end.

(** Bytes the decoder passes on as they are, ending between characters. *)
Definition well_formed (bs : list ascii) : Prop :=
  utf8_feed utf8_idle bs = (utf8_idle, bs).

(** A state the decoder can be in: idle, or inside a sequence whose bytes so
    far lead to it. *)
Definition reachable (st : utf8_state) : Prop :=
  st = utf8_idle \/ (0 < needed st /\ utf8_feed utf8_idle (pending st) = (st, [])).

(** A slot that is absent or holds a text that [text()] produced. *)
Definition slot_is_text (v : option StorageValue) : Prop :=
  v = None \/ exists p, v = Some (VString (blob_text p)).

(** The part of [data] that [splitIntoParts] saves in slot [index]. *)
Definition part (slotSize : nat) (data : Blob) (index : nat) : Blob :=
  blob_slice (index * slotSize) (Nat.min ((index + 1) * slotSize) (blob_size data)) data.

(** [s] between double quotes. *)
Definition quoted (s : string) : string := String dquote (s +:+ String dquote "").

(** Nothing was written: the backend is as it was, the instance is as it was
    but for its state field, and every call made was a [get]. *)
Definition untouched (m m' : Machine) : Prop :=
  storage m' = storage m /\
  with_state Idle (this m') = with_state Idle (this m) /\
  exists new, journal m' = journal m ++ new /\
              Forall (fun ev => exists key, call ev = CallGet key) new.

(** The keys [get(items)] runs over, when [items] gives something a loop
    can run over. *)
Definition requested (e : t) (items : KeysArg) : option (list json) :=
  match argKeysToArray e items with
  | KeysList l => Some (map JStr l)
  | KeysJson (JArr elems) => Some elems
  | KeysJson (JStr s) => Some (map JStr (utf8_chars s))
  | KeysFunction | KeysUndefined | KeysJson _ => None
  end.

(** The names every object inherits a property under from
    [Object.prototype]. *)
Definition Object_prototype : list string :=
  ["constructor"; "__defineGetter__"; "__defineSetter__"; "hasOwnProperty";
   "__lookupGetter__"; "__lookupSetter__"; "isPrototypeOf"; "propertyIsEnumerable";
   "toString"; "valueOf"; "__proto__"; "toLocaleString"].

(** A key that [values[key] = v] makes a property of (an assignment to
    [__proto__] makes none), and that [doc[key]] reads off the object [doc]
    as a property of its own or not at all. *)
Definition plain_key (doc : list (string * json)) (key : string) : Prop :=
  key <> "__proto__" /\ (key ∈ Object_prototype -> key ∈ map fst doc).

(** A call without the value it carries: which operation, on which key. *)
Definition without_value (c : StorageCall) : StorageCall :=
  match c with
  | CallSet key _ => CallSet key (VString "")
  | _ => c
  end.

(** The slots [splitIntoParts] writes for a payload of [size] bytes: slot 0,
    and every slot that starts before the end of the payload. *)
Definition written_slots (cfg : Config.t) (size : nat) : list nat :=
  filter (fun j => j = 0 \/ j * Config.slotSize cfg < size) (seq 0 (Config.slotCount cfg)).

(** ** A platform to run examples on

    MD5 (RFC 1321) and base64 (RFC 4648) are written out; zlib and
    [JSON.parse] are given on the one document the examples compress. *)

Module MD5.
Open Scope Z_scope.

Definition w32 (x : Z) : Z := x mod 4294967296.
Definition rotl32 (x c : Z) : Z :=
  w32 (Z.lor (Z.shiftl x c) (Z.shiftr x (32 - c))).
Definition not32 (x : Z) : Z := 4294967295 - x.

Definition shifts : list Z :=
  [7; 12; 17; 22; 7; 12; 17; 22; 7; 12; 17; 22; 7; 12; 17; 22;
   5; 9; 14; 20; 5; 9; 14; 20; 5; 9; 14; 20; 5; 9; 14; 20;
   4; 11; 16; 23; 4; 11; 16; 23; 4; 11; 16; 23; 4; 11; 16; 23;
   6; 10; 15; 21; 6; 10; 15; 21; 6; 10; 15; 21; 6; 10; 15; 21].

Definition sines : list Z :=
  [3614090360; 3905402710; 606105819; 3250441966; 4118548399; 1200080426;
   2821735955; 4249261313; 1770035416; 2336552879; 4294925233; 2304563134;
   1804603682; 4254626195; 2792965006; 1236535329; 4129170786; 3225465664;
   643717713; 3921069994; 3593408605; 38016083; 3634488961; 3889429448;
   568446438; 3275163606; 4107603335; 1163531501; 2850285829; 4243563512;
   1735328473; 2368359562; 4294588738; 2272392833; 1839030562; 4259657740;
   2763975236; 1272893353; 4139469664; 3200236656; 681279174; 3936430074;
   3572445317; 76029189; 3654602809; 3873151461; 530742520; 3299628645;
   4096336452; 1126891415; 2878612391; 4237533241; 1700485571; 2399980690;
   4293915773; 2240044497; 1873313359; 4264355552; 2734768916; 1309151649;
   4149444226; 3174756917; 718787259; 3951481745].

(** [n] little-endian words of four bytes each. *)
Fixpoint words (bs : list Z) (n : nat) : list Z :=
  match n with
  | O => []
  | S n' =>
      match bs with
      | b0 :: b1 :: b2 :: b3 :: rest =>
          (b0 + 256 * b1 + 65536 * b2 + 16777216 * b3) :: words rest n'
      | _ => []
      end
  end.

Definition round (M : list Z) (st : Z * Z * Z * Z) (i : nat) : Z * Z * Z * Z :=
  let '(a, b, c, d) := st in
  let iz := Z.of_nat i in
  let '(f, g) :=
    if iz <? 16 then (Z.lor (Z.land b c) (Z.land (not32 b) d), iz)
    else if iz <? 32 then (Z.lor (Z.land d b) (Z.land (not32 d) c), (5 * iz + 1) mod 16)
    else if iz <? 48 then (Z.lxor (Z.lxor b c) d, (3 * iz + 5) mod 16)
    else (Z.lxor c (Z.lor b (not32 d)), (7 * iz) mod 16) in
  let f' := w32 (f + a + nth i sines 0 + nth (Z.to_nat g) M 0) in
  (d, w32 (b + rotl32 f' (nth i shifts 0)), b, c).

Definition block (st : Z * Z * Z * Z) (bs : list Z) : Z * Z * Z * Z :=
  let M := words bs 16 in
  let '(a, b, c, d) := fold_left (round M) (seq 0 64) st in
  let '(a0, b0, c0, d0) := st in
  (w32 (a0 + a), w32 (b0 + b), w32 (c0 + c), w32 (d0 + d)).

Fixpoint blocks (fuel : nat) (st : Z * Z * Z * Z) (bs : list Z) : Z * Z * Z * Z :=
  match fuel with
  | O => st
  | S fuel' =>
      match bs with
      | [] => st
      | _ => blocks fuel' (block st (firstn 64 bs)) (skipn 64 bs)
      end
  end.

Definition le_bytes (n : nat) (x : Z) : list Z :=
  map (fun i => (x / 256 ^ Z.of_nat i) mod 256) (seq 0 n).

Definition pad (bs : list Z) : list Z :=
  let len := Z.of_nat (length bs) in
  bs ++ [128] ++ repeat 0 (Z.to_nat ((55 - len) mod 64)) ++ le_bytes 8 (8 * len).

Definition hex (bs : list Z) : string :=
  fold_right (fun b s => String (hex_digit (Z.to_N (b / 16)))
                           (String (hex_digit (Z.to_N (b mod 16))) s)) "" bs.

(** The digest of the bytes of [s], in hexadecimal. *)
Definition digest (s : string) : string :=
  let padded := pad (map (fun c => Z.of_N (code c)) (list_ascii_of_string s)) in
  let '(a, b, c, d) :=
    blocks (length padded) (1732584193, 4023233417, 2562383102, 271733878) padded in
  hex (le_bytes 4 a ++ le_bytes 4 b ++ le_bytes 4 c ++ le_bytes 4 d).
End MD5.

Module Base64.
Definition alphabet : list ascii :=
  list_ascii_of_string "ABCDEFGHIJKLMNOPQRSTUVWXYZabcdefghijklmnopqrstuvwxyz0123456789+/".

Definition digit (n : N) : ascii := nth (N.to_nat n) alphabet "="%char.

Fixpoint encode (bs : list ascii) : list ascii :=
  match bs with
  | [] => []
  | [b0] =>
      let n := (code b0 * 65536)%N in
      [digit (n / 262144); digit (n / 4096 mod 64); "="%char; "="%char]
  | [b0; b1] =>
      let n := (code b0 * 65536 + code b1 * 256)%N in
      [digit (n / 262144); digit (n / 4096 mod 64); digit (n / 64 mod 64); "="%char]
  | b0 :: b1 :: b2 :: rest =>
      let n := (code b0 * 65536 + code b1 * 256 + code b2)%N in
      digit (n / 262144) :: digit (n / 4096 mod 64) :: digit (n / 64 mod 64)
        :: digit (n mod 64) :: encode rest
  end.
End Base64.

Definition sample_items : list (string * json) := [("a", JStr "1")].

(** [{"a":"1"}] *)
Definition sample_document : string :=
  "{" +:+ quoted "a" +:+ ":" +:+ quoted "1" +:+ "}".

(** What zlib makes of [sample_document] at its default settings. *)
Definition sample_deflated : Blob :=
  map byte [120; 156; 171; 86; 74; 84; 178; 82; 50; 84; 170; 5; 0; 11; 221; 2; 77]%N.

Definition sample_platform : Platform := {|
  md5 := MD5.digest;
  deflate := fun b =>
    if decide (b = blob_of_string sample_document) then Some sample_deflated else None;
  toString_base64 := fun b => string_of_list_ascii (Base64.encode b);
  fill_base64 := fun _ _ => [];
  unzip := fun _ => None;
  JSON_parse := fun s =>
    if decide (s = sample_document) then Some (JObj sample_items) else None
|}.

(** Scenarios of the test suite: four slots of four bytes. *)
Definition config_4x4 : Config.t :=
  {| Config.slotSize := 4; Config.slotCount := 4; Config.compress := false |}.

Definition items_ABC : list (string * json) := [("key", JStr "ABC")].
Definition items_ABCDEF : list (string * json) := [("key", JStr "ABCDEF")].
Definition items_ABCDEFG : list (string * json) := [("key", JStr "ABCDEFG")].

(** An engine created on an empty backend. *)
Definition fresh (cfg : Config.t) : Machine := (create cfg DummyStorageArea.empty).2.

(** The machine in which the engine [e] meets the store [s]. *)
Definition attach (e : t) (s : DummyStorageArea.t) : Machine :=
  {| this := e; storage := s; journal := [] |}.

(** Scenarios of the shared backend: sixteen slots of sixteen bytes. *)
Definition config_16x16 : Config.t :=
  {| Config.slotSize := 16; Config.slotCount := 16; Config.compress := false |}.

Definition items_a : list (string * json) := [("a", JStr "1")].
Definition items_b : list (string * json) := [("b", JStr "2")].

(** [{"b":"2"}] and [{"a":"1","b":"2"}] *)
Definition document_b : string :=
  "{" +:+ quoted "b" +:+ ":" +:+ quoted "2" +:+ "}".
Definition document_a_b : string :=
  "{" +:+ quoted "a" +:+ ":" +:+ quoted "1" +:+ "," +:+ quoted "b" +:+ ":" +:+ quoted "2" +:+ "}".

(** Two slots of seven bytes, and a document with a character of two
    bytes: [{"k":"é"}], ten bytes, the seventh and eighth being [é]. *)
Definition config_7x2 : Config.t :=
  {| Config.slotSize := 7; Config.slotCount := 2; Config.compress := false |}.

Definition e_acute : string := String (byte 195) (String (byte 169) "").
Definition items_e_acute : list (string * json) := [("k", JStr e_acute)].
Definition document_e_acute : string :=
  "{" +:+ quoted "k" +:+ ":" +:+ quoted e_acute +:+ "}".

(** Compression on, four slots of four bytes and four of sixteen. *)
Definition config_4x4_compress : Config.t :=
  {| Config.slotSize := 4; Config.slotCount := 4; Config.compress := true |}.
Definition config_16x4_compress : Config.t :=
  {| Config.slotSize := 16; Config.slotCount := 4; Config.compress := true |}.

(** A backend that another user has put a key of their own in. *)
Definition shared_storage : DummyStorageArea.t :=
  DummyStorageArea.set [("dummy1", VString "value1")] DummyStorageArea.empty.

(** The test suite's store of four slots of four bytes, holding
    [{"key":"ABCDEF"}]. *)
Definition full_4x4 : Machine :=
  (@set sample_platform 2 items_ABCDEF
     (@set sample_platform 1 items_ABC (fresh config_4x4)).2).2.

(** ** A platform to read compressed documents on

    Base64 is decoded as [Buffer] does it, and [fill] repeats what was
    decoded until the buffer is full; zlib is again given on the one
    document, and is taken to stop at the end of the stream it reads. *)

Module Base64Decode.
Definition value (c : ascii) : option N :=
  (fix find (l : list ascii) (n : N) : option N :=
     match l with
     | [] => None
     | x :: rest => if Ascii.eqb x c then Some n else find rest (n + 1)%N
     end) Base64.alphabet 0%N.

Fixpoint bytes (ds : list N) : list ascii :=
  match ds with
  | d0 :: d1 :: d2 :: d3 :: rest =>
      let n := (d0 * 262144 + d1 * 4096 + d2 * 64 + d3)%N in
      byte (n / 65536) :: byte (n / 256 mod 256) :: byte (n mod 256) :: bytes rest
  | [d0; d1; d2] =>
      let n := (d0 * 262144 + d1 * 4096 + d2 * 64)%N in
      [byte (n / 65536); byte (n / 256 mod 256)]
  | [d0; d1] =>
      let n := (d0 * 262144 + d1 * 4096)%N in
      [byte (n / 65536)]
  | _ => []
  end.

(** The bytes a base64 text stands for; characters outside the alphabet,
    the padding among them, are passed over. *)
Definition decode (s : string) : list ascii :=
  bytes (omap value (list_ascii_of_string s)).

(** [Buffer.alloc(size).fill(s, 0, size, "base64")] *)
Definition fill (s : string) (size : nat) : Blob :=
  match decode s with
  | [] => repeat (byte 0) size
  | pattern => take size (concat (repeat pattern size))
  end.
End Base64Decode.

Definition reading_platform : Platform := {|
  md5 := MD5.digest;
  deflate := fun b =>
    if decide (b = blob_of_string sample_document) then Some sample_deflated else None;
  toString_base64 := fun b => string_of_list_ascii (Base64.encode b);
  fill_base64 := Base64Decode.fill;
  unzip := fun b =>
    if decide (take (length sample_deflated) b = sample_deflated)
    then Some (blob_of_string sample_document) else None;
  JSON_parse := fun s =>
    if decide (s = sample_document) then Some (JObj sample_items) else None
|}.


(** * Properties *)

Arguments blob_text : simpl never.
Arguments JSON_stringify : simpl never.
Arguments slots_content : simpl never.
Arguments calculateHash : simpl never.
Arguments obj_spread : simpl never.
Arguments blob_of_string : simpl never.
Arguments blob_size : simpl never.

(** ** Running method bodies *)

Lemma bind_ok {A B} (c : M A) (k : A -> M B) m a m' :
  c m = (Ok a, m') -> bind c k m = k a m'.
Proof. intros E. unfold bind. by rewrite E. Qed.

Lemma bind_err {A B} (c : M A) (k : A -> M B) m e m' :
  c m = (Err e, m') -> bind c k m = (Err e, m').
Proof. intros E. unfold bind. by rewrite E. Qed.

Ltac tidy :=
  cbn [this storage journal note record state config meta localData occupiedStorage
       getMeta with_meta with_state with_localData with_occupiedStorage].

Ltac step := erewrite bind_ok by reflexivity; tidy.

Lemma with_occupiedStorage_id e : with_occupiedStorage (occupiedStorage e) e = e.
Proof. by destruct e. Qed.

Lemma slotKey_ne_meta i : slotKey i <> keyMeta.
Proof. unfold slotKey, keyPrefix, keyMeta. cbn. discriminate. Qed.

Lemma slotKey_inj i j : slotKey i = slotKey j -> i = j.
Proof.
  unfold slotKey, keyPrefix. cbn. intros E. injection E as E.
  by apply pretty_nat_inj in E.
Qed.

Lemma slots_content_insert_meta count v d :
  slots_content count (<[keyMeta := v]> d) = slots_content count d.
Proof.
  unfold slots_content. f_equal. apply map_ext. intros i.
  rewrite lookup_insert_ne; [done|]. intros E. by apply (slotKey_ne_meta i).
Qed.

Lemma connectedBlobs_from_run count : forall i blobs m,
  connectedBlobs_from count i blobs m =
  (Ok (blobs ++ map (fun j => blob_of_value (DummyStorageArea.data (storage m) !! slotKey j))
                    (seq i count)),
   note (map (fun j => CallGet (slotKey j)) (seq i count)) m).
Proof.
  induction count as [|count IH]; intros i blobs m.
  - cbn. rewrite app_nil_r. destruct m. unfold note. cbn. by rewrite app_nil_r.
  - cbn [connectedBlobs_from]. unfold bind at 1. unfold getBlob, bind, storage_get, ret.
    rewrite IH. cbn. f_equal.
    + by rewrite <- app_assoc.
    + unfold note, record. cbn. f_equal. by rewrite <- app_assoc.
Qed.

(** [connectedBlobs] reads the slots and changes nothing. *)
Lemma connectedBlobs_run m :
  connectedBlobs m =
  (Ok (slots_content (Config.slotCount (config (this m))) (DummyStorageArea.data (storage m))),
   note (map (fun j => CallGet (slotKey j)) (seq 0 (Config.slotCount (config (this m))))) m).
Proof.
  unfold connectedBlobs, bind, getThis. rewrite connectedBlobs_from_run. reflexivity.
Qed.

Lemma clear_loop_run count : forall i m,
  for_loop count i (fun i => bind (storage_remove (slotKey i)) (fun _ => ret false)) m =
  (Ok tt,
   {| this := this m;
      storage := fold_left (fun s i => DummyStorageArea.remove (slotKey i) s)
                           (seq i count) (storage m);
      journal := journal m ++ map (Build_Event (state (this m)))
                                  (map (fun j => CallRemove (slotKey j)) (seq i count)) |}).
Proof.
  induction count as [|count IH]; intros i m.
  - cbn. rewrite app_nil_r. by destruct m.
  - cbn [for_loop]. unfold bind at 1. unfold bind at 1.
    unfold storage_remove at 1. unfold ret at 1.
    rewrite IH. cbn. unfold record. by rewrite <- app_assoc.
Qed.

(** [clear] removes the slots, one call each, and empties the cache. *)
Lemma clear_run m :
  clear m =
  (Ok tt,
   {| this := with_localData [] (with_occupiedStorage 0 (this m));
      storage := remove_slots (Config.slotCount (config (this m))) (storage m);
      journal := journal m ++ map (Build_Event (state (this m)))
                   (map (fun j => CallRemove (slotKey j))
                        (seq 0 (Config.slotCount (config (this m))))) |}).
Proof.
  unfold clear. unfold bind at 1. unfold getThis at 1. unfold bind at 1.
  rewrite clear_loop_run. reflexivity.
Qed.

Lemma remove_from_lookup_slot count : forall i s j,
  i <= j < i + count ->
  DummyStorageArea.data
    (fold_left (fun s i => DummyStorageArea.remove (slotKey i) s) (seq i count) s)
    !! slotKey j = None.
Proof.
  induction count as [|count IH]; intros i s j Hj; [lia|].
  cbn [seq fold_left]. destruct (decide (j = i)) as [->|Hne]; [|apply IH; lia].
  assert (forall n k s', DummyStorageArea.data s' !! slotKey i = None ->
    DummyStorageArea.data
      (fold_left (fun s i => DummyStorageArea.remove (slotKey i) s) (seq k n) s')
      !! slotKey i = None) as Hkeep.
  { clear. induction n as [|n IH]; intros k s' Hs'; [done|].
    cbn [seq fold_left]. apply IH. cbn.
    destruct (decide (k = i)) as [->|Hne]; [apply lookup_delete_eq|].
    rewrite lookup_delete_ne; [done|]. intros E. by apply slotKey_inj in E. }
  apply Hkeep. cbn. apply lookup_delete_eq.
Qed.

Lemma splitIntoParts_loop_run cfg data count : forall i m,
  exists occ st' j',
    for_loop count i
      (fun index =>
         let end_ := Nat.min ((index + 1) * Config.slotSize cfg) (blob_size data) in
         let part := blob_slice (index * Config.slotSize cfg) end_ data in
         setBlob index part ;;;
         update (fun e => with_occupiedStorage (occupiedStorage e + blob_size part) e) ;;;
         ret (end_ =? blob_size data)%nat) m =
    (Ok tt, {| this := with_occupiedStorage occ (this m); storage := st'; journal := j' |}).
Proof.
  induction count as [|count IH]; intros i m.
  - exists (occupiedStorage (this m)), (storage m), (journal m). cbn.
    rewrite with_occupiedStorage_id. by destruct m.
  - cbn [for_loop]. cbv zeta. erewrite bind_ok by reflexivity.
    destruct (_ =? _)%nat.
    + cbn. by eexists _, _, _.
    + edestruct IH as (occ & st' & j' & ->). cbn. by eexists _, _, _.
Qed.

(** [splitIntoParts] returns, and of the instance it changes only
    [occupiedStorage]. *)
Lemma splitIntoParts_run cfg data m :
  exists occ st' j',
    splitIntoParts cfg data m =
    (Ok tt, {| this := with_occupiedStorage occ (this m); storage := st'; journal := j' |}).
Proof. apply splitIntoParts_loop_run. Qed.

(** ** What every operation preserves *)
Section Preservation.
Context (cfg : Config.t) (R : Machine -> Machine -> Prop) `{!PreOrder R}.

Lemma preserves_ret {A} (a : A) : preserves cfg R (ret a).
Proof. intros m Hc. split; [done|reflexivity]. Qed.

Lemma preserves_throw {A} e : preserves cfg R (@throw A e).
Proof. intros m Hc. split; [done|reflexivity]. Qed.

Lemma preserves_bind {A B} (c : M A) (k : A -> M B) :
  preserves cfg R c -> (forall a, preserves cfg R (k a)) -> preserves cfg R (bind c k).
Proof.
  intros Hc Hk m Hm. unfold bind. destruct (Hc m Hm) as [Hc' HR].
  destruct (c m) as [[a|e] m']; cbn in *; [|done].
  destruct (Hk a m' Hc') as [Hc'' HR']. split; [done|]. by etransitivity.
Qed.

Lemma preserves_getThis {B} (k : t -> M B) :
  (forall e, config e = cfg -> preserves cfg R (k e)) ->
  preserves cfg R (bind getThis k).
Proof. intros Hk m Hm. exact (Hk (this m) Hm m Hm). Qed.

Lemma preserves_try_catch {A} (c : M A) (h : Error -> M A) :
  preserves cfg R c -> (forall e, preserves cfg R (h e)) -> preserves cfg R (try_catch c h).
Proof.
  intros Hc Hh m Hm. unfold try_catch. destruct (Hc m Hm) as [Hc' HR].
  destruct (c m) as [[a|e] m']; cbn in *; [done|].
  destruct (Hh e m' Hc') as [Hc'' HR']. split; [done|]. by etransitivity.
Qed.

Lemma preserves_for_loop (body : nat -> M bool) count : forall i,
  (forall j, i <= j < i + count -> preserves cfg R (body j)) ->
  preserves cfg R (for_loop count i body).
Proof.
  induction count as [|count IH]; intros i Hbody; cbn [for_loop].
  - apply preserves_ret.
  - apply preserves_bind; [apply Hbody; lia|].
    intros [|]; [apply preserves_ret|]. apply IH. intros j Hj. apply Hbody. lia.
Qed.

Lemma preserves_connectedBlobs_from count : forall i blobs,
  (forall key, preserves cfg R (storage_get key)) ->
  preserves cfg R (connectedBlobs_from count i blobs).
Proof.
  induction count as [|count IH]; intros i blobs Hget; cbn [connectedBlobs_from].
  - apply preserves_ret.
  - apply preserves_bind; [|intros b; by apply IH].
    unfold getBlob. apply preserves_bind; [apply Hget|]. intros v. apply preserves_ret.
Qed.
End Preservation.

#[local] Instance framed_preorder cfg : PreOrder (framed cfg).
Proof.
  split.
  - intros m. split; [done|]. exists []. by rewrite app_nil_r.
  - intros m1 m2 m3 (Hk2 & new2 & Hj2 & Hf2) (Hk3 & new3 & Hj3 & Hf3).
    split.
    + intros key Hkey. rewrite Hk3, Hk2; done.
    + exists (new2 ++ new3). rewrite Hj3, Hj2, <- app_assoc. split; [done|].
      by apply Forall_app.
Qed.

#[local] Instance in_flight_preorder s : PreOrder (in_flight s).
Proof.
  split.
  - intros m Hs. split; [done|]. exists []. by rewrite app_nil_r.
  - intros m1 m2 m3 H12 H23 Hs.
    destruct (H12 Hs) as (Hs2 & new2 & Hj2 & Hf2).
    destruct (H23 Hs2) as (Hs3 & new3 & Hj3 & Hf3).
    split; [done|]. exists (new2 ++ new3). rewrite Hj3, Hj2, <- app_assoc. split; [done|].
    by apply Forall_app.
Qed.

Lemma framed_update cfg f : (forall e, config (f e) = config e) ->
  preserves cfg (framed cfg) (update f).
Proof.
  intros Hf m Hc. cbn. split; [by rewrite Hf|]. split; [done|].
  exists []. by rewrite app_nil_r.
Qed.

Lemma framed_storage_get cfg key : preserves cfg (framed cfg) (storage_get key).
Proof.
  intros m Hc. cbn. split; [done|]. split; [done|].
  eexists. split; [reflexivity|]. by constructor.
Qed.

Lemma framed_storage_set cfg key v : reserved cfg key ->
  preserves cfg (framed cfg) (storage_set key v).
Proof.
  intros Hr m Hc. cbn. split; [done|]. split; cbn.
  - intros k Hk. apply lookup_insert_ne. intros ->. done.
  - eexists. split; [reflexivity|]. by constructor.
Qed.

Lemma framed_storage_remove cfg i :
  i < Config.slotCount cfg -> preserves cfg (framed cfg) (storage_remove (slotKey i)).
Proof.
  intros Hi m Hc. cbn. split; [done|]. split; cbn.
  - intros k Hk. apply lookup_delete_ne. intros <-. apply Hk. right. eauto.
  - eexists. split; [reflexivity|]. constructor; [|done]. cbn. eauto.
Qed.

Lemma in_flight_update cfg s f :
  (forall e, config (f e) = config e) -> (forall e, state (f e) = state e) ->
  preserves cfg (in_flight s) (update f).
Proof.
  intros Hc Hf m Hm. cbn. split; [by rewrite Hc|]. intros Hs. cbn.
  split; [by rewrite Hf|]. exists []. by rewrite app_nil_r.
Qed.

Lemma in_flight_storage_get cfg s key : preserves cfg (in_flight s) (storage_get key).
Proof.
  intros m Hm. split; [done|]. intros Hs. cbn. split; [done|].
  eexists. split; [reflexivity|]. by constructor.
Qed.

Lemma in_flight_storage_set cfg s key v : preserves cfg (in_flight s) (storage_set key v).
Proof.
  intros m Hm. split; [done|]. intros Hs. cbn. split; [done|].
  eexists. split; [reflexivity|]. by constructor.
Qed.

Lemma in_flight_storage_remove cfg s key : preserves cfg (in_flight s) (storage_remove key).
Proof.
  intros m Hm. split; [done|]. intros Hs. cbn. split; [done|].
  eexists. split; [reflexivity|]. by constructor.
Qed.

Create HintDb pres discriminated.

Lemma reserved_meta cfg : reserved cfg keyMeta.
Proof. by left. Qed.

Lemma reserved_slot cfg i : i < Config.slotCount cfg -> reserved cfg (slotKey i).
Proof. right. eauto. Qed.

#[local] Hint Resolve framed_storage_get framed_storage_set framed_storage_remove
  in_flight_storage_get in_flight_storage_set in_flight_storage_remove
  reserved_meta reserved_slot : pres.

Ltac pres_step :=
  first
    [ progress intros
    | solve [eauto with pres]
    | apply preserves_ret; [typeclasses eauto]
    | apply preserves_throw; [typeclasses eauto]
    | apply preserves_getThis;
      let e := fresh "e" in let He := fresh "He" in intros e He; try rewrite !He
    | apply preserves_bind; [typeclasses eauto| |]
    | apply preserves_try_catch; [typeclasses eauto| |]
    | apply framed_update; intros []; reflexivity
    | apply in_flight_update; intros []; reflexivity
    | match goal with
      | |- preserves _ _ (match ?x with _ => _ end) => destruct x
      end ].

Ltac pres := repeat pres_step.

Section Composite.
Context `{Platform}.
Variable cfg : Config.t.
Variable s : StorageStates.

Lemma framed_setMeta v : preserves cfg (framed cfg) (setMeta v).
Proof. unfold setMeta. pres. Qed.
Lemma in_flight_setMeta v : preserves cfg (in_flight s) (setMeta v).
Proof. unfold setMeta. pres. Qed.
Hint Resolve framed_setMeta in_flight_setMeta : pres.

Lemma framed_setHash v : preserves cfg (framed cfg) (setHash v).
Proof. unfold setHash. pres. Qed.
Lemma in_flight_setHash v : preserves cfg (in_flight s) (setHash v).
Proof. unfold setHash. pres. Qed.

Lemma framed_setPreCompressHash v : preserves cfg (framed cfg) (setPreCompressHash v).
Proof. unfold setPreCompressHash. pres. Qed.
Lemma in_flight_setPreCompressHash v : preserves cfg (in_flight s) (setPreCompressHash v).
Proof. unfold setPreCompressHash. pres. Qed.

Lemma framed_setLastCompress v : preserves cfg (framed cfg) (setLastCompress v).
Proof. unfold setLastCompress. pres. Qed.
Lemma in_flight_setLastCompress v : preserves cfg (in_flight s) (setLastCompress v).
Proof. unfold setLastCompress. pres. Qed.

Lemma framed_setLastUpdated v : preserves cfg (framed cfg) (setLastUpdated v).
Proof. unfold setLastUpdated. pres. Qed.
Lemma in_flight_setLastUpdated v : preserves cfg (in_flight s) (setLastUpdated v).
Proof. unfold setLastUpdated. pres. Qed.

Lemma framed_getMaxCapacity : preserves cfg (framed cfg) getMaxCapacity.
Proof. unfold getMaxCapacity. pres. Qed.
Lemma in_flight_getMaxCapacity : preserves cfg (in_flight s) getMaxCapacity.
Proof. unfold getMaxCapacity. pres. Qed.

Lemma framed_setBlob i v : i < Config.slotCount cfg -> preserves cfg (framed cfg) (setBlob i v).
Proof. unfold setBlob. pres. Qed.
Lemma in_flight_setBlob i v : preserves cfg (in_flight s) (setBlob i v).
Proof. unfold setBlob. pres. Qed.

Lemma framed_connectedBlobs : preserves cfg (framed cfg) connectedBlobs.
Proof.
  unfold connectedBlobs. pres.
  apply preserves_connectedBlobs_from; [typeclasses eauto|pres].
Qed.
Lemma in_flight_connectedBlobs : preserves cfg (in_flight s) connectedBlobs.
Proof.
  unfold connectedBlobs. pres.
  apply preserves_connectedBlobs_from; [typeclasses eauto|pres].
Qed.

Hint Resolve framed_setHash in_flight_setHash framed_setPreCompressHash
  in_flight_setPreCompressHash framed_setLastCompress in_flight_setLastCompress
  framed_setLastUpdated in_flight_setLastUpdated framed_getMaxCapacity
  in_flight_getMaxCapacity framed_setBlob
  in_flight_setBlob framed_connectedBlobs in_flight_connectedBlobs : pres.

Lemma framed_getCurrentUsed live : preserves cfg (framed cfg) (getCurrentUsed live).
Proof. unfold getCurrentUsed. pres. Qed.
Lemma in_flight_getCurrentUsed live : preserves cfg (in_flight s) (getCurrentUsed live).
Proof. unfold getCurrentUsed. pres. Qed.

Lemma framed_isUpToDate : preserves cfg (framed cfg) isUpToDate.
Proof. unfold isUpToDate. pres. Qed.
Lemma in_flight_isUpToDate : preserves cfg (in_flight s) isUpToDate.
Proof. unfold isUpToDate. pres. Qed.

Lemma framed_compress data : preserves cfg (framed cfg) (compress data).
Proof. unfold compress. pres. Qed.
Lemma in_flight_compress data : preserves cfg (in_flight s) (compress data).
Proof. unfold compress. pres. Qed.

Lemma framed_decompress data : preserves cfg (framed cfg) (decompress data).
Proof. unfold decompress. pres. Qed.
Lemma in_flight_decompress data : preserves cfg (in_flight s) (decompress data).
Proof. unfold decompress. pres. Qed.
Hint Resolve framed_decompress in_flight_decompress framed_isUpToDate in_flight_isUpToDate
   framed_compress in_flight_compress : pres.

Lemma framed_getAsBlob : preserves cfg (framed cfg) getAsBlob.
Proof. unfold getAsBlob. pres. Qed.
Lemma in_flight_getAsBlob : preserves cfg (in_flight s) getAsBlob.
Proof. unfold getAsBlob. pres. Qed.

Lemma framed_splitIntoParts data : preserves cfg (framed cfg) (splitIntoParts cfg data).
Proof.
  unfold splitIntoParts. apply preserves_for_loop; [typeclasses eauto|].
  intros j Hj. pres. apply framed_setBlob. lia.
Qed.
Lemma in_flight_splitIntoParts c data : preserves cfg (in_flight s) (splitIntoParts c data).
Proof.
  unfold splitIntoParts. apply preserves_for_loop; [typeclasses eauto|].
  intros j Hj. pres.
Qed.

Lemma framed_clear : preserves cfg (framed cfg) clear.
Proof.
  unfold clear. pres. apply preserves_for_loop; [typeclasses eauto|].
  intros j Hj. pres. apply framed_storage_remove. lia.
Qed.
Lemma in_flight_clear : preserves cfg (in_flight s) clear.
Proof.
  unfold clear. pres. apply preserves_for_loop; [typeclasses eauto|].
  intros j Hj. pres.
Qed.
Hint Resolve framed_getAsBlob in_flight_getAsBlob framed_splitIntoParts in_flight_splitIntoParts
  framed_clear in_flight_clear : pres.

Lemma framed_iterate ks : preserves cfg (framed cfg) (iterate ks).
Proof. unfold iterate. pres. Qed.
Lemma in_flight_iterate ks : preserves cfg (in_flight s) (iterate ks).
Proof. unfold iterate. pres. Qed.

Lemma framed_read_keys j keys : forall values, preserves cfg (framed cfg) (read_keys j keys values).
Proof. induction keys; intros; cbn [read_keys]; unfold json_get; pres. Qed.
Lemma in_flight_read_keys j keys : forall values, preserves cfg (in_flight s) (read_keys j keys values).
Proof. induction keys; intros; cbn [read_keys]; unfold json_get; pres. Qed.
Hint Resolve framed_iterate in_flight_iterate framed_read_keys in_flight_read_keys : pres.

Lemma framed_set now items : preserves cfg (framed cfg) (set now items).
Proof. unfold set. pres. Qed.

Lemma framed_get items : preserves cfg (framed cfg) (get items).
Proof. unfold get. pres. Qed.
End Composite.

#[local] Hint Resolve framed_setMeta in_flight_setMeta
  framed_setHash in_flight_setHash framed_setPreCompressHash
  in_flight_setPreCompressHash framed_setLastCompress in_flight_setLastCompress
  framed_setLastUpdated in_flight_setLastUpdated framed_getMaxCapacity
  in_flight_getMaxCapacity framed_setBlob in_flight_setBlob
  framed_connectedBlobs in_flight_connectedBlobs
  framed_getCurrentUsed in_flight_getCurrentUsed
  framed_decompress in_flight_decompress framed_isUpToDate in_flight_isUpToDate
  framed_compress in_flight_compress
  framed_getAsBlob in_flight_getAsBlob framed_splitIntoParts in_flight_splitIntoParts
  framed_clear in_flight_clear
  framed_iterate in_flight_iterate framed_read_keys in_flight_read_keys : pres.

(** ** The state field during an operation *)

Section Flight.
Context `{Platform} (cfg : Config.t) (s : StorageStates).

Lemma flight_of_preserves {A} (c : M A) :
  preserves cfg (in_flight s) c -> flight cfg s s c.
Proof.
  intros Hc m Hm Hs. destruct (Hc m Hm) as [Hc' Hf]. destruct (Hf Hs) as [Hs' Hj].
  split; [done|]. split; [done|]. destruct (c m).1; auto.
Qed.

Lemma flight_bind {A B} ok (c : M A) (k : A -> M B) :
  flight cfg s s c -> (forall a, flight cfg s ok (k a)) -> flight cfg s ok (bind c k).
Proof.
  intros Hc Hk m Hm Hs. unfold bind. destruct (Hc m Hm Hs) as (Hc' & (new & Hj & Hf) & Hr).
  destruct (c m) as [[a|e] m1]; cbn in *.
  - destruct (Hk a m1 Hc' Hr) as (Hc'' & (new' & Hj' & Hf') & Hr').
    split; [done|]. split; [|done]. exists (new ++ new'). rewrite Hj', Hj, <- app_assoc.
    split; [done|]. by apply Forall_app.
  - split; [done|]. split; [|done]. by exists new.
Qed.

Lemma flight_getThis {B} ok (k : t -> M B) :
  (forall e, config e = cfg -> flight cfg s ok (k e)) -> flight cfg s ok (bind getThis k).
Proof. intros Hk m Hm. exact (Hk (this m) Hm m Hm). Qed.

Lemma flight_finish : flight cfg s Idle (update (with_state Idle)).
Proof.
  intros m Hm Hs. cbn. split; [done|]. split; [|done]. exists []. by rewrite app_nil_r.
Qed.

Lemma flight_finish_ret {A} (a : A) :
  flight cfg s Idle (bind (update (with_state Idle)) (fun _ => ret a)).
Proof.
  intros m Hm Hs. cbn. split; [done|]. split; [|done]. exists []. by rewrite app_nil_r.
Qed.

Lemma flight_abort {A} ok e :
  flight cfg s ok (bind (update (with_state Idle)) (fun _ => @throw A e)).
Proof.
  intros m Hm Hs. cbn. split; [done|]. split; [|by right]. exists []. by rewrite app_nil_r.
Qed.

Lemma flight_throw {A} ok e : flight cfg s ok (@throw A e).
Proof.
  intros m Hm Hs. cbn. split; [done|]. split; [|by left]. exists []. by rewrite app_nil_r.
Qed.

End Flight.

Ltac fl_step :=
  first
    [ progress intros
    | apply flight_finish
    | apply flight_finish_ret
    | apply flight_abort
    | apply flight_throw
    | apply flight_of_preserves; solve [pres]
    | apply flight_getThis;
      let e := fresh "e" in let He := fresh "He" in intros e He; try rewrite !He
    | apply flight_bind
    | match goal with
      | |- flight _ _ _ (match ?x with _ => _ end) => destruct x
      end ].

Lemma flight_set_body `{Platform} cfg now items :
    flight cfg Uploading Idle
      (e <- getThis ;;
       let cfg := config e in
       oldData <- connectedBlobs ;;
       let newJson := obj_spread (Blob_properties oldData) items in
       let precompressedData := blob_of_string (JSON_stringify newJson) in
       let preCompressHash := calculateHash (blob_text precompressedData) in
       data <- (if Config.compress cfg then compress precompressedData
                else ret precompressedData) ;;
       max <- getMaxCapacity ;;
       let over := (Z.of_nat (blob_size data) - Z.of_nat max)%Z in
       (if (0 <? over)%Z then
          update (with_state Idle) ;;;
          throw (TooLargeDataError over)
        else ret tt) ;;;
       clear ;;;
       setHash None ;;;
       splitIntoParts cfg data ;;;
       (if Config.compress cfg then
          setPreCompressHash (Some preCompressHash)
        else
          setPreCompressHash None ;;;
          setLastCompress Uncomporessed) ;;;
       blob <- connectedBlobs ;;
       setHash (Some (calculateHash (blob_text blob))) ;;;
       setLastUpdated now ;;;
       update (fun e =>
         with_localData
           (fold_left (fun cache key =>
                         match obj_get items key with
                         | Some v => obj_set cache key v
                         | None => cache
                         end) (Object_keys items) (localData e)) e) ;;;
       update (with_state Idle)).
  Proof.
    repeat fl_step.
  Qed.


Lemma flight_get_body `{Platform} cfg items :
  flight cfg Downloading Idle
    (e <- getThis ;;
     let keys := argKeysToArray e items in
     upToDate <- isUpToDate ;;
     values <-
       (if upToDate : bool then
          ks <- iterate keys ;;
          ret (fold_left (fun values key =>
                            obj_set values (property_key key) (Map_get (localData e) key))
                         ks [])
        else
          blobData <- getAsBlob ;;
          match JSON_parse (blob_text blobData) with
          | None => throw SyntaxError
          | Some json =>
              ks <- iterate keys ;;
              read_keys json ks []
          end) ;;
     update (with_state Idle) ;;;
     ret values).
Proof.
  repeat fl_step.
Qed.

Lemma set_lands_idle `{Platform} now items m :
  state (this (set now items m).2) = Idle /\
  exists new, journal (set now items m).2 = journal m ++ new /\
              Forall (fun ev => during ev = Uploading) new.
Proof.
  unfold set, try_catch. erewrite bind_ok by reflexivity.
  match goal with |- context [bind getThis ?k ?mm] =>
    pose proof (flight_set_body (config (this m)) now items mm eq_refl eq_refl) as (Hc & (new & Hj & Hf) & Hr);
    change (bind getThis k mm) with ((e <- getThis ;; k e) mm);
    destruct (bind getThis k mm) as [[a|e] m1]
  end; cbn in *.
  - split; [done|]. by exists new.
  - split; [done|]. by exists new.
Qed.

Lemma get_lands_idle `{Platform} items m :
  state (this (get items m).2) = Idle /\
  exists new, journal (get items m).2 = journal m ++ new /\
              Forall (fun ev => during ev = Downloading) new.
Proof.
  unfold get, try_catch. erewrite bind_ok by reflexivity.
  match goal with |- context [bind getThis ?k ?mm] =>
    pose proof (flight_get_body (config (this m)) items mm eq_refl eq_refl) as (Hc & (new & Hj & Hf) & Hr);
    change (bind getThis k mm) with ((e <- getThis ;; k e) mm);
    destruct (bind getThis k mm) as [[a|e] m1]
  end; cbn in *.
  - split; [done|]. by exists new.
  - split; [done|]. by exists new.
Qed.

(** ** The outcomes of [set] *)

Section SetRun.
Context `{Platform}.

Lemma compress_run_some data buffer m :
  deflate data = Some buffer ->
  compress data m =
  (Ok (blob_of_string (toString_base64 buffer)),
   {| this := with_meta (with_lastCompressState Compressed (meta (this m))) (this m);
      storage := DummyStorageArea.set
                   [(keyMeta, VMeta (with_lastCompressState Compressed (meta (this m))))]
                   (storage m);
      journal := record (CallSet keyMeta (VMeta (with_lastCompressState Compressed (meta (this m))))) m |}).
Proof. intros E. unfold compress. rewrite E. reflexivity. Qed.

Lemma compress_run_none data m :
  deflate data = None ->
  compress data m =
  (Err ZippingError,
   {| this := with_meta (with_lastCompressState Failed (meta (this m))) (this m);
      storage := DummyStorageArea.set
                   [(keyMeta, VMeta (with_lastCompressState Failed (meta (this m))))]
                   (storage m);
      journal := record (CallSet keyMeta (VMeta (with_lastCompressState Failed (meta (this m))))) m |}).
Proof. intros E. unfold compress. rewrite E. reflexivity. Qed.

Lemma over_true (a b : nat) : b < a -> (0 <? Z.of_nat a - Z.of_nat b)%Z = true.
Proof. intros. apply Z.ltb_lt. lia. Qed.
Lemma over_false (a b : nat) : a <= b -> (0 <? Z.of_nat a - Z.of_nat b)%Z = false.
Proof. intros. apply Z.ltb_ge. lia. Qed.

Lemma set_too_large now items m data :
  final_payload (config (this m)) items = Some data ->
  maxCapacity (config (this m)) < blob_size data ->
  exists m', set now items m =
    (Err (TooLargeDataError (Z.of_nat (blob_size data) - Z.of_nat (maxCapacity (config (this m))))), m') /\
    this m' = with_state Idle (compressed_this (this m)) /\
    storage m' = compressed_storage (this m) (storage m).
Proof.
  intros Hp Hsz. unfold final_payload in Hp. unfold set, try_catch.
  unfold compressed_this, compressed_storage, maxCapacity in *.
  erewrite bind_ok by reflexivity.
  erewrite bind_ok by reflexivity. cbv zeta.
  erewrite bind_ok by apply connectedBlobs_run.
  cbn [this note config with_state].
  destruct (Config.compress (config (this m))) eqn:Ec.
  - destruct (deflate _) as [buffer|] eqn:Ed; [|done]. injection Hp as <-.
    erewrite bind_ok by (apply compress_run_some, Ed).
    erewrite bind_ok by reflexivity.
    cbn [this config with_meta with_state note].
    rewrite over_true by done.
    eexists. split; [reflexivity|]. split; [|reflexivity].
    cbn. by destruct (this m).
  - injection Hp as <-.
    erewrite bind_ok by reflexivity.
    erewrite bind_ok by reflexivity.
    cbn [this config with_meta with_state note].
    rewrite over_true by done.
    eexists. split; [reflexivity|]. split; [|reflexivity].
    cbn. by destruct (this m).
Qed.

Lemma set_zipping now items m :
  final_payload (config (this m)) items = None ->
  exists m', set now items m = (Err ZippingError, m').
Proof.
  intros Hp. unfold final_payload in Hp. unfold set, try_catch.
  erewrite bind_ok by reflexivity.
  erewrite bind_ok by reflexivity. cbv zeta.
  erewrite bind_ok by apply connectedBlobs_run.
  cbn [this note config with_state].
  destruct (Config.compress (config (this m))) eqn:Ec; [|done].
  destruct (deflate _) as [buffer|] eqn:Ed; [done|].
  erewrite bind_err by (apply compress_run_none, Ed).
  eexists. reflexivity.
Qed.

Lemma set_ok now items m data :
  final_payload (config (this m)) items = Some data ->
  blob_size data <= maxCapacity (config (this m)) ->
  (set now items m).1 = Ok tt /\
  let m' := (set now items m).2 in
  let cfg := config (this m) in
    config (this m') = cfg /\
    state (this m') = Idle /\
    localData (this m') = cache_items items [] /\
    meta (this m') =
      {| hash := Some (calculateHash (blob_text
                   (slots_content (Config.slotCount cfg)
                                  (DummyStorageArea.data (storage m')))));
         hashPreCompress :=
           if Config.compress cfg
           then Some (calculateHash (blob_text (blob_of_string (JSON_stringify (obj_spread [] items)))))
           else None;
         lastUpdated := Some now;
         lastCompressState :=
           if Config.compress cfg then Compressed else Uncomporessed |} /\
    DummyStorageArea.data (storage m') !! keyMeta = Some (VMeta (meta (this m'))) /\
    exists mc,
      config (this mc) = cfg /\
      (forall i, i < Config.slotCount cfg ->
         DummyStorageArea.data (storage mc) !! slotKey i = None) /\
      occupiedStorage (this mc) = 0 /\
      slots_content (Config.slotCount cfg) (DummyStorageArea.data (storage m')) =
      slots_content (Config.slotCount cfg)
        (DummyStorageArea.data (storage (splitIntoParts cfg data mc).2)) /\
      occupiedStorage (this m') = occupiedStorage (this (splitIntoParts cfg data mc).2).
Proof.
  intros Hp Hsz. unfold final_payload in Hp. unfold maxCapacity in *.
  cbv zeta. destruct (set now items m) as [r m'] eqn:Hset. cbn [fst snd].
  revert Hset. unfold set, try_catch.
  step.
  step. cbv zeta.
  erewrite bind_ok by apply connectedBlobs_run; tidy.
  cbn [this note config with_state].
  set (cfg := config (this m)) in *.
  destruct (Config.compress cfg) eqn:Ec.
  - destruct (deflate _) as [buffer|] eqn:Ed; [|done]. injection Hp as <-.
    erewrite bind_ok by (apply compress_run_some, Ed).
    step.
    cbn [this config with_meta with_state note].
    fold cfg. rewrite over_false by done.
    step.
    erewrite bind_ok by apply clear_run; tidy.
    step.
    match goal with |- context [bind (splitIntoParts _ _) _ ?mm] => remember mm as mc eqn:Emc end.
    assert (config (this mc) = cfg /\ localData (this mc) = [] /\ occupiedStorage (this mc) = 0 /\
            lastCompressState (meta (this mc)) = Compressed /\
            (forall i, i < Config.slotCount cfg ->
               DummyStorageArea.data (storage mc) !! slotKey i = None))
      as (Hcfg & Hld & Hocc & Hlcs & Hslots).
    { rewrite Emc. cbn. split; [done|]. split; [done|]. split; [done|]. split; [done|].
      intros i Hi. rewrite lookup_insert_ne by (intros E; by apply (slotKey_ne_meta i)).
      fold cfg. apply remove_from_lookup_slot. lia. }
    clear Emc.
    destruct (splitIntoParts_run cfg (blob_of_string (toString_base64 buffer)) mc)
      as (occ & st' & j' & Hsplit).
    erewrite bind_ok by exact Hsplit; tidy.
    step.
    erewrite bind_ok by apply connectedBlobs_run; tidy.
    step.
    step.
    step.
    intros [= <- <-]. split; [done|].
    cbn. rewrite Hcfg, Hld. fold cfg.
    rewrite !slots_content_insert_meta.
    split; [done|]. split; [done|]. split; [done|].
    split; [unfold with_lastUpdated, with_hash, with_hashPreCompress; cbn; by rewrite Hlcs|].
    split; [by rewrite lookup_insert_eq|].
    exists mc. rewrite Hsplit. cbn. done.
  - injection Hp as <-.
    step.
    step.
    cbn [this config with_meta with_state note].
    fold cfg. rewrite over_false by done.
    step.
    erewrite bind_ok by apply clear_run; tidy.
    step.
    match goal with |- context [bind (splitIntoParts _ _) _ ?mm] => remember mm as mc eqn:Emc end.
    assert (config (this mc) = cfg /\ localData (this mc) = [] /\ occupiedStorage (this mc) = 0 /\
            (forall i, i < Config.slotCount cfg ->
               DummyStorageArea.data (storage mc) !! slotKey i = None))
      as (Hcfg & Hld & Hocc & Hslots).
    { rewrite Emc. cbn. split; [done|]. split; [done|]. split; [done|].
      intros i Hi. rewrite lookup_insert_ne by (intros E; by apply (slotKey_ne_meta i)).
      fold cfg. apply remove_from_lookup_slot. lia. }
    clear Emc.
    destruct (splitIntoParts_run cfg (blob_of_string (JSON_stringify (obj_spread [] items))) mc)
      as (occ & st' & j' & Hsplit).
    erewrite bind_ok by exact Hsplit; tidy.
    step.
    erewrite bind_ok by apply connectedBlobs_run; tidy.
    step.
    step.
    step.
    intros [= <- <-]. split; [done|].
    cbn. rewrite Hcfg, Hld. fold cfg.
    rewrite !slots_content_insert_meta.
    split; [done|]. split; [done|]. split; [done|].
    split; [done|].
    split; [by rewrite lookup_insert_eq|].
    exists mc. rewrite Hsplit. cbn. done.
Qed.
End SetRun.

(** ** Splitting and reading back *)

Lemma utf8_run_ascii b : is_ascii b -> utf8_run utf8_idle b = b.
Proof.
  induction 1 as [|c b Hc _ IH]; [done|].
  cbn [utf8_run]. unfold utf8_step. cbn [needed utf8_idle]. unfold utf8_lead.
  assert ((code c <=? 127)%N = true) as -> by (apply N.leb_le; lia).
  cbn. by rewrite IH.
Qed.

Lemma strip_bom_ascii b : is_ascii b -> strip_bom b = b.
Proof.
  intros Hb. destruct b as [|b1 [|b2 [|b3 rest]]]; try done.
  cbn. inversion Hb as [|? ? H1 _]; subst.
  assert ((code b1 =? 239)%N = false) as -> by (apply N.eqb_neq; lia). done.
Qed.

Lemma blob_text_ascii b : is_ascii b -> blob_of_string (blob_text b) = b.
Proof.
  intros Hb. unfold blob_of_string, blob_text.
  rewrite list_ascii_of_string_of_list_ascii, strip_bom_ascii, utf8_run_ascii; done.
Qed.

Lemma is_ascii_slice a b data : is_ascii data -> is_ascii (blob_slice a b data).
Proof. intros H. unfold blob_slice. by apply Forall_take, Forall_drop. Qed.

Section Split.
Variable cfg : Config.t.
Variable data : Blob.
Hypothesis stable :
  forall index, blob_of_string (blob_text (part (Config.slotSize cfg) data index)) =
                part (Config.slotSize cfg) data index.

Let sz := Config.slotSize cfg.
Let body := (fun index =>
       let end_ := Nat.min ((index + 1) * Config.slotSize cfg) (blob_size data) in
       let part := blob_slice (index * Config.slotSize cfg) end_ data in
       bind (setBlob index part) (fun _ =>
       bind (update (fun e => with_occupiedStorage (occupiedStorage e + blob_size part) e)) (fun _ =>
       ret (end_ =? blob_size data)%nat))).

Lemma split_loop_content count : forall i m,
  (forall j, i <= j < i + count ->
     DummyStorageArea.data (storage m) !! slotKey j = None) ->
  blob_size data <= (i + count) * sz ->
  let m' := (for_loop count i body m).2 in
  blob_concat (map (fun j => blob_of_value (DummyStorageArea.data (storage m') !! slotKey j))
                   (seq i count)) = drop (i * sz) data /\
  (forall j, j < i ->
     DummyStorageArea.data (storage m') !! slotKey j =
     DummyStorageArea.data (storage m) !! slotKey j) /\
  (forall j, i + count <= j ->
     DummyStorageArea.data (storage m') !! slotKey j =
     DummyStorageArea.data (storage m) !! slotKey j) /\
  occupiedStorage (this m') = occupiedStorage (this m) + length (drop (i * sz) data).
Proof.
  induction count as [|count IH]; intros i m Hnone Hfit; cbv zeta.
  - cbn. rewrite drop_ge by (unfold blob_size in Hfit; lia). cbn. split; [done|]. split; [done|]. split; [done|]. lia.
  - cbn [for_loop].
    erewrite bind_ok by reflexivity. tidy.
    fold (part (Config.slotSize cfg) data i). fold sz.
    set (m1 := {| this := _; storage := _; journal := _ |}).
    assert (Hm1 : forall j, j <> i ->
              DummyStorageArea.data (storage m1) !! slotKey j =
              DummyStorageArea.data (storage m) !! slotKey j).
    { intros j Hj. subst m1. cbn. apply lookup_insert_ne. intros E. by apply slotKey_inj in E. }
    assert (Hm1i : DummyStorageArea.data (storage m1) !! slotKey i =
                   Some (VString (blob_text (part sz data i)))).
    { subst m1. cbn. apply lookup_insert_eq. }
    assert (Hocc1 : occupiedStorage (this m1) = occupiedStorage (this m) + blob_size (part sz data i)).
    { subst m1. by destruct (this m). }
    clearbody m1.
    destruct (Nat.eqb_spec (Nat.min ((i + 1) * sz) (blob_size data)) (blob_size data)) as [Hend|Hend].
    + (* last part *)
      cbn [ret fst snd]. cbn [seq map]. rewrite Hm1i. cbn [blob_of_value].
      unfold sz. rewrite stable. fold sz.
      assert (part sz data i = drop (i * sz) data) as Hpart.
      { unfold part, blob_slice. rewrite Hend. apply take_ge. rewrite length_drop.
        unfold blob_size. lia. }
      split.
      { rewrite <- Hpart. unfold blob_concat. cbn [concat].
        replace (concat _) with (@nil ascii); [by rewrite app_nil_r|].
        symmetry. apply concat_nil_Forall, Forall_forall.
        intros x [j [-> Hj]]%list_elem_of_fmap. apply elem_of_seq in Hj.
        rewrite Hm1 by lia. rewrite Hnone by lia. done. }
      split; [intros j Hj; apply Hm1; lia|]. split; [intros j Hj; apply Hm1; lia|].
      rewrite Hocc1, Hpart. done.
    + (* more to come *)
      assert ((i + 1) * sz < blob_size data) as Hlt by lia.
      specialize (IH (S i) m1).
      destruct IH as (Hcat & Hbelow & Habove & Hocc).
      { intros j Hj. rewrite Hm1 by lia. apply Hnone. lia. }
      { lia. }
      cbv zeta in *. fold body.
      split.
      { cbn [seq map]. unfold blob_concat in *. cbn [concat]. rewrite Hcat.
        rewrite Hbelow by lia. rewrite Hm1i. cbn [blob_of_value].
        unfold sz. rewrite stable. fold sz.
        unfold part, blob_slice.
        replace (Nat.min ((i + 1) * sz) (blob_size data) - i * sz) with sz by lia.
        replace (S i * sz) with (i * sz + sz) by lia.
        rewrite <- drop_drop. apply take_drop. }
      split; [intros j Hj; rewrite Hbelow by lia; apply Hm1; lia|].
      split; [intros j Hj; rewrite Habove by lia; apply Hm1; lia|].
      rewrite Hocc, Hocc1.
      unfold part, blob_slice, blob_size. rewrite length_take, !length_drop.
      unfold blob_size in *. lia.
Qed.

Lemma splitIntoParts_content m :
  (forall j, j < Config.slotCount cfg ->
     DummyStorageArea.data (storage m) !! slotKey j = None) ->
  blob_size data <= maxCapacity cfg ->
  slots_content (Config.slotCount cfg)
    (DummyStorageArea.data (storage (splitIntoParts cfg data m).2)) = data /\
  occupiedStorage (this (splitIntoParts cfg data m).2) = occupiedStorage (this m) + blob_size data.
Proof.
  intros Hnone Hfit.
  destruct (split_loop_content (Config.slotCount cfg) 0 m) as (Hcat & _ & _ & Hocc).
  { intros j Hj. apply Hnone. lia. }
  { unfold maxCapacity in Hfit. unfold sz. lia. }
  cbv zeta in *. split; [exact Hcat|]. exact Hocc.
Qed.
End Split.

(** ** Well-formed text *)

Lemma utf8_run_feed bs : forall st,
  utf8_run st bs =
  (utf8_feed st bs).2 ++ match needed (utf8_feed st bs).1 with 0 => [] | S _ => replacement end.
Proof.
  induction bs as [|b bs IH]; intros st; cbn [utf8_run utf8_feed].
  - done.
  - destruct (utf8_step st b) as [st1 out]. rewrite IH.
    destruct (utf8_feed st1 bs) as [st2 out']. cbn. by rewrite app_assoc.
Qed.

Lemma utf8_feed_app x : forall st y,
  utf8_feed st (x ++ y) =
  ((utf8_feed (utf8_feed st x).1 y).1, (utf8_feed st x).2 ++ (utf8_feed (utf8_feed st x).1 y).2).
Proof.
  induction x as [|b x IH]; intros st y; cbn [utf8_feed app].
  - cbn. by destruct (utf8_feed st y).
  - destruct (utf8_step st b) as [st1 out]. rewrite IH.
    destruct (utf8_feed st1 x) as [st2 out2]. cbn.
    destruct (utf8_feed st2 y) as [st3 out3]. cbn. by rewrite app_assoc.
Qed.

Lemma well_formed_nil : well_formed [].
Proof. done. Qed.

Lemma well_formed_app x y : well_formed x -> well_formed y -> well_formed (x ++ y).
Proof.
  unfold well_formed. intros Hx Hy. rewrite utf8_feed_app, Hx. cbn. by rewrite Hy.
Qed.

Lemma well_formed_concat xs : Forall well_formed xs -> well_formed (concat xs).
Proof.
  induction 1; cbn; [apply well_formed_nil|by apply well_formed_app].
Qed.

Lemma well_formed_replacement : well_formed replacement.
Proof. reflexivity. Qed.

Lemma well_formed_run_idle bs : well_formed bs -> utf8_run utf8_idle bs = bs.
Proof. intros Hb. rewrite utf8_run_feed, Hb. cbn. by rewrite app_nil_r. Qed.

Lemma utf8_lead_spec b :
  reachable (utf8_lead b).1 /\ well_formed (utf8_lead b).2.
Proof.
  unfold utf8_lead. cbv zeta.
  destruct (code b <=? 127)%N eqn:E1.
  { split; [by left|]. unfold well_formed. cbn. unfold utf8_step, utf8_lead. cbn.
    by rewrite E1. }
  destruct (between 194 223 (code b)) eqn:E2.
  { split; [|apply well_formed_nil]. right. split; [cbn; lia|].
    cbn. unfold utf8_step, utf8_lead. cbn. by rewrite E1, E2. }
  destruct (between 224 239 (code b)) eqn:E3.
  { split; [|apply well_formed_nil]. right. split; [cbn; lia|].
    cbn. unfold utf8_step, utf8_lead. cbn. by rewrite E1, E2, E3. }
  destruct (between 240 244 (code b)) eqn:E4.
  { split; [|apply well_formed_nil]. right. split; [cbn; lia|].
    cbn. unfold utf8_step, utf8_lead. cbn. by rewrite E1, E2, E3, E4. }
  split; [by left|apply well_formed_replacement].
Qed.

Lemma utf8_step_spec st b :
  reachable st -> reachable (utf8_step st b).1 /\ well_formed (utf8_step st b).2.
Proof.
  intros [-> | [Hn Hp]].
  { apply utf8_lead_spec. }
  unfold utf8_step. destruct (needed st) as [|k] eqn:Ek; [lia|].
  destruct (between (lower st) (upper st) (code b)) eqn:Eb.
  - assert (utf8_step st b =
            match k with
            | 0 => (utf8_idle, pending st ++ [b])
            | S _ => (Utf8State k (pending st ++ [b]) 128 191, [])
            end) as Hstep by (unfold utf8_step; by rewrite Ek, Eb).
    destruct k as [|k]; cbn [fst snd].
    + split; [by left|]. unfold well_formed.
      rewrite utf8_feed_app, Hp. cbn [fst snd utf8_feed]. rewrite Hstep. cbn. by rewrite app_nil_r.
    + split; [|apply well_formed_nil]. right. split; [cbn; lia|].
      cbn [pending]. rewrite utf8_feed_app, Hp. cbn [fst snd utf8_feed]. rewrite Hstep. done.
  - destruct (utf8_lead_spec b) as [Hr Hw]. destruct (utf8_lead b) as [st' out].
    split; [exact Hr|]. apply well_formed_app; [apply well_formed_replacement|exact Hw].
Qed.

(** What the decoder puts out is well formed. *)
Lemma utf8_run_well_formed bs : forall st, reachable st -> well_formed (utf8_run st bs).
Proof.
  induction bs as [|b bs IH]; intros st Hst; cbn [utf8_run].
  - destruct (needed st); [apply well_formed_nil|apply well_formed_replacement].
  - destruct (utf8_step_spec st b Hst) as [Hr Hw]. destruct (utf8_step st b) as [st' out].
    apply well_formed_app; [exact Hw|by apply IH].
Qed.

Lemma blob_text_well_formed b : well_formed (blob_of_string (blob_text b)).
Proof.
  unfold blob_of_string, blob_text. rewrite list_ascii_of_string_of_list_ascii.
  apply utf8_run_well_formed. by left.
Qed.

(** The text of well-formed bytes is these bytes, a byte order mark in front
    apart. *)
Lemma strip_bom_well_formed bs : well_formed bs -> well_formed (strip_bom bs).
Proof.
  intros Hb. destruct bs as [|b1 [|b2 [|b3 rest]]]; try done. cbn [strip_bom].
  destruct ((code b1 =? 239) && (code b2 =? 187) && (code b3 =? 191))%N eqn:E; [|done].
  apply andb_prop in E as [E E3]. apply andb_prop in E as [E1 E2].
  apply N.eqb_eq in E1, E2, E3.
  unfold well_formed in *. change (b1 :: b2 :: b3 :: rest) with ([b1; b2; b3] ++ rest) in Hb.
  rewrite utf8_feed_app in Hb.
  assert (utf8_feed utf8_idle [b1; b2; b3] = (utf8_idle, [b1; b2; b3])) as Hbom.
  { unfold code in E1, E2, E3.
    rewrite <- (ascii_N_embedding b1), <- (ascii_N_embedding b2), <- (ascii_N_embedding b3).
    rewrite E1, E2, E3. reflexivity. }
  rewrite Hbom in Hb. cbn [fst snd] in Hb.
  destruct (utf8_feed utf8_idle rest) as [st out]. cbn in Hb. by injection Hb as -> ->.
Qed.

Lemma blob_text_of_well_formed bs :
  well_formed bs -> blob_text bs = string_of_list_ascii (strip_bom bs).
Proof.
  intros Hb. unfold blob_text. f_equal. apply well_formed_run_idle.
  by apply strip_bom_well_formed.
Qed.

Lemma slots_content_well_formed count d :
  (forall j, j < count -> slot_is_text (d !! slotKey j)) ->
  well_formed (slots_content count d).
Proof.
  intros Hd. unfold slots_content, blob_concat. apply well_formed_concat.
  apply Forall_forall. intros x [j [-> Hj]]%list_elem_of_fmap. apply elem_of_seq in Hj.
  destruct (Hd j) as [-> | [p ->]]; [lia| |]; cbn.
  - apply well_formed_nil.
  - apply blob_text_well_formed.
Qed.

Section Parts.
Variable cfg : Config.t.
Variable data : Blob.

Lemma split_loop_texts count j : forall i m,
  slot_is_text (DummyStorageArea.data (storage m) !! slotKey j) ->
  slot_is_text
    (DummyStorageArea.data
       (storage (for_loop count i
          (fun index =>
             let end_ := Nat.min ((index + 1) * Config.slotSize cfg) (blob_size data) in
             let part := blob_slice (index * Config.slotSize cfg) end_ data in
             setBlob index part ;;;
             update (fun e => with_occupiedStorage (occupiedStorage e + blob_size part) e) ;;;
             ret (end_ =? blob_size data)%nat) m).2) !! slotKey j).
Proof.
  induction count as [|count IH]; intros i m Hm; [apply Hm|].
  cbn [for_loop]. erewrite bind_ok by reflexivity. tidy.
  assert (slot_is_text
            (<[slotKey i :=
                 VString (blob_text
                   (blob_slice (i * Config.slotSize cfg)
                      (Nat.min ((i + 1) * Config.slotSize cfg) (blob_size data)) data))]>
               (DummyStorageArea.data (storage m)) !! slotKey j)) as Hstep.
  { destruct (decide (j = i)) as [->|Hne].
    - rewrite lookup_insert_eq. right. eauto.
    - rewrite lookup_insert_ne; [apply Hm|]. intros E. by apply slotKey_inj in E. }
  match goal with |- context [if ?c then _ else _] => destruct c end.
  - exact Hstep.
  - apply IH. exact Hstep.
Qed.

Lemma splitIntoParts_texts m j :
  slot_is_text (DummyStorageArea.data (storage m) !! slotKey j) ->
  slot_is_text (DummyStorageArea.data (storage (splitIntoParts cfg data m).2) !! slotKey j).
Proof. apply split_loop_texts. Qed.

Lemma split_loop_below count : forall i m j,
  j < i ->
  DummyStorageArea.data
    (storage (for_loop count i
       (fun index =>
          let end_ := Nat.min ((index + 1) * Config.slotSize cfg) (blob_size data) in
          let part := blob_slice (index * Config.slotSize cfg) end_ data in
          setBlob index part ;;;
          update (fun e => with_occupiedStorage (occupiedStorage e + blob_size part) e) ;;;
          ret (end_ =? blob_size data)%nat) m).2) !! slotKey j =
  DummyStorageArea.data (storage m) !! slotKey j.
Proof.
  induction count as [|count IH]; intros i m j Hj; [done|].
  cbn [for_loop]. erewrite bind_ok by reflexivity. tidy.
  match goal with |- context [if ?c then _ else _] => destruct c end.
  - cbn. rewrite lookup_insert_ne; [done|]. intros E. apply slotKey_inj in E. lia.
  - rewrite IH by lia. cbn. rewrite lookup_insert_ne; [done|].
    intros E. apply slotKey_inj in E. lia.
Qed.

Lemma splitIntoParts_first_slot m :
  0 < Config.slotCount cfg ->
  DummyStorageArea.data (storage (splitIntoParts cfg data m).2) !! slotKey 0 =
  Some (VString (blob_text (part (Config.slotSize cfg) data 0))).
Proof.
  intros Hn. unfold splitIntoParts. destruct (Config.slotCount cfg) as [|count]; [lia|].
  cbn [for_loop]. erewrite bind_ok by reflexivity. tidy.
  match goal with |- context [if ?c then _ else _] => destruct c end.
  - cbn. by rewrite lookup_insert_eq.
  - rewrite split_loop_below by lia. cbn. by rewrite lookup_insert_eq.
Qed.
End Parts.

Lemma strip_bom_other b t : code b <> 239%N -> strip_bom (b :: t) = b :: t.
Proof.
  intros Hb. destruct t as [|b2 [|b3 rest]]; try done. cbn.
  by apply N.eqb_neq in Hb as ->.
Qed.

Lemma blob_text_ascii_head b t :
  (code b <= 127)%N -> exists t', blob_of_string (blob_text (b :: t)) = b :: t'.
Proof.
  intros Hb. unfold blob_of_string, blob_text. rewrite list_ascii_of_string_of_list_ascii.
  rewrite strip_bom_other by lia. cbn [utf8_run]. unfold utf8_step. cbn [needed utf8_idle].
  unfold utf8_lead. apply N.leb_le in Hb as ->. cbn. eauto.
Qed.

(** A payload of bytes below 128 comes back from the slots as it was split. *)
Lemma splitIntoParts_ascii cfg data m :
  is_ascii data ->
  (forall j, j < Config.slotCount cfg ->
     DummyStorageArea.data (storage m) !! slotKey j = None) ->
  blob_size data <= maxCapacity cfg ->
  slots_content (Config.slotCount cfg)
    (DummyStorageArea.data (storage (splitIntoParts cfg data m).2)) = data /\
  occupiedStorage (this (splitIntoParts cfg data m).2) = occupiedStorage (this m) + blob_size data.
Proof.
  intros Hascii. apply splitIntoParts_content.
  intros index. apply blob_text_ascii. unfold part. by apply is_ascii_slice.
Qed.

(** ** How [set] ends, and what [get] reads *)

Section Outcomes.
Context `{Platform}.

(** The three ways [set] can end. *)
Lemma set_outcome now items m :
  let cfg := config (this m) in
  match final_payload cfg items with
  | None => (set now items m).1 = Err ZippingError
  | Some data =>
      if decide (blob_size data <= maxCapacity cfg)
      then (set now items m).1 = Ok tt
      else (set now items m).1 =
           Err (TooLargeDataError (Z.of_nat (blob_size data) - Z.of_nat (maxCapacity cfg)))
  end.
Proof.
  cbv zeta. destruct (final_payload _ _) as [data|] eqn:Hp.
  - destruct (decide _) as [Hfit|Hbig].
    + by destruct (set_ok now items m data Hp Hfit) as [-> _].
    + destruct (set_too_large now items m data Hp) as (m' & -> & _); [lia|done].
  - by destruct (set_zipping now items m Hp) as (m' & ->).
Qed.

Lemma set_ok_inv now items m :
  (set now items m).1 = Ok tt ->
  exists data, final_payload (config (this m)) items = Some data /\
               blob_size data <= maxCapacity (config (this m)).
Proof.
  intros Hok. pose proof (set_outcome now items m) as Ho. cbv zeta in Ho.
  destruct (final_payload _ _) as [data|]; [|congruence].
  destruct (decide _); [eauto|congruence].
Qed.

Lemma set_too_large_inv now items m over :
  (set now items m).1 = Err (TooLargeDataError over) ->
  exists data, final_payload (config (this m)) items = Some data /\
               maxCapacity (config (this m)) < blob_size data /\
               over = (Z.of_nat (blob_size data) - Z.of_nat (maxCapacity (config (this m))))%Z.
Proof.
  intros Herr. pose proof (set_outcome now items m) as Ho. cbv zeta in Ho.
  destruct (final_payload _ _) as [data|]; [|congruence].
  destruct (decide _); [congruence|]. exists data. split; [done|]. split; [lia|].
  congruence.
Qed.
End Outcomes.

(** ** What the slots hold after [set] *)

Section Stored.
Context `{Platform}.


(** After a successful [set] the slots hold well-formed text, so reading
    their bytes as text loses nothing but a byte order mark in front. *)
Lemma stored_content_well_formed now items m :
  (set now items m).1 = Ok tt ->
  let stored := slots_content (Config.slotCount (config (this m)))
                  (DummyStorageArea.data (storage (set now items m).2)) in
  well_formed stored /\
  blob_text stored = string_of_list_ascii (strip_bom stored).
Proof.
  intros Hok. apply set_ok_inv in Hok as (data & Hp & Hfit).
  destruct (set_ok now items m data Hp Hfit)
    as (_ & _ & _ & _ & _ & _ & mc & Hcfg & Hnone & _ & Hcontent & _).
  cbv zeta in *. rewrite Hcontent.
  assert (well_formed
            (slots_content (Config.slotCount (config (this m)))
               (DummyStorageArea.data
                  (storage (splitIntoParts (config (this m)) data mc).2)))) as Hwf.
  { apply slots_content_well_formed. intros j Hj.
    apply splitIntoParts_texts. left. by apply Hnone. }
  split; [exact Hwf|]. by apply blob_text_of_well_formed.
Qed.

(** The serialized document starts with a brace. *)
Lemma JSON_stringify_head o :
  exists t, blob_of_string (JSON_stringify o) = "{"%char :: t.
Proof. unfold JSON_stringify, blob_of_string. cbn. eauto. Qed.

(** Without compression nothing is in front of the brace. *)
Lemma stored_content_no_bom now items m :
  Config.compress (config (this m)) = false ->
  (set now items m).1 = Ok tt ->
  let stored := slots_content (Config.slotCount (config (this m)))
                  (DummyStorageArea.data (storage (set now items m).2)) in
  strip_bom stored = stored.
Proof.
  intros Hc Hok. apply set_ok_inv in Hok as (data & Hp & Hfit).
  destruct (set_ok now items m data Hp Hfit)
    as (_ & _ & _ & _ & _ & _ & mc & Hcfg & Hnone & _ & Hcontent & _).
  cbv zeta in *. rewrite Hcontent.
  unfold final_payload in Hp. rewrite Hc in Hp. injection Hp as <-.
  destruct (JSON_stringify_head (obj_spread [] items)) as [t Ht].
  unfold maxCapacity in Hfit. rewrite Ht in Hfit. unfold blob_size in Hfit. cbn [length] in Hfit.
  destruct (Config.slotCount (config (this m))) as [|count] eqn:En; [lia|].
  destruct (Config.slotSize (config (this m))) as [|sz] eqn:Es; [lia|].
  unfold slots_content. cbn [seq map blob_concat concat].
  pose proof (splitIntoParts_first_slot (config (this m))
                (blob_of_string (JSON_stringify (obj_spread [] items))) mc) as H0.
  rewrite En in H0. rewrite H0 by lia.
  unfold part, blob_slice in H0 |- *. rewrite Es, Ht. cbn [blob_of_value].
  replace (Nat.min ((0 + 1) * S sz) (blob_size ("{"%char :: t)) - 0 * S sz)
    with (S (Nat.min sz (length t))) by (unfold blob_size; cbn [length]; lia).
  cbn [Nat.mul drop take].
  destruct (blob_text_ascii_head "{"%char (take (Nat.min sz (length t)) t)) as [t' ->];
    [cbn; lia|].
  cbn [app]. apply strip_bom_other. cbn. lia.
Qed.


(** A payload of bytes below 128 is in the slots as it is after [set]. *)
Lemma stored_content_ascii now items m data :
  final_payload (config (this m)) items = Some data ->
  blob_size data <= maxCapacity (config (this m)) ->
  is_ascii data ->
  slots_content (Config.slotCount (config (this m)))
    (DummyStorageArea.data (storage (set now items m).2)) = data /\
  occupiedStorage (this (set now items m).2) = blob_size data.
Proof.
  intros Hp Hfit Hascii.
  destruct (set_ok now items m data Hp Hfit)
    as (_ & _ & _ & _ & _ & _ & mc & Hcfg & Hnone & Hocc & Hcontent & Hused).
  cbv zeta in *. rewrite Hcontent, Hused.
  destruct (splitIntoParts_ascii (config (this m)) data mc Hascii Hnone Hfit) as [-> ->].
  split; [done|]. rewrite Hocc. done.
Qed.
End Stored.

(** Association lists with distinct keys. *)
Lemma obj_get_app_fresh {V} (o1 o2 : list (string * V)) k :
  k ∉ map fst o1 -> obj_get (o1 ++ o2) k = obj_get o2 k.
Proof.
  induction o1 as [|[k' v'] o1 IH]; intros Hk; [done|]. cbn.
  apply not_elem_of_cons in Hk as [Hne Hk]. cbn in Hne.
  destruct (String.eqb_spec k' k); [congruence|]. by apply IH.
Qed.

Lemma obj_set_fresh {V} (o : list (string * V)) k v :
  k ∉ map fst o -> obj_set o k v = o ++ [(k, v)].
Proof.
  induction o as [|[k' v'] o IH]; intros Hk; [done|]. cbn.
  apply not_elem_of_cons in Hk as [Hne Hk]. cbn in Hne.
  destruct (String.eqb_spec k' k); [congruence|]. by rewrite IH.
Qed.

Lemma obj_get_head {V} (o : list (string * V)) k v : obj_get ((k, v) :: o) k = Some v.
Proof. cbn. by rewrite String.eqb_refl. Qed.

Lemma cache_items_fill (items : list (string * json)) : forall todo seen,
  items = seen ++ todo -> NoDup (map fst items) ->
  fold_left (fun cache key =>
               match obj_get items key with
               | Some v => obj_set cache key v
               | None => cache
               end) (map fst todo) seen = items.
Proof.
  induction todo as [|[k v] todo IH]; intros seen Heq Hnd.
  - cbn. by rewrite Heq, app_nil_r.
  - cbn [map fold_left fst].
    assert (k ∉ map fst seen) as Hk.
    { rewrite Heq, map_app in Hnd. apply NoDup_app in Hnd as (_ & Hsep & _).
      intros Hin. apply (Hsep k Hin). cbn. left. }
    rewrite Heq at 1. rewrite obj_get_app_fresh, obj_get_head by done.
    rewrite obj_set_fresh by done.
    apply IH; [|done]. by rewrite Heq, <- app_assoc.
Qed.

Lemma cache_items_nodup items : NoDup (map fst items) -> cache_items items [] = items.
Proof. intros Hnd. by apply cache_items_fill. Qed.

Lemma read_cache_fill (cache : list (string * json)) : forall todo seen,
  cache = seen ++ todo -> NoDup (map fst cache) ->
  fold_left (fun values key => obj_set values (property_key key) (Map_get cache key))
            (map JStr (map fst todo)) (map (fun kv => (kv.1, Some kv.2)) seen) =
  map (fun kv => (kv.1, Some kv.2)) cache.
Proof.
  induction todo as [|[k v] todo IH]; intros seen Heq Hnd.
  - cbn. by rewrite Heq, app_nil_r.
  - cbn [map fold_left fst property_key Map_get].
    assert (k ∉ map fst seen) as Hk.
    { rewrite Heq, map_app in Hnd. apply NoDup_app in Hnd as (_ & Hsep & _).
      intros Hin. apply (Hsep k Hin). cbn. left. }
    rewrite Heq at 1. rewrite obj_get_app_fresh, obj_get_head by done.
    rewrite obj_set_fresh by (by rewrite map_map).
    change [(k, Some v)] with (map (fun kv : string * json => (kv.1, Some kv.2)) [(k, v)]).
    rewrite <- map_app. apply IH; [|done]. by rewrite Heq, <- app_assoc.
Qed.

Section Reading.
Context `{Platform}.

Lemma isUpToDate_run m live :
  DummyStorageArea.data (storage m) !! keyMeta = Some (VMeta live) ->
  isUpToDate m =
  (Ok (bool_decide (lastUpdated live = lastUpdated (meta (this m)))),
   note [CallGet keyMeta] m).
Proof.
  intros Hlive. unfold isUpToDate, bind, storage_get, getThis, DummyStorageArea.get.
  rewrite Hlive. reflexivity.
Qed.


End Reading.

Lemma clear_calls cfg m :
  config (this m) = cfg ->
  exists new, journal (clear m).2 = journal m ++ new /\
    Forall (fun ev => exists i, i < Config.slotCount cfg /\ call ev = CallRemove (slotKey i)) new.
Proof.
  intros Hc. rewrite clear_run. cbn. eexists. split; [reflexivity|].
  rewrite Hc. apply Forall_forall. intros ev Hev.
  apply list_elem_of_fmap in Hev as (c & -> & Hc').
  apply list_elem_of_fmap in Hc' as (i & -> & Hi). apply elem_of_seq in Hi.
  exists i. split; [lia|done].
Qed.

Lemma get_unreadable_keys `{Platform} items m :
  (forall e, argKeysToArray e items = KeysFunction \/ argKeysToArray e items = KeysUndefined) ->
  exists err, (get items m).1 = Err err.
Proof.
  intros Hkeys. unfold get, try_catch.
  erewrite bind_ok by reflexivity. erewrite bind_ok by reflexivity. cbv zeta.
  match goal with |- context [argKeysToArray ?e items] =>
    assert (iterate (argKeysToArray e items) = throw TypeError) as Hit
      by (destruct (Hkeys e) as [-> | ->]; reflexivity);
    generalize dependent (argKeysToArray e items); intros keys Hit
  end.
  match goal with |- context [bind isUpToDate ?k ?mm] =>
    unfold bind at 1; destruct (isUpToDate mm) as [[[|]|e] m1]
  end.
  - rewrite Hit. cbn. eauto.
  - unfold bind at 1. unfold bind at 1. destruct (getAsBlob m1) as [[blobData|e] m2].
    + destruct (JSON_parse (blob_text blobData)); [rewrite Hit|]; cbn; eauto.
    + cbn. eauto.
  - cbn. eauto.
Qed.


(** ** The backend *)

Lemma backend_set_lookup (items : list (string * StorageValue)) :
  forall (d : gmap string StorageValue) k,
  NoDup (map fst items) ->
  fold_left (fun d kv => <[kv.1 := kv.2]> d) items d !! k =
  match obj_get items k with Some v => Some v | None => d !! k end.
Proof.
  induction items as [|[k' v'] items IH]; intros d k Hnd; [done|].
  cbn [fold_left map fst snd] in *. apply NoDup_cons in Hnd as [Hk' Hnd].
  rewrite IH by done. cbn [obj_get].
  destruct (String.eqb_spec k' k) as [->|Hne].
  - assert (obj_get items k = None) as ->.
    { clear -Hk'. induction items as [|[k2 v2] items IH]; [done|]. cbn in *.
      apply not_elem_of_cons in Hk' as [Hne Hk']. destruct (String.eqb_spec k2 k); [congruence|].
      by apply IH. }
    by rewrite lookup_insert_eq.
  - destruct (obj_get items k); [done|]. by rewrite lookup_insert_ne.
Qed.

Lemma backend_get_strings (d : gmap string StorageValue) (ks : list string) :
  forall (values : gmap string (option StorageValue)) k,
  fold_left (fun values key =>
               DummyStorage.assign values (property_key key) (DummyStorage.data_get d key))
            (map JStr ks) values !! k =
  if decide (k ∈ ks /\ k <> "__proto__") then Some (d !! k) else values !! k.
Proof.
  induction ks as [|k' ks IH]; intros values k; cbn [map fold_left].
  - rewrite decide_False; [done|]. intros [Hin _]. by apply not_elem_of_nil in Hin.
  - rewrite IH. cbn [property_key DummyStorage.data_get]. unfold DummyStorage.assign.
    destruct (decide (k ∈ ks /\ k <> "__proto__")) as [[Hin Hk]|Hout].
    + rewrite decide_True; [done|]. split; [by right|done].
    + destruct (String.eqb_spec k' "__proto__") as [->|Hk'].
      * rewrite decide_False; [done|].
        intros [[->|Hin]%elem_of_cons Hk]; [done|]. apply Hout. done.
      * destruct (decide (k = k')) as [->|Hne].
        -- rewrite decide_True by (split; [left|done]). by rewrite lookup_insert_eq.
        -- rewrite decide_False.
           ++ by rewrite lookup_insert_ne.
           ++ intros [[->|Hin]%elem_of_cons Hk]; [done|]. apply Hout. done.
Qed.

Lemma backend_remove_lookup (arr : list string) : forall s k,
  DummyStorageArea.data (fold_left (fun s key => DummyStorageArea.remove key s) arr s) !! k =
  if decide (k ∈ arr) then None else DummyStorageArea.data s !! k.
Proof.
  induction arr as [|k' arr IH]; intros s k; cbn [fold_left].
  - by rewrite decide_False by apply not_elem_of_nil.
  - rewrite IH. cbn. destruct (decide (k ∈ arr)) as [Hin|Hout].
    + by rewrite decide_True by (by right).
    + destruct (decide (k = k')) as [->|Hne].
      * rewrite decide_True by left. by rewrite lookup_delete_eq.
      * rewrite decide_False by (intros [?|?]%elem_of_cons; done).
        by rewrite lookup_delete_ne.
Qed.

Lemma backend_get_all (s : DummyStorageArea.t) :
  DummyStorage.get ArgUndefined s = Some <$> delete "__proto__" (DummyStorageArea.data s).
Proof.
  apply map_eq. intros k. unfold DummyStorage.get. cbv zeta.
  rewrite backend_get_strings, lookup_fmap, lookup_empty.
  destruct (decide _) as [[Hin Hk]|Hout].
  - rewrite lookup_delete_ne by done.
    apply list_elem_of_fmap in Hin as ([k' v] & -> & Hin).
    apply elem_of_map_to_list in Hin. cbn. by rewrite Hin.
  - destruct (decide (k = "__proto__")) as [->|Hk]; [by rewrite lookup_delete_eq|].
    rewrite lookup_delete_ne by done.
    destruct (DummyStorageArea.data s !! k) as [v|] eqn:E; [|done].
    exfalso. apply Hout. split; [|done]. apply list_elem_of_fmap. exists (k, v).
    split; [done|]. by apply elem_of_map_to_list.
Qed.

(** ** What [get] leaves alone *)

#[local] Instance untouched_preorder : PreOrder untouched.
Proof.
  split.
  - intros m. split; [done|]. split; [done|]. exists []. by rewrite app_nil_r.
  - intros m1 m2 m3 (Hs2 & Ht2 & new2 & Hj2 & Hf2) (Hs3 & Ht3 & new3 & Hj3 & Hf3).
    split; [congruence|]. split; [congruence|].
    exists (new2 ++ new3). rewrite Hj3, Hj2, <- app_assoc. split; [done|].
    by apply Forall_app.
Qed.

Lemma untouched_storage_get cfg key : preserves cfg untouched (storage_get key).
Proof.
  intros m Hc. cbn. split; [done|]. split; [done|]. split; [done|].
  eexists. split; [reflexivity|]. constructor; [|done]. cbn. eauto.
Qed.

Lemma untouched_update_state cfg s : preserves cfg untouched (update (with_state s)).
Proof.
  intros m Hc. cbn. split; [done|]. split; [done|]. split; [done|].
  exists []. by rewrite app_nil_r.
Qed.

#[local] Hint Resolve untouched_storage_get untouched_update_state : pres.

Section Untouched.
Context `{Platform}.
Variable cfg : Config.t.

Lemma untouched_isUpToDate : preserves cfg untouched isUpToDate.
Proof. unfold isUpToDate. pres. Qed.

Lemma untouched_connectedBlobs : preserves cfg untouched connectedBlobs.
Proof.
  unfold connectedBlobs. pres.
  apply preserves_connectedBlobs_from; [typeclasses eauto|pres].
Qed.

Lemma untouched_decompress data : preserves cfg untouched (decompress data).
Proof. unfold decompress. pres. Qed.
Hint Resolve untouched_isUpToDate untouched_connectedBlobs untouched_decompress : pres.

Lemma untouched_getAsBlob : preserves cfg untouched getAsBlob.
Proof. unfold getAsBlob. pres. Qed.

Lemma untouched_iterate ks : preserves cfg untouched (iterate ks).
Proof. unfold iterate. pres. Qed.

Lemma untouched_read_keys j keys : forall values,
  preserves cfg untouched (read_keys j keys values).
Proof. induction keys; intros; cbn [read_keys]; unfold json_get; pres. Qed.
Hint Resolve untouched_getAsBlob untouched_iterate untouched_read_keys : pres.

Lemma untouched_get items : preserves cfg untouched (get items).
Proof. unfold get. pres. Qed.
End Untouched.

(** ** Creating an engine *)

(** On a backend that holds a metadata record, [create] takes the record
    over and measures the slots. *)
Lemma create_adopts cfg s live :
  DummyStorageArea.data s !! keyMeta = Some (VMeta live) ->
  create cfg s =
  (Ok tt,
   {| this := {| config := cfg; meta := live; localData := [];
                 occupiedStorage :=
                   blob_size (slots_content (Config.slotCount cfg) (DummyStorageArea.data s));
                 state := Idle |};
      storage := s;
      journal := map (Build_Event Idle)
                   (CallGet keyMeta ::
                    map (fun j => CallGet (slotKey j)) (seq 0 (Config.slotCount cfg))) |}).
Proof.
  intros Hlive. unfold create, initStorageMeta.
  erewrite bind_ok.
  2:{ erewrite bind_ok by reflexivity. tidy. unfold DummyStorageArea.get. rewrite Hlive. reflexivity. }
  tidy. unfold getCurrentUsed.
  erewrite bind_ok.
  2:{ erewrite bind_ok.
      2:{ erewrite bind_ok by apply connectedBlobs_run. reflexivity. }
      reflexivity. }
  cbn. reflexivity.
Qed.

(** On a backend without one, [create] stores the record of a new engine. *)
Lemma create_initialises cfg s :
  DummyStorageArea.data s !! keyMeta = None \/
  DummyStorageArea.data s !! keyMeta = Some (VString "") ->
  create cfg s =
  (Ok tt,
   {| this := with_occupiedStorage
                (blob_size (slots_content (Config.slotCount cfg) (DummyStorageArea.data s)))
                (new cfg);
      storage := DummyStorageArea.set [(keyMeta, VMeta (meta (new cfg)))] s;
      journal := map (Build_Event Idle)
                   (CallGet keyMeta :: CallSet keyMeta (VMeta (meta (new cfg))) ::
                    map (fun j => CallGet (slotKey j)) (seq 0 (Config.slotCount cfg))) |}).
Proof.
  intros Hnone. unfold create, initStorageMeta.
  erewrite bind_ok.
  2:{ erewrite bind_ok by reflexivity. tidy. unfold DummyStorageArea.get.
      destruct Hnone as [-> | ->]; reflexivity. }
  tidy. unfold getCurrentUsed.
  erewrite bind_ok.
  2:{ erewrite bind_ok.
      2:{ erewrite bind_ok by apply connectedBlobs_run. reflexivity. }
      reflexivity. }
  cbn. rewrite slots_content_insert_meta. reflexivity.
Qed.

(** ** Running [get] *)

Lemma iterate_run e items m :
  iterate (argKeysToArray e items) m =
  (match requested e items with Some ks => Ok ks | None => Err TypeError end, m).
Proof.
  unfold requested, iterate.
  destruct (argKeysToArray e items) as [l| | |[]]; reflexivity.
Qed.

Lemma read_keys_run doc ks : forall values,
  exists r, forall m, read_keys doc ks values m = (r, m).
Proof.
  induction ks as [|key ks IH]; intros values; [by exists (Ok values)|].
  cbn [read_keys]. unfold bind, json_get, ret, throw.
  destruct doc; try apply IH. by exists (Err TypeError).
Qed.

Lemma read_keys_object props ks : forall values m,
  (read_keys (JObj props) ks values m).1 =
  Ok (fold_left (fun values key =>
                   obj_set values (property_key key) (obj_get props (property_key key)))
                ks values).
Proof.
  induction ks as [|key ks IH]; intros values m; [done|].
  cbn [read_keys fold_left]. unfold bind, json_get, ret. cbn. apply IH.
Qed.

Section GetRun.
Context `{Platform}.

(** An instance that is up to date answers from its cache, after one call
    to the backend. *)
Lemma get_cached_run items m live :
  DummyStorageArea.data (storage m) !! keyMeta = Some (VMeta live) ->
  lastUpdated live = lastUpdated (meta (this m)) ->
  get items m =
  (match requested (this m) items with
   | Some ks =>
       Ok (fold_left (fun values key =>
                        obj_set values (property_key key) (Map_get (localData (this m)) key))
                     ks [])
   | None => Err TypeError
   end,
   {| this := with_state Idle (this m); storage := storage m;
      journal := journal m ++ [{| during := Downloading; call := CallGet keyMeta |}] |}).
Proof.
  intros Hlive Heq. unfold get, try_catch.
  erewrite bind_ok by reflexivity. erewrite bind_ok by reflexivity. cbv zeta.
  erewrite bind_ok by (apply isUpToDate_run; exact Hlive).
  tidy. rewrite bool_decide_eq_true_2 by done.
  unfold bind at 1. unfold bind at 1. rewrite iterate_run.
  change (requested (with_state Downloading (this m)) items) with (requested (this m) items).
  destruct (requested (this m) items) as [ks|]; cbn; by destruct (this m).
Qed.

Lemma getAsBlob_run m :
  getAsBlob m =
  (let raw := slots_content (Config.slotCount (config (this m)))
                (DummyStorageArea.data (storage m)) in
   match getLastCompressState (this m) with
   | Compressed =>
       match unzip (fill_base64 (blob_text raw) (blob_size raw)) with
       | Some buffer => Ok (blob_of_string (Buffer_toString buffer))
       | None => Err ZippingError
       end
   | _ => Ok raw
   end,
   note (map (fun j => CallGet (slotKey j)) (seq 0 (Config.slotCount (config (this m))))) m).
Proof.
  unfold getAsBlob. erewrite bind_ok by apply connectedBlobs_run.
  unfold bind, getThis. tidy. cbv zeta.
  change (getLastCompressState (this (note _ m))) with (getLastCompressState (this m)).
  destruct (getLastCompressState (this m)); try reflexivity.
  unfold decompress. by destruct (unzip _).
Qed.

(** An instance that has fallen behind reads the slots, decompresses them
    when its own record says [Compressed], and parses the text. *)
Lemma get_live_run items m text :
  (isUpToDate m).1 = Ok false ->
  (let raw := slots_content (Config.slotCount (config (this m)))
                (DummyStorageArea.data (storage m)) in
   match getLastCompressState (this m) with
   | Compressed =>
       match unzip (fill_base64 (blob_text raw) (blob_size raw)) with
       | Some buffer => Some (blob_text (blob_of_string (Buffer_toString buffer)))
       | None => None
       end
   | _ => Some (blob_text raw)
   end = text) ->
  get items m =
  (match text with
   | None => Err ZippingError
   | Some text =>
       match JSON_parse text with
       | None => Err SyntaxError
       | Some doc =>
           match requested (this m) items with
           | Some ks => (read_keys doc ks [] m).1
           | None => Err TypeError
           end
       end
   end,
   {| this := with_state Idle (this m); storage := storage m;
      journal := journal m ++
        map (Build_Event Downloading)
            (CallGet keyMeta ::
             map (fun j => CallGet (slotKey j))
                 (seq 0 (Config.slotCount (config (this m))))) |}).
Proof.
  intros Hstale Htext. cbv zeta in Htext. unfold get, try_catch.
  erewrite bind_ok by reflexivity. erewrite bind_ok by reflexivity. cbv zeta.
  assert (forall m0, storage m0 = storage m -> meta (this m0) = meta (this m) ->
          isUpToDate m0 = (Ok false, note [CallGet keyMeta] m0)) as Hup.
  { intros m0 Hs Hm.
    unfold isUpToDate, bind, storage_get, getThis, DummyStorageArea.get in *. cbn in *.
    rewrite <- Hs, <- Hm in Hstale.
    destruct (DummyStorageArea.data (storage m0) !! _) as [[?|?]|]; cbn in *; [done| |done].
    injection Hstale as ->. done. }
  erewrite bind_ok by (apply Hup; reflexivity). tidy.
  remember (note [CallGet keyMeta]
              {| this := with_state Downloading (this m); storage := storage m;
                 journal := journal m |}) as mr eqn:Hmr.
  pose proof (getAsBlob_run mr) as Hblob.
  assert (Config.slotCount (config (this mr)) = Config.slotCount (config (this m)) /\
          storage mr = storage m /\
          getLastCompressState (this mr) = getLastCompressState (this m)) as (Hn & Hs & Hg)
    by (subst mr; done).
  cbv zeta in Hblob. rewrite Hn, Hs, Hg in Hblob.
  assert (forall (r : Result (list (string * option json))) m1,
            this m1 = this mr -> storage m1 = storage mr -> journal m1 = journal mr ++
              map (Build_Event Downloading)
                (map (fun j => CallGet (slotKey j)) (seq 0 (Config.slotCount (config (this m))))) ->
            match (match r with
                   | Ok a => (update (with_state Idle) ;;; ret a) m1
                   | Err e => (Err e, m1)
                   end) with
            | (Ok a, m') => (Ok a, m')
            | (Err e, m') => (update (with_state Idle) ;;; throw e) m'
            end =
            (r, {| this := with_state Idle (this m); storage := storage m;
                   journal := journal m ++
                     map (Build_Event Downloading)
                       (CallGet keyMeta ::
                        map (fun j => CallGet (slotKey j))
                            (seq 0 (Config.slotCount (config (this m))))) |})) as Hend.
  { intros r m1 Ht Hst Hj. subst mr. cbn in Ht, Hst, Hj.
    destruct r; cbn; rewrite Ht, Hst, Hj; cbn; rewrite <- app_assoc; by destruct (this m). }
  assert (journal (note (map (fun j => CallGet (slotKey j))
                     (seq 0 (Config.slotCount (config (this m))))) mr) =
          journal mr ++ map (Build_Event Downloading)
            (map (fun j => CallGet (slotKey j)) (seq 0 (Config.slotCount (config (this m))))))
    as Hjn by (subst mr; reflexivity).
  unfold bind at 1. unfold bind at 1. rewrite Hblob.
  destruct (getLastCompressState (this m)); subst text.
  - destruct (JSON_parse _) as [doc|]; [|by apply (Hend (Err SyntaxError))].
    unfold bind at 1. rewrite iterate_run.
    change (requested (with_state Downloading (this m)) items) with (requested (this m) items).
    destruct (requested (this m) items) as [ks|]; [|by apply (Hend (Err TypeError))].
    destruct (read_keys_run doc ks []) as [r Hr]. rewrite !Hr. cbn [fst]. by apply Hend.
  - destruct (unzip _) as [buffer|]; [|by apply (Hend (Err ZippingError))].
    destruct (JSON_parse _) as [doc|]; [|by apply (Hend (Err SyntaxError))].
    unfold bind at 1. rewrite iterate_run.
    change (requested (with_state Downloading (this m)) items) with (requested (this m) items).
    destruct (requested (this m) items) as [ks|]; [|by apply (Hend (Err TypeError))].
    destruct (read_keys_run doc ks []) as [r Hr]. rewrite !Hr. cbn [fst]. by apply Hend.
  - destruct (JSON_parse _) as [doc|]; [|by apply (Hend (Err SyntaxError))].
    unfold bind at 1. rewrite iterate_run.
    change (requested (with_state Downloading (this m)) items) with (requested (this m) items).
    destruct (requested (this m) items) as [ks|]; [|by apply (Hend (Err TypeError))].
    destruct (read_keys_run doc ks []) as [r Hr]. rewrite !Hr. cbn [fst]. by apply Hend.
Qed.
End GetRun.

(** ** The parts, slot by slot *)

Lemma split_loop_slots cfg data count : forall i m,
  0 < count ->
  blob_size data <= (i + count) * Config.slotSize cfg ->
  let m' := (for_loop count i
               (fun index =>
                  let end_ := Nat.min ((index + 1) * Config.slotSize cfg) (blob_size data) in
                  let part := blob_slice (index * Config.slotSize cfg) end_ data in
                  setBlob index part ;;;
                  update (fun e => with_occupiedStorage (occupiedStorage e + blob_size part) e) ;;;
                  ret (end_ =? blob_size data)%nat) m).2 in
  (forall j, i <= j ->
     DummyStorageArea.data (storage m') !! slotKey j =
     if decide (j = i \/ j * Config.slotSize cfg < blob_size data)
     then Some (VString (blob_text (part (Config.slotSize cfg) data j)))
     else DummyStorageArea.data (storage m) !! slotKey j) /\
  (forall key, (forall j, i <= j < i + count -> key <> slotKey j) ->
     DummyStorageArea.data (storage m') !! key = DummyStorageArea.data (storage m) !! key) /\
  occupiedStorage (this m') =
    occupiedStorage (this m) + length (drop (i * Config.slotSize cfg) data).
Proof.
  induction count as [|count IH]; intros i m Hpos Hfit; [lia|]. cbv zeta.
  cbn [for_loop]. erewrite bind_ok by reflexivity. tidy.
  fold (part (Config.slotSize cfg) data i).
  set (sz := Config.slotSize cfg) in *.
  set (m1 := {| this := _; storage := _; journal := _ |}).
  assert (Hm1 : forall key, key <> slotKey i ->
            DummyStorageArea.data (storage m1) !! key =
            DummyStorageArea.data (storage m) !! key).
  { intros key Hkey. subst m1. cbn. by apply lookup_insert_ne. }
  assert (Hm1i : DummyStorageArea.data (storage m1) !! slotKey i =
                 Some (VString (blob_text (part sz data i)))).
  { subst m1. cbn. apply lookup_insert_eq. }
  assert (Hocc1 : occupiedStorage (this m1) =
                  occupiedStorage (this m) + blob_size (part sz data i)).
  { subst m1. by destruct (this m). }
  clearbody m1.
  assert (forall a b, a <> b -> slotKey a <> slotKey b) as Hne
    by (intros a b Hab E; by apply slotKey_inj in E).
  destruct (Nat.eqb_spec (Nat.min ((i + 1) * sz) (blob_size data)) (blob_size data))
    as [Hend|Hend].
  - cbn [ret fst snd]. split; [|split].
    + intros j Hj. destruct (decide (j = i)) as [->|Hji].
      * by rewrite decide_True by (by left).
      * rewrite decide_False by nia. apply Hm1. apply Hne. done.
    + intros key Hkey. apply Hm1. apply Hkey. lia.
    + rewrite Hocc1. f_equal. unfold part, blob_slice, blob_size.
      rewrite length_take, length_drop. unfold blob_size in *. lia.
  - assert ((i + 1) * sz < blob_size data) as Hlt by lia.
    destruct (IH (S i) m1) as (Hslots & Hframe & Hocc); [nia|lia|].
    cbv zeta in *. split; [|split].
    + intros j Hj. destruct (decide (j = i)) as [->|Hji].
      * rewrite decide_True by (by left).
        rewrite Hframe; [done|]. intros j Hj'. apply Hne. lia.
      * rewrite Hslots by lia.
        destruct (decide (j = S i \/ j * sz < blob_size data)) as [Hw|Hw].
        -- by rewrite decide_True by nia.
        -- rewrite decide_False by (intros [?|?]; [done|apply Hw; by right]).
           apply Hm1, Hne. done.
    + intros key Hkey. rewrite Hframe by (intros j Hj; apply Hkey; lia).
      apply Hm1, Hkey. lia.
    + rewrite Hocc, Hocc1. unfold part, blob_slice, blob_size.
      rewrite length_take, !length_drop. unfold blob_size in *. nia.
Qed.

(** ** Objects without repeated keys *)

Lemma obj_spread_fill {V} (todo : list (string * V)) : forall seen,
  NoDup (map fst (seen ++ todo)) ->
  fold_left (fun o kv => obj_set o kv.1 kv.2) todo seen = seen ++ todo.
Proof.
  induction todo as [|[k v] todo IH]; intros seen Hnd; [by rewrite app_nil_r|].
  cbn [fold_left fst snd]. rewrite obj_set_fresh.
  - rewrite IH; rewrite <- app_assoc; done.
  - rewrite map_app in Hnd. apply NoDup_app in Hnd as (_ & Hsep & _).
    intros Hin. apply (Hsep k Hin). cbn. left.
Qed.

Lemma obj_spread_nodup {V} (items : list (string * V)) :
  NoDup (map fst items) -> obj_spread [] items = items.
Proof. intros Hnd. unfold obj_spread. cbn [fold_left]. by apply (obj_spread_fill items []). Qed.

Lemma JSON_stringify_size o : 2 <= blob_size (blob_of_string (JSON_stringify o)).
Proof.
  unfold JSON_stringify, blob_of_string, blob_size. cbn [stringify].
  match goal with |- context [String.append ?mid "}"] => generalize mid end.
  intros mid. change ("{" +:+ mid +:+ "}") with (String "{"%char (mid +:+ "}")).
  cbn [list_ascii_of_string length].
  destruct mid as [|c mid]; [vm_compute; lia|].
  cbv [String.append]. fold String.append. cbn [list_ascii_of_string length]. lia.
Qed.

(** ** Reading by key *)

Lemma read_cache_strings (cache : list (string * json)) (ks : list string) : forall values,
  fold_left (fun values key => obj_set values (property_key key) (Map_get cache key))
            (map JStr ks) values =
  fold_left (fun values k => obj_set values k (obj_get cache k)) ks values.
Proof. induction ks as [|k ks IH]; intros values; [done|]. cbn. apply IH. Qed.

Lemma read_object_strings (props : list (string * json)) (ks : list string) : forall values,
  fold_left (fun values key =>
               obj_set values (property_key key) (obj_get props (property_key key)))
            (map JStr ks) values =
  fold_left (fun values k => obj_set values k (obj_get props k)) ks values.
Proof. induction ks as [|k ks IH]; intros values; [done|]. cbn. apply IH. Qed.

Lemma slots_content_empty count : slots_content count ∅ = [].
Proof.
  unfold slots_content, blob_concat. apply concat_nil_Forall, Forall_forall.
  intros x [j [-> _]]%list_elem_of_fmap. by rewrite lookup_empty.
Qed.

Lemma blob_text_of_ascii_string s :
  is_ascii (blob_of_string s) -> blob_text (blob_of_string s) = s.
Proof.
  intros Hs. unfold blob_text. rewrite strip_bom_ascii, utf8_run_ascii by done.
  unfold blob_of_string. apply string_of_list_ascii_of_string.
Qed.

Lemma isUpToDate_own m :
  DummyStorageArea.data (storage m) !! keyMeta = Some (VMeta (meta (this m))) ->
  (isUpToDate m).1 = Ok true.
Proof.
  intros Hlive. rewrite (isUpToDate_run m _ Hlive). cbn.
  by rewrite bool_decide_eq_true_2.
Qed.

(** ** The slots after the parts were saved *)

Lemma splitIntoParts_parts cfg data m :
  blob_size data <= maxCapacity cfg ->
  let m' := (splitIntoParts cfg data m).2 in
  (forall j, j < Config.slotCount cfg ->
     DummyStorageArea.data (storage m') !! slotKey j =
     if decide (j = 0 \/ j * Config.slotSize cfg < blob_size data)
     then Some (VString (blob_text (part (Config.slotSize cfg) data j)))
     else DummyStorageArea.data (storage m) !! slotKey j) /\
  (forall key, (forall j, j < Config.slotCount cfg -> key <> slotKey j) ->
     DummyStorageArea.data (storage m') !! key = DummyStorageArea.data (storage m) !! key) /\
  occupiedStorage (this m') = occupiedStorage (this m) + blob_size data.
Proof.
  intros Hfit. cbv zeta. unfold splitIntoParts, maxCapacity in *.
  destruct (Config.slotCount cfg) as [|count] eqn:En.
  - cbn. split; [intros j Hj; lia|]. split; [done|]. lia.
  - destruct (split_loop_slots cfg data (S count) 0 m) as (Hslots & Hframe & Hocc); [lia|lia|].
    cbv zeta in *. split; [|split].
    + intros j Hj. apply Hslots. lia.
    + intros key Hkey. apply Hframe. intros j Hj. apply Hkey. lia.
    + rewrite Hocc. cbn. done.
Qed.

Lemma remove_slots_other count s key :
  (forall j, j < count -> key <> slotKey j) ->
  DummyStorageArea.data (remove_slots count s) !! key = DummyStorageArea.data s !! key.
Proof.
  unfold remove_slots. intros Hkey.
  assert (forall i s', (forall j, i <= j < i + count -> key <> slotKey j) ->
    DummyStorageArea.data
      (fold_left (fun s i => DummyStorageArea.remove (slotKey i) s) (seq i count) s') !! key =
    DummyStorageArea.data s' !! key) as Hgen.
  { induction count as [|count IH]; intros i s' Hk; [done|].
    cbn [seq fold_left]. rewrite IH.
    - cbn. apply lookup_delete_ne. intros E. apply (Hk i); [lia|done].
    - intros j Hj. apply Hkey. lia.
    - intros j Hj. apply Hk. lia. }
  apply Hgen. intros j Hj. apply Hkey. lia.
Qed.

(** ** The calls [set] makes *)

Lemma filter_seq_ext (P Q : nat -> Prop) `{!forall j, Decision (P j)}
    `{!forall j, Decision (Q j)} count : forall a,
  (forall j, a <= j -> (P j <-> Q j)) ->
  filter P (seq a count) = filter Q (seq a count).
Proof.
  induction count as [|count IH]; intros a HPQ; [done|].
  cbn [seq]. rewrite !filter_cons. rewrite (IH (S a)) by (intros j Hj; apply HPQ; lia).
  destruct (decide (P a)) as [HP|HP], (decide (Q a)) as [HQ|HQ]; try done.
  - exfalso. apply HQ, HPQ; [lia|done].
  - exfalso. apply HP, HPQ; [lia|done].
Qed.

Lemma filter_seq_none (P : nat -> Prop) `{!forall j, Decision (P j)} count : forall a,
  (forall j, a <= j -> ~ P j) -> filter P (seq a count) = [].
Proof.
  induction count as [|count IH]; intros a HP; [done|].
  cbn [seq]. rewrite filter_cons_False by (apply HP; lia). apply IH.
  intros j Hj. apply HP. lia.
Qed.

Lemma for_loop_S count i body :
  for_loop (S count) i body =
  (stop <- body i ;; if stop : bool then ret tt else for_loop count (S i) body).
Proof. reflexivity. Qed.

Lemma split_loop_journal cfg data count : forall i m,
  blob_size data <= (i + S count) * Config.slotSize cfg ->
  let m' := (for_loop (S count) i
               (fun index =>
                  let end_ := Nat.min ((index + 1) * Config.slotSize cfg) (blob_size data) in
                  let part := blob_slice (index * Config.slotSize cfg) end_ data in
                  setBlob index part ;;;
                  update (fun e => with_occupiedStorage (occupiedStorage e + blob_size part) e) ;;;
                  ret (end_ =? blob_size data)%nat) m).2 in
  journal m' =
  journal m ++
  map (fun j => {| during := state (this m);
                   call := CallSet (slotKey j)
                             (VString (blob_text (part (Config.slotSize cfg) data j))) |})
      (i :: filter (fun j => j * Config.slotSize cfg < blob_size data) (seq (S i) count)).
Proof.
  induction count as [|count IH]; intros i m Hfit; cbv zeta.
  - cbn [for_loop]. erewrite bind_ok by reflexivity. tidy.
    fold (part (Config.slotSize cfg) data i).
    destruct (_ =? _)%nat; cbn; done.
  - rewrite for_loop_S. erewrite bind_ok by reflexivity. tidy.
    fold (part (Config.slotSize cfg) data i).
    set (sz := Config.slotSize cfg) in *.
    destruct (Nat.eqb_spec (Nat.min ((i + 1) * sz) (blob_size data)) (blob_size data))
      as [Hend|Hend].
    + cbn [ret snd journal]. rewrite filter_seq_none by (intros j Hj; nia). done.
    + cbv iota.
      match goal with |- context [for_loop (S count) (S i) ?body ?m1] =>
        pose proof (IH (S i) m1) as IH'
      end.
      cbv zeta in IH'. rewrite IH' by lia. tidy.
      cbn [seq]. rewrite filter_cons_True by lia.
      unfold record. cbn. rewrite <- app_assoc. cbn.
      try done; repeat f_equal; by destruct (this m).
Qed.

Lemma splitIntoParts_journal cfg data m :
  blob_size data <= maxCapacity cfg ->
  journal (splitIntoParts cfg data m).2 =
  journal m ++
  map (fun j => {| during := state (this m);
                   call := CallSet (slotKey j)
                             (VString (blob_text (part (Config.slotSize cfg) data j))) |})
      (written_slots cfg (blob_size data)).
Proof.
  intros Hfit. unfold splitIntoParts, written_slots, maxCapacity in *.
  destruct (Config.slotCount cfg) as [|count].
  - cbn. by rewrite app_nil_r.
  - pose proof (split_loop_journal cfg data count 0 m) as Hj. cbv zeta in Hj.
    rewrite Hj by lia. cbn [seq]. rewrite filter_cons_True by (by left).
    do 3 f_equal. apply filter_seq_ext. intros j Hj'. split; [by right|].
    intros [->|?]; [lia|done].
Qed.


(** ** A rejected [set] with compression enabled *)

Lemma set_zipping_run `{Platform} now items m :
  Config.compress (config (this m)) = true ->
  deflate (blob_of_string (JSON_stringify (obj_spread [] items))) = None ->
  exists m', set now items m = (Err ZippingError, m') /\
    this m' = with_state Idle
                (with_meta (with_lastCompressState Failed (meta (this m))) (this m)) /\
    storage m' = DummyStorageArea.set
                   [(keyMeta, VMeta (with_lastCompressState Failed (meta (this m))))]
                   (storage m).
Proof.
  intros Ec Ed. unfold set, try_catch.
  erewrite bind_ok by reflexivity.
  erewrite bind_ok by reflexivity. cbv zeta.
  erewrite bind_ok by apply connectedBlobs_run.
  cbn [this note config with_state]. rewrite Ec.
  erewrite bind_err by (apply compress_run_none, Ed).
  eexists. split; [reflexivity|]. split; [|reflexivity]. cbn. by destruct (this m).
Qed.


(** ** The first call of an operation *)

#[local] Hint Resolve untouched_isUpToDate untouched_connectedBlobs untouched_decompress
  untouched_getAsBlob untouched_iterate untouched_read_keys : pres.

Lemma isUpToDate_any m :
  exists r, isUpToDate m = (r, note [CallGet keyMeta] m).
Proof.
  unfold isUpToDate, bind, storage_get, getThis, DummyStorageArea.get.
  destruct (DummyStorageArea.data (storage m) !! keyMeta) as [[s|live]|]; cbn; eauto.
Qed.

(** [get] begins with the read of the metadata record, in state
    [Downloading]. *)
Lemma get_first_call `{Platform} items m :
  exists rest,
    journal (get items m).2 =
    journal m ++ {| during := Downloading; call := CallGet keyMeta |} :: rest.
Proof.
  unfold get, try_catch. step. step. cbv zeta.
  match goal with |- context [bind isUpToDate ?k ?m0] =>
    assert (forall b, preserves (config (this m)) untouched (k b)) as Hk
      by (intros b; cbv beta; pres);
    destruct (isUpToDate_any m0) as [r Hr];
    unfold bind at 1; rewrite Hr;
    destruct r as [b|e];
    [ destruct (Hk b (note [CallGet keyMeta] m0) eq_refl) as (_ & _ & _ & new & Hj & _);
      destruct (k b (note [CallGet keyMeta] m0)) as [[v|e] m2] |]
  end; cbn in *.
  - exists new. rewrite Hj. by rewrite <- app_assoc.
  - exists new. rewrite Hj. by rewrite <- app_assoc.
  - by exists [].
Qed.

(** With a slot to read, [set] begins with the read of slot 0, in state
    [Uploading]; with compression it does not end without a write of the
    metadata record; with neither it makes no call and is rejected. *)
Lemma set_first_call `{Platform} now items m :
  0 < Config.slotCount (config (this m)) ->
  exists rest,
    journal (set now items m).2 =
    journal m ++ {| during := Uploading; call := CallGet (slotKey 0) |} :: rest.
Proof.
  intros Hn. unfold set, try_catch. step. step. cbv zeta.
  match goal with |- context [bind connectedBlobs ?k ?m0] =>
    assert (forall b, preserves (config (this m)) (framed (config (this m))) (k b)) as Hk
      by (intros b; cbv beta; pres);
    set (kk := k) in *;
    unfold bind at 1; rewrite (connectedBlobs_run m0); cbv beta iota
  end.
  match goal with |- context [kk ?b ?m1] =>
    destruct (Hk b m1 eq_refl) as (_ & _ & new & Hj & _);
    destruct (kk b m1) as [[v|e] m2]
  end; cbn in *.
  - destruct (Config.slotCount (config (this m))) as [|count]; [lia|].
    eexists. rewrite Hj. cbn. rewrite <- app_assoc. cbn. reflexivity.
  - destruct (Config.slotCount (config (this m))) as [|count]; [lia|].
    eexists. rewrite Hj. cbn. rewrite <- app_assoc. cbn. reflexivity.
Qed.

(** With compression, [set] does not end without a write of the metadata
    record. *)
Lemma set_compressing_calls `{Platform} now items m :
  Config.compress (config (this m)) = true ->
  exists v, {| during := Uploading; call := CallSet keyMeta v |} ∈
            drop (length (journal m)) (journal (set now items m).2).
Proof.
  intros Hc. unfold set, try_catch. step. step. cbv zeta.
  erewrite bind_ok by apply connectedBlobs_run; tidy. rewrite Hc.
  match goal with |- context [bind (compress ?d) ?k ?m0] =>
    assert (forall b, preserves (config (this m)) (framed (config (this m))) (k b)) as Hk
      by (intros b; cbv beta; rewrite ?Hc; pres);
    set (kk := k) in *; set (mm := m0) in *;
    assert (journal mm = journal m ++
              map (Build_Event Uploading)
                (map (fun j => CallGet (slotKey j)) (seq 0 (Config.slotCount (config (this m))))))
      as Hmm by reflexivity;
    assert (config (this mm) = config (this m)) as Hcm by reflexivity;
    assert (state (this mm) = Uploading) as Hsm by reflexivity;
    clearbody mm;
    destruct (deflate d) as [buffer|] eqn:Ed
  end.
  - erewrite bind_ok by (apply compress_run_some, Ed).
    match goal with |- context [kk ?b ?m1] =>
      destruct (Hk b m1 Hcm) as (_ & _ & new & Hj & _);
      destruct (kk b m1) as [[v|e] m2]
    end; cbn in *; eexists; rewrite Hj; unfold record; rewrite Hmm, Hsm;
      rewrite <- !app_assoc, drop_app_length;
      apply list_elem_of_In, in_or_app; right; left; reflexivity.
  - erewrite bind_err by (apply compress_run_none, Ed).
    cbn. eexists. unfold record. rewrite Hmm, Hsm.
    rewrite <- !app_assoc, drop_app_length.
    apply list_elem_of_In, in_or_app. right. left. reflexivity.
Qed.

(** Without a slot and without compression [set] makes no call: nothing
    fits, and the data is rejected. *)
Lemma set_slotless `{Platform} now items m :
  Config.slotCount (config (this m)) = 0 ->
  Config.compress (config (this m)) = false ->
  journal (set now items m).2 = journal m /\
  exists over, (set now items m).1 = Err (TooLargeDataError over).
Proof.
  intros Hn Hc.
  destruct (set_too_large now items m (blob_of_string (JSON_stringify (obj_spread [] items))))
    as (m' & Hset & Hthis & Hst).
  - unfold final_payload. by rewrite Hc.
  - unfold maxCapacity. rewrite Hn, Nat.mul_0_l.
    pose proof (JSON_stringify_size (obj_spread [] items)). lia.
  - split; [|rewrite Hset; eauto].
    revert Hset. unfold set, try_catch. step. step. cbv zeta.
    erewrite bind_ok by apply connectedBlobs_run; tidy. rewrite Hc, Hn.
    step. step.
    rewrite over_true.
    2:{ pose proof (JSON_stringify_size (obj_spread [] items)).
        rewrite Hn, Nat.mul_0_l. unfold Blob_properties. lia. }
    cbn. intros [= <-]. cbn. by rewrite app_nil_r.
Qed.

(** ** Reading a compressed document back *)



(** * The claims *)

(** C1 (the code falls short of it).  The claim: [set(items)] persists the
    old document merged with [items].  The code at the input of the claim: a
    store that holds [{"a":"1"}] receives [set({b:"2"})]; the call succeeds
    and the slots then hold [{"b":"2"}], not [{"a":"1","b":"2"}]: the old
    content is read as a [Blob] and spread into the new object, to which a
    [Blob] contributes no key. *)
Theorem C1_set_forgets_the_old_document `{Platform} (t1 t2 : Z) :
  let before := set t1 items_a (fresh config_16x16) in
  let after := set t2 items_b before.2 in
  let stored (m : Machine) :=
    blob_text (slots_content 16 (DummyStorageArea.data (storage m))) in
  before.1 = Ok tt /\
  stored before.2 = sample_document /\
  after.1 = Ok tt /\
  stored after.2 = document_b /\
  stored after.2 <> document_a_b.
Proof. vm_compute. repeat split; discriminate. Qed.

(** C2 (corrected).  When [set(items)] fails with [TooLargeDataError], every
    backend key other than ["__storage_meta"], the slots among them, is as it
    was, and so are the instance's [hash], [hashPreCompress] and
    [lastUpdated].  With compression disabled the whole metadata record and
    the backend are as they were.  With compression enabled [compress] has
    run before the capacity check: [lastCompressState] is [Compressed] and
    the backend's metadata record is the instance's record. *)
Theorem C2_capacity_error_effects `{Platform} (now : Z) (items : list (string * json))
    (m : Machine) (over : Z) :
  (set now items m).1 = Err (TooLargeDataError over) ->
  let m' := (set now items m).2 in
  let d (x : Machine) := DummyStorageArea.data (storage x) in
  (forall key, key <> keyMeta -> d m' !! key = d m !! key) /\
  hash (meta (this m')) = hash (meta (this m)) /\
  hashPreCompress (meta (this m')) = hashPreCompress (meta (this m)) /\
  lastUpdated (meta (this m')) = lastUpdated (meta (this m)) /\
  (Config.compress (config (this m)) = false ->
     meta (this m') = meta (this m) /\ storage m' = storage m) /\
  (Config.compress (config (this m)) = true ->
     lastCompressState (meta (this m')) = Compressed /\
     d m' !! keyMeta = Some (VMeta (meta (this m')))).
Proof.
  intros Herr. apply set_too_large_inv in Herr as (data & Hp & Hbig & _).
  destruct (set_too_large now items m data Hp Hbig) as (m' & Hrun & Hthis & Hst).
  rewrite Hrun. cbn [snd]. cbv zeta. rewrite Hthis, Hst.
  unfold compressed_this, compressed_storage.
  destruct (Config.compress (config (this m))); cbn.
  - split; [intros key Hkey; by rewrite lookup_insert_ne|].
    split; [done|]. split; [done|]. split; [done|]. split; [done|].
    intros _. split; [done|]. by rewrite lookup_insert_eq.
  - split; [done|]. split; [done|]. split; [done|]. split; [done|]. split; [|done].
    intros _. done.
Qed.


(** C3 (the code falls short of it).  The claim: a payload within capacity,
    split over cleared slots and read back, is the payload.  The code at a
    payload of ten bytes, [{"k":"é"}], with two slots of seven bytes: the
    first part ends between the two bytes of [é]; each part is saved as its
    text, in which the lone byte has become U+FFFD; reading back gives
    fourteen bytes.  The same through [set]. *)
Theorem C3_split_breaks_a_character `{Platform} (now : Z) :
  let payload := blob_of_string document_e_acute in
  let parts := splitIntoParts config_7x2 payload (fresh config_7x2) in
  let read (m : Machine) := slots_content 2 (DummyStorageArea.data (storage m)) in
  let written := set now items_e_acute (fresh config_7x2) in
  blob_size payload = 10 /\
  blob_size payload <= maxCapacity config_7x2 /\
  read (fresh config_7x2) = [] /\
  parts.1 = Ok tt /\
  blob_size (read parts.2) = 14 /\
  read parts.2 <> payload /\
  JSON_stringify items_e_acute = document_e_acute /\
  written.1 = Ok tt /\
  blob_text (read written.2) <> document_e_acute.
Proof. vm_compute. repeat split; first [discriminate | lia]. Qed.

(** C4 (the code falls short of it).  The claim: [set(items)] signals the
    capacity error exactly when the serialized merged document, compressed
    when compression is enabled, is larger than [slotSize * slotCount].  The
    code at an input: a store of four slots of four bytes holds [{"a":"1"}]
    and receives [set({b:"2"})], compression disabled.  The merged document
    [{"a":"1","b":"2"}] has seventeen bytes, one more than the capacity of
    sixteen, yet the call succeeds, and the slots then hold [{"b":"2"}]: what
    is measured is the serialization of [items] alone, the old content being
    spread as a [Blob], which contributes no key. *)
Theorem C4_capacity_check_misses_the_old_document `{Platform} (t1 t2 : Z) :
  let before := set t1 items_a (fresh config_4x4) in
  let after := set t2 items_b before.2 in
  let stored (m : Machine) :=
    blob_text (slots_content 4 (DummyStorageArea.data (storage m))) in
  Config.compress config_4x4 = false /\
  maxCapacity config_4x4 = 16 /\
  before.1 = Ok tt /\
  stored before.2 = sample_document /\
  JSON_stringify (obj_spread items_a items_b) = document_a_b /\
  blob_size (blob_of_string document_a_b) = 17 /\
  after.1 = Ok tt /\
  stored after.2 = document_b.
Proof. vm_compute. repeat split. Qed.


(** C6 (corrected).  After a successful [set] by the engine of [m], that
    engine's [isUpToDate()] is true, and the [isUpToDate()] of any other
    engine [b] on the same backend is true exactly when the [lastUpdated]
    that [b] has cached is the time [set] has just written: it is false
    whenever the two differ, as when [b] has none.  In general
    [isUpToDate()] compares the cached [lastUpdated] with the one of the
    backend's record, two absent ones being equal. *)
Theorem C6_up_to_date_after_set `{Platform} (m : Machine) (b : t) (now : Z)
    (items : list (string * json)) :
  (set now items m).1 = Ok tt ->
  let after := (set now items m).2 in
  (isUpToDate after).1 = Ok true /\
  (isUpToDate (attach b (storage after))).1 =
    Ok (bool_decide (lastUpdated (meta b) = Some now)) /\
  (lastUpdated (meta b) <> Some now ->
   (isUpToDate (attach b (storage after))).1 = Ok false) /\
  (forall (x : Machine) (live : MetaValues),
     DummyStorageArea.data (storage x) !! keyMeta = Some (VMeta live) ->
     (isUpToDate x).1 = Ok (bool_decide (lastUpdated live = lastUpdated (meta (this x))))).
Proof.
  intros Hok. apply set_ok_inv in Hok as (data & Hp & Hfit).
  destruct (set_ok now items m data Hp Hfit) as (_ & _ & _ & _ & Hmeta & Hlive & _).
  cbv zeta in *.
  assert (Hb : (isUpToDate (attach b (storage (set now items m).2))).1 =
               Ok (bool_decide (lastUpdated (meta b) = Some now))).
  { erewrite isUpToDate_run by exact Hlive. cbn. rewrite Hmeta. cbn.
    f_equal. apply bool_decide_ext. split; congruence. }
  split; [|split; [|split]].
  - erewrite isUpToDate_run by exact Hlive. cbn. by rewrite bool_decide_eq_true_2.
  - exact Hb.
  - intros Hne. rewrite Hb. by rewrite bool_decide_eq_false_2.
  - intros x live Hx. by erewrite isUpToDate_run.
Qed.

(** C7 (confirmed).  After a successful [set], [getHash()] is the digest of
    what the slots then hold, read back from the backend (so of the
    compressed text when compression is enabled).  [calculateHash] takes the
    text of these bytes; the bytes are well-formed text, so the text differs
    from them by a byte order mark in front at most, and by nothing when
    compression is off (the document starts with a brace) or when the payload
    is of bytes below 128 (as Base64 is), where the slots hold the payload
    itself.  In the test suite's scenario, four slots of four bytes,
    [set({key:"ABCDEF"})] on the store that held [{key:"ABC"}] succeeds,
    [getCurrentUsed()] is 16 and [getHash()] is the digest of
    [{"key":"ABCDEF"}]. *)
Theorem C7_hash_of_stored_content `{Platform} :
  (forall now items m,
     (set now items m).1 = Ok tt ->
     let m' := (set now items m).2 in
     let stored := slots_content (Config.slotCount (config (this m')))
                     (DummyStorageArea.data (storage m')) in
     getHash (this m') = Some (calculateHash (blob_text stored)) /\
     well_formed stored /\
     blob_text stored = string_of_list_ascii (strip_bom stored) /\
     (Config.compress (config (this m)) = false ->
      getHash (this m') = Some (calculateHash (string_of_list_ascii stored))) /\
     (forall data,
        final_payload (config (this m)) items = Some data -> is_ascii data ->
        stored = data /\
        getHash (this m') = Some (calculateHash (string_of_list_ascii data)))) /\
  (forall t1 t2,
     let before := (set t1 items_ABC (fresh config_4x4)).2 in
     let after := set t2 items_ABCDEF before in
     after.1 = Ok tt /\
     (getCurrentUsed false after.2).1 = Ok 16 /\
     getHash (this after.2) =
     Some (calculateHash ("{" +:+ quoted "key" +:+ ":" +:+ quoted "ABCDEF" +:+ "}"))).
Proof.
  split.
  - intros now items m Hok. pose proof Hok as Hok'.
    apply set_ok_inv in Hok' as (data & Hp & Hfit).
    destruct (set_ok now items m data Hp Hfit) as (_ & Hc & _ & _ & Hmeta & _).
    destruct (stored_content_well_formed now items m Hok) as [Hwf Htext].
    cbv zeta in *.
    assert (getHash (this (set now items m).2) =
            Some (calculateHash (blob_text
              (slots_content (Config.slotCount (config (this m)))
                 (DummyStorageArea.data (storage (set now items m).2)))))) as Hhash.
    { unfold getHash, getMeta. by rewrite Hmeta. }
    rewrite Hc. split; [exact Hhash|]. split; [exact Hwf|]. split; [exact Htext|]. split.
    + intros Hoff. rewrite Hhash, Htext.
      by rewrite (stored_content_no_bom now items m Hoff Hok).
    + intros data' Hp' Hascii. assert (data' = data) as -> by congruence.
      destruct (stored_content_ascii now items m data Hp Hfit Hascii) as [Hs _].
      rewrite Hhash, Htext, Hs. by rewrite strip_bom_ascii.
  - intros t1 t2. vm_compute. done.
Qed.

(** C8 (confirmed).  While a [get] is in flight the state is [Downloading]:
    the operation begins with the read of the metadata record, made in that
    state, and every further call it makes to the backend is made in that
    state.  While a [set] is in flight the state is [Uploading]: every call
    it makes is made in that state, the first being the read of slot 0 when
    the engine has a slot, and the metadata record being written when
    compression is enabled (an engine with neither makes no call, and rejects
    the data).  However either ends, with a value or with an error, the
    state is [Idle] afterwards. *)
Theorem C8_state_returns_to_idle `{Platform} (m : Machine) :
  (forall items,
     state (this (get items m).2) = Idle /\
     exists rest,
       journal (get items m).2 =
         journal m ++ {| during := Downloading; call := CallGet keyMeta |} :: rest /\
       Forall (fun ev => during ev = Downloading) rest) /\
  (forall now items,
     state (this (set now items m).2) = Idle /\
     exists new,
       journal (set now items m).2 = journal m ++ new /\
       Forall (fun ev => during ev = Uploading) new /\
       (0 < Config.slotCount (config (this m)) ->
        exists rest, new = {| during := Uploading; call := CallGet (slotKey 0) |} :: rest) /\
       (Config.compress (config (this m)) = true ->
        exists v, {| during := Uploading; call := CallSet keyMeta v |} ∈ new) /\
       (Config.slotCount (config (this m)) = 0 ->
        Config.compress (config (this m)) = false ->
        new = [] /\ exists over, (set now items m).1 = Err (TooLargeDataError over))).
Proof.
  split.
  - intros items. destruct (get_lands_idle items m) as (Hs & new & Hj & Hf).
    split; [done|]. destruct (get_first_call items m) as [rest Hr].
    exists rest. split; [done|].
    rewrite Hr in Hj. apply app_inv_head in Hj. subst new. by inversion Hf.
  - intros now items. destruct (set_lands_idle now items m) as (Hs & new & Hj & Hf).
    split; [done|]. exists new. split; [done|]. split; [done|]. split; [|split].
    + intros Hn. destruct (set_first_call now items m Hn) as [rest Hr].
      exists rest. rewrite Hr in Hj. by apply app_inv_head in Hj.
    + intros Hc. destruct (set_compressing_calls now items m Hc) as [v Hv].
      exists v. by rewrite Hj, drop_app_length in Hv.
    + intros Hn Hc. destruct (set_slotless now items m Hn Hc) as [Hr Herr].
      split; [|done]. apply (app_inv_head (journal m)). rewrite app_nil_r. congruence.
Qed.

(** C9 (confirmed).  A backend key outside the reserved names
    (["__storage_meta"] and ["__storage_stack_" + i] for [i < slotCount])
    has the same value after [set], [get] and [clear] as before; the calls
    they make read, set reserved keys or remove slots, and those of [clear]
    are removals of slots only: the backend's [clear()] is never called. *)
Theorem C9_foreign_keys_untouched `{Platform} (m : Machine) (key : string) :
  ~ reserved (config (this m)) key ->
  let d (m' : Machine) := DummyStorageArea.data (storage m') !! key in
  let own (m' : Machine) :=
    exists new, journal m' = journal m ++ new /\
                Forall (fun ev => own_call (config (this m)) (call ev)) new in
  (forall now items, d (set now items m).2 = d m /\ own (set now items m).2) /\
  (forall items, d (get items m).2 = d m /\ own (get items m).2) /\
  (d (clear m).2 = d m /\
   exists new, journal (clear m).2 = journal m ++ new /\
     Forall (fun ev => exists i, i < Config.slotCount (config (this m)) /\
                                 call ev = CallRemove (slotKey i)) new).
Proof.
  intros Hkey d own. subst d own. cbv beta.
  split; [|split].
  - intros now items.
    destruct (framed_set (config (this m)) now items m eq_refl) as (_ & Hk & Hj). auto.
  - intros items.
    destruct (framed_get (config (this m)) items m eq_refl) as (_ & Hk & Hj). auto.
  - destruct (framed_clear (config (this m)) m eq_refl) as (_ & Hk & _).
    split; [auto|]. by apply clear_calls.
Qed.

(** C10 (confirmed).  For an array argument [argKeysToArray] returns the
    array's [keys] property, a function, and for another object its own
    [keys] property, [undefined] when it has none; [get] with an array, empty
    or not, or with an object without [keys], never returns: it rejects.
    When the engine is up to date the error is the [TypeError] of iterating
    that value. *)
Theorem C10_get_with_array_rejects `{Platform} (m : Machine) :
  (forall e elems, argKeysToArray e (ArgArray elems) = KeysFunction) /\
  (forall e props,
     argKeysToArray e (ArgObject props) =
     match obj_get props "keys" with
     | Some j => KeysJson j
     | None => KeysUndefined
     end) /\
  (forall elems, exists err, (get (ArgArray elems) m).1 = Err err) /\
  (forall props, obj_get props "keys" = None ->
     exists err, (get (ArgObject props) m).1 = Err err) /\
  (forall elems live,
     DummyStorageArea.data (storage m) !! keyMeta = Some (VMeta live) ->
     lastUpdated live = lastUpdated (meta (this m)) ->
     (get (ArgArray elems) m).1 = Err TypeError).
Proof.
  split; [done|]. split; [intros e props; cbn; by destruct (obj_get props "keys")|].
  split; [|split].
  - intros elems. apply get_unreadable_keys. intros e. by left.
  - intros props Hp. apply get_unreadable_keys. intros e. right. cbn. by rewrite Hp.
  - intros elems live Hlive Heq. unfold get, try_catch.
    erewrite bind_ok by reflexivity. erewrite bind_ok by reflexivity. cbv zeta.
    unfold bind at 1. unfold isUpToDate, bind at 1. unfold storage_get at 1.
    unfold DummyStorageArea.get. cbn [this storage]. rewrite Hlive. cbn.
    rewrite bool_decide_eq_true_2 by done. reflexivity.
Qed.

(** ** Further properties of the code *)

(** X1.  A payload of bytes below 128 that fits, split over cleared slots
    and read back slot by slot, is the payload; the loop succeeds and adds
    the payload's size to the space in use. *)
Theorem split_then_read_ascii (data : Blob) (m : Machine) :
  let cfg := config (this m) in
  is_ascii data ->
  (forall j, j < Config.slotCount cfg ->
     DummyStorageArea.data (storage m) !! slotKey j = None) ->
  blob_size data <= maxCapacity cfg ->
  let m' := (splitIntoParts cfg data m).2 in
  (splitIntoParts cfg data m).1 = Ok tt /\
  slots_content (Config.slotCount cfg) (DummyStorageArea.data (storage m')) = data /\
  (connectedBlobs m').1 = Ok data /\
  occupiedStorage (this m') = occupiedStorage (this m) + blob_size data.
Proof.
  cbv zeta. intros Hascii Hnone Hfit.
  destruct (splitIntoParts_ascii (config (this m)) data m Hascii Hnone Hfit) as [Hs Hocc].
  split; [|split; [exact Hs|split; [|exact Hocc]]].
  - by destruct (splitIntoParts_run (config (this m)) data m) as (occ & st' & j' & ->).
  - rewrite connectedBlobs_run. cbn [fst].
    destruct (splitIntoParts_run (config (this m)) data m) as (occ & st' & j' & E).
    rewrite E in Hs |- *. cbn [snd this storage] in *.
    replace (config (with_occupiedStorage occ (this m))) with (config (this m))
      by (by destruct (this m)).
    by rewrite Hs.
Qed.

(** X2.  When the final payload of [set(items)] is of bytes below 128 and
    fits, the slots hold exactly the payload afterwards and
    [getCurrentUsed()] is its size. *)
Theorem set_stores_ascii_payload `{Platform} (now : Z) (items : list (string * json))
    (m : Machine) (data : Blob) :
  final_payload (config (this m)) items = Some data ->
  blob_size data <= maxCapacity (config (this m)) ->
  is_ascii data ->
  let m' := (set now items m).2 in
  (set now items m).1 = Ok tt /\
  slots_content (Config.slotCount (config (this m)))
    (DummyStorageArea.data (storage m')) = data /\
  (getCurrentUsed false m').1 = Ok (blob_size data) /\
  (getCurrentUsed true m').1 = Ok (blob_size data).
Proof.
  intros Hp Hfit Hascii. cbv zeta.
  destruct (stored_content_ascii now items m data Hp Hfit Hascii) as [Hs Hocc].
  destruct (set_ok now items m data Hp Hfit) as (Hok & Hc & _).
  cbv zeta in Hc.
  split; [exact Hok|]. split; [exact Hs|]. split.
  - unfold getCurrentUsed, bind, ret, getThis. cbn. by rewrite Hocc.
  - unfold getCurrentUsed. erewrite bind_ok.
    2:{ erewrite bind_ok by apply connectedBlobs_run. reflexivity. }
    unfold bind, getThis, ret. cbn. rewrite Hc, Hs. done.
Qed.

(** X3.  [clear()] succeeds; afterwards every slot is absent from the
    backend, every other key is as it was (the metadata record with its old
    hash among them), the space in use is 0 and the cache is empty; state,
    metadata and configuration of the instance are as they were. *)
Theorem clear_empties_the_slots (m : Machine) :
  let m' := (clear m).2 in
  (clear m).1 = Ok tt /\
  (forall j, j < Config.slotCount (config (this m)) ->
     DummyStorageArea.data (storage m') !! slotKey j = None) /\
  (forall key, (forall j, j < Config.slotCount (config (this m)) -> key <> slotKey j) ->
     DummyStorageArea.data (storage m') !! key = DummyStorageArea.data (storage m) !! key) /\
  occupiedStorage (this m') = 0 /\
  localData (this m') = [] /\
  meta (this m') = meta (this m) /\
  state (this m') = state (this m) /\
  config (this m') = config (this m).
Proof.
  cbv zeta. rewrite clear_run. cbn [fst snd this storage].
  split; [done|]. split; [|split; [|by destruct (this m)]].
  - intros j Hj. unfold remove_slots. apply remove_from_lookup_slot. lia.
  - intros key Hkey. unfold remove_slots.
    generalize (storage m). revert Hkey.
    generalize (Config.slotCount (config (this m))) as count. intros count.
    assert (forall i s, (forall j, i <= j < i + count -> key <> slotKey j) ->
      DummyStorageArea.data
        (fold_left (fun s i => DummyStorageArea.remove (slotKey i) s) (seq i count) s) !! key =
      DummyStorageArea.data s !! key) as Hgen.
    { induction count as [|count IH]; intros i s Hk; [done|].
      cbn [seq fold_left]. rewrite IH by (intros j Hj; apply Hk; lia).
      cbn. apply lookup_delete_ne. intros E. apply (Hk i); [lia|done]. }
    intros Hkey s. apply Hgen. intros j Hj. apply Hkey. lia.
Qed.

(** X4.  With compression enabled, when zlib fails on the serialized items
    [set] does not succeed, and the failure is on record: the last
    compression is [Failed], in the instance and in the backend's metadata
    record, which has been rewritten; no other key of the backend, so no
    slot, has changed, and the cache is as it was.  (The callback of
    [compress] goes on after it has rejected and throws; what that does to
    the host is no part of the statement.) *)
Theorem zlib_failure_is_recorded `{Platform} (now : Z) (items : list (string * json))
    (m : Machine) :
  Config.compress (config (this m)) = true ->
  deflate (blob_of_string (JSON_stringify (obj_spread [] items))) = None ->
  let m' := (set now items m).2 in
  (set now items m).1 <> Ok tt /\
  getLastCompressState (this m') = Failed /\
  DummyStorageArea.data (storage m') !! keyMeta =
    Some (VMeta (with_lastCompressState Failed (meta (this m)))) /\
  (forall key, key <> keyMeta ->
     DummyStorageArea.data (storage m') !! key = DummyStorageArea.data (storage m) !! key) /\
  localData (this m') = localData (this m).
Proof.
  intros Ec Ed. cbv zeta.
  destruct (set_zipping_run now items m Ec Ed) as (m' & -> & Hthis & Hst).
  cbn [fst snd]. rewrite Hthis, Hst. cbn.
  split; [done|]. split; [done|]. split; [by rewrite lookup_insert_eq|]. split; [|done].
  intros key Hkey. by rewrite lookup_insert_ne.
Qed.

(** X5.  The backend by itself: after [set(items)], [get(key)] resolves
    with one property, [key], holding the value [items] gives it, or else
    what the store held before ([undefined] when nothing); [get(keys)] with
    an array does so for each of its strings and has no other property.  (The
    key [__proto__] apart, which an object takes no assignment to.)  What the
    engine reads, the property [key] of [get(key)], is what the store holds
    under [key]. *)
Theorem backend_get_after_set (items : list (string * StorageValue))
    (s : DummyStorageArea.t) :
  NoDup (map fst items) ->
  let s' := DummyStorageArea.set items s in
  let held k := match obj_get items k with
                | Some v => Some v
                | None => DummyStorageArea.data s !! k
                end in
  (forall key, key <> "__proto__" ->
     DummyStorage.get (ArgString key) s' = {[ key := held key ]}) /\
  (forall keys k,
     DummyStorage.get (ArgArray keys) s' !! k =
     if decide (k ∈ keys /\ k <> "__proto__") then Some (held k) else None) /\
  (forall key, key <> "__proto__" ->
     DummyStorage.get (ArgString key) s !! key = Some (DummyStorageArea.get key s)).
Proof.
  intros Hnd. cbv zeta. split; [|split].
  - intros key Hkey. unfold DummyStorage.get, DummyStorage.assign. cbn.
    destruct (String.eqb_spec key "__proto__"); [done|]. by rewrite backend_set_lookup.
  - intros keys k. unfold DummyStorage.get. cbv zeta.
    rewrite backend_get_strings, lookup_empty. cbn.
    by rewrite backend_set_lookup.
  - intros key Hkey. unfold DummyStorage.get, DummyStorage.assign. cbn.
    destruct (String.eqb_spec key "__proto__"); [done|]. by rewrite lookup_insert_eq.
Qed.

(** X6.  The backend by itself: [get()] and [get(null)] resolve with
    everything the store holds (under [__proto__] apart); after [clear()]
    that is nothing, and after [clear()] and [set(items)] exactly [items];
    after [clear()] a [get] with an array still answers every key it was
    asked, each with [undefined]. *)
Theorem backend_get_everything (items : list (string * StorageValue))
    (s : DummyStorageArea.t) :
  NoDup (map fst items) ->
  DummyStorage.get ArgUndefined s = Some <$> delete "__proto__" (DummyStorageArea.data s) /\
  DummyStorage.get ArgNull s = DummyStorage.get ArgUndefined s /\
  DummyStorage.get ArgUndefined (DummyStorageArea.clear s) = ∅ /\
  (forall k, k <> "__proto__" ->
     DummyStorage.get ArgUndefined
       (DummyStorageArea.set items (DummyStorageArea.clear s)) !! k =
     Some <$> obj_get items k) /\
  (forall keys k, DummyStorage.get (ArgArray keys) (DummyStorageArea.clear s) !! k =
                  if decide (k ∈ keys /\ k <> "__proto__") then Some None else None).
Proof.
  intros Hnd. split; [apply backend_get_all|]. split; [done|].
  split; [|split].
  - rewrite backend_get_all. cbn. rewrite delete_empty. apply fmap_empty.
  - intros k Hk. rewrite backend_get_all, lookup_fmap. cbn.
    rewrite lookup_delete_ne by done.
    rewrite backend_set_lookup by done. rewrite lookup_empty.
    by destruct (obj_get items k).
  - intros keys k. unfold DummyStorage.get. cbv zeta.
    rewrite backend_get_strings, lookup_empty. cbn. by rewrite lookup_empty.
Qed.

(** X7.  The backend by itself: after [remove(keys)], with one string or
    an array of strings, the keys removed are gone and every other key is as
    it was; removing keys the store does not hold changes nothing; a [get]
    of a removed key answers the key with [undefined]. *)
Theorem backend_remove (keys : string + list string) (s : DummyStorageArea.t) :
  let arr := match keys with inl key => [key] | inr arr => arr end in
  let s' := DummyStorage.remove keys s in
  (forall k, DummyStorageArea.data s' !! k =
             if decide (k ∈ arr) then None else DummyStorageArea.data s !! k) /\
  ((forall k, k ∈ arr -> DummyStorageArea.data s !! k = None) ->
   DummyStorageArea.data s' = DummyStorageArea.data s) /\
  (forall k, k ∈ arr -> k <> "__proto__" ->
     DummyStorage.get (ArgString k) s' = {[ k := None ]}).
Proof.
  cbv zeta. unfold DummyStorage.remove.
  set (arr := match keys with inl key => [key] | inr arr => arr end).
  split; [apply backend_remove_lookup|]. split.
  - intros Habsent. apply map_eq. intros k. rewrite backend_remove_lookup.
    destruct (decide _) as [Hin|]; [|done]. by rewrite Habsent.
  - intros k Hin Hk. unfold DummyStorage.get, DummyStorage.assign. cbn.
    destruct (String.eqb_spec k "__proto__"); [done|].
    rewrite backend_remove_lookup. by rewrite decide_True.
Qed.

(** X8.  [get] writes nothing: whatever its argument and however it ends,
    the backend is exactly as it was, every call made to it was a [get], and
    the instance is as it was with its state at [Idle]: metadata, cache and
    space in use are not refreshed.  So [isUpToDate()] answers after a [get]
    what it answered before: an instance that has fallen behind stays
    behind, and reads the backend again on every [get]. *)
Theorem get_changes_nothing `{Platform} (items : KeysArg) (m : Machine) :
  let m' := (get items m).2 in
  storage m' = storage m /\
  this m' = with_state Idle (this m) /\
  (exists new, journal m' = journal m ++ new /\
               Forall (fun ev => exists key, call ev = CallGet key) new) /\
  (isUpToDate m').1 = (isUpToDate m).1.
Proof.
  cbv zeta.
  destruct (untouched_get (config (this m)) items m eq_refl) as (_ & Hs & Ht & Hj).
  destruct (get_lands_idle items m) as [Hidle _].
  assert (this (get items m).2 = with_state Idle (this m)) as Hthis.
  { rewrite <- Ht. destruct (this (get items m).2). cbn in *. by rewrite Hidle. }
  split; [done|]. split; [done|]. split; [done|].
  unfold isUpToDate, bind, storage_get, getThis. cbn. rewrite Hs, Hthis. cbn.
  by destruct (DummyStorageArea.data (storage m) !! _) as [[?|?]|].
Qed.

(** X9.  [create(config)] on a backend that holds a metadata record takes
    the record over as it is, counts the bytes the slots hold as the space
    in use, starts with an empty cache in state [Idle], writes nothing, and
    is up to date.  On a backend without a record it stores the record of a
    new engine (no hash, no time, uncompressed), counts the slots all the
    same, and is up to date.  On an empty backend the space in use is 0. *)
Theorem create_on_backend (cfg : Config.t) (s : DummyStorageArea.t) :
  let c := create cfg s in
  let used := blob_size (slots_content (Config.slotCount cfg) (DummyStorageArea.data s)) in
  (forall live, DummyStorageArea.data s !! keyMeta = Some (VMeta live) ->
     c.1 = Ok tt /\
     storage c.2 = s /\
     this c.2 = {| config := cfg; meta := live; localData := [];
                   occupiedStorage := used; state := Idle |} /\
     (isUpToDate c.2).1 = Ok true) /\
  (DummyStorageArea.data s !! keyMeta = None ->
     c.1 = Ok tt /\
     storage c.2 = DummyStorageArea.set [(keyMeta, VMeta (meta (new cfg)))] s /\
     this c.2 = with_occupiedStorage used (new cfg) /\
     getHash (this c.2) = None /\
     getPreCompressHash (this c.2) = None /\
     getLastUpdated (this c.2) = None /\
     getLastCompressState (this c.2) = Uncomporessed /\
     (isUpToDate c.2).1 = Ok true) /\
  (getCurrentUsed false (create cfg DummyStorageArea.empty).2).1 = Ok 0.
Proof.
  cbv zeta. split; [|split].
  - intros live Hlive. rewrite (create_adopts cfg s live Hlive). cbn [fst snd this storage].
    split; [done|]. split; [done|]. split; [done|].
    apply isUpToDate_own. exact Hlive.
  - intros Hnone. rewrite (create_initialises cfg s) by (by left). cbn [fst snd this storage].
    split; [done|]. split; [done|]. split; [done|].
    split; [done|]. split; [done|]. split; [done|]. split; [done|].
    apply isUpToDate_own. cbn. apply lookup_insert_eq.
  - rewrite (create_initialises cfg DummyStorageArea.empty) by (left; apply lookup_empty).
    cbn. by rewrite slots_content_empty.
Qed.

(** X10.  An engine that is up to date answers [get] from its cache after
    one call to the backend, the read of the metadata record, and reads no
    slot: [get(key)] gives the key with its cached value, or with
    [undefined]; [get] with an object whose property [keys] is an array of
    strings gives each of these keys so (an array itself is rejected). *)
Theorem get_answers_from_cache `{Platform} (m : Machine) (live : MetaValues) :
  DummyStorageArea.data (storage m) !! keyMeta = Some (VMeta live) ->
  lastUpdated live = lastUpdated (meta (this m)) ->
  (forall key, key <> "__proto__" ->
     (get (ArgString key) m).1 = Ok [(key, obj_get (localData (this m)) key)]) /\
  (forall props ks,
     obj_get props "keys" = Some (JArr (map JStr ks)) ->
     "__proto__" ∉ ks ->
     (get (ArgObject props) m).1 =
     Ok (fold_left (fun values k => obj_set values k (obj_get (localData (this m)) k)) ks [])) /\
  (forall items,
     journal (get items m).2 =
     journal m ++ [{| during := Downloading; call := CallGet keyMeta |}]).
Proof.
  intros Hlive Heq. split; [|split].
  - intros key _. by rewrite (get_cached_run _ m live Hlive Heq).
  - intros props ks Hkeys _. rewrite (get_cached_run _ m live Hlive Heq). cbn [fst].
    unfold requested, argKeysToArray. rewrite Hkeys. by rewrite read_cache_strings.
  - intros items. by rewrite (get_cached_run _ m live Hlive Heq).
Qed.

(** X11.  Read your writes: after a successful [set(items)], whatever the
    configuration and whatever the engine and the backend held before,
    [get(key)] on the same engine gives the value [items] has for [key], or
    [undefined] when it has none, and [get()] and [get(null)] give [items],
    each key with its value. *)
Theorem get_after_set `{Platform} (now : Z) (items : list (string * json)) (m : Machine) :
  NoDup (map fst items) ->
  "__proto__" ∉ map fst items ->
  (set now items m).1 = Ok tt ->
  let m' := (set now items m).2 in
  (forall key, key <> "__proto__" ->
     (get (ArgString key) m').1 = Ok [(key, obj_get items key)]) /\
  (get ArgUndefined m').1 = Ok (map (fun kv => (kv.1, Some kv.2)) items) /\
  (get ArgNull m').1 = Ok (map (fun kv => (kv.1, Some kv.2)) items).
Proof.
  intros Hnd _ Hok. cbv zeta. apply set_ok_inv in Hok as (data & Hp & Hfit).
  destruct (set_ok now items m data Hp Hfit) as (_ & _ & _ & Hld & _ & Hlive & _).
  cbv zeta in *. rewrite cache_items_nodup in Hld by done.
  pose proof (read_cache_fill items items [] eq_refl Hnd) as Hfill. cbn [map app] in Hfill.
  split; [|split].
  - intros key _. rewrite (get_cached_run _ _ _ Hlive eq_refl). cbn. by rewrite Hld.
  - rewrite (get_cached_run _ _ _ Hlive eq_refl). cbn [fst].
    unfold requested, argKeysToArray. rewrite Hld. by rewrite Hfill.
  - rewrite (get_cached_run _ _ _ Hlive eq_refl). cbn [fst].
    unfold requested, argKeysToArray. rewrite Hld. by rewrite Hfill.
Qed.

(** X12.  An engine created on a backend that already holds a document
    cannot read it: it takes over the metadata record, so it is up to date,
    and it answers every [get] from its cache, which is empty.  [get(key)]
    gives [undefined] for every key, [get()] gives no key, and no slot is
    read. *)
Theorem created_engine_reads_its_empty_cache `{Platform} (cfg : Config.t)
    (s : DummyStorageArea.t) (live : MetaValues) :
  DummyStorageArea.data s !! keyMeta = Some (VMeta live) ->
  let m := (create cfg s).2 in
  (forall key, key <> "__proto__" -> (get (ArgString key) m).1 = Ok [(key, None)]) /\
  (get ArgUndefined m).1 = Ok [] /\
  (get ArgNull m).1 = Ok [] /\
  (forall items,
     journal (get items m).2 =
     journal m ++ [{| during := Downloading; call := CallGet keyMeta |}]).
Proof.
  intros Hlive. cbv zeta. rewrite (create_adopts cfg s live Hlive). cbn [snd].
  match goal with |- context [get _ ?m0] =>
    pose proof (fun items => get_cached_run items m0 live Hlive eq_refl) as Hget
  end.
  split; [|split; [|split]].
  - intros key _. by rewrite Hget.
  - by rewrite Hget.
  - by rewrite Hget.
  - intros items. by rewrite Hget.
Qed.

(** X13.  An engine that has fallen behind reads the backend: the bytes of
    its [slotCount] slots, decompressed when the engine's own record (not the
    backend's) says [Compressed], parsed as JSON.  When that gives an object,
    [get(key)] gives the object's value for [key], or [undefined]; [get()]
    gives these values for the keys of the engine's own cache only, so no key
    at all for an engine that never set one. *)
Theorem get_reads_the_backend `{Platform} (m : Machine) (text : string)
    (props : list (string * json)) :
  (isUpToDate m).1 = Ok false ->
  (let raw := slots_content (Config.slotCount (config (this m)))
                (DummyStorageArea.data (storage m)) in
   match getLastCompressState (this m) with
   | Compressed =>
       match unzip (fill_base64 (blob_text raw) (blob_size raw)) with
       | Some buffer => Some (blob_text (blob_of_string (Buffer_toString buffer)))
       | None => None
       end
   | _ => Some (blob_text raw)
   end = Some text) ->
  JSON_parse text = Some (JObj props) ->
  (forall key, plain_key props key ->
     (get (ArgString key) m).1 = Ok [(key, obj_get props key)]) /\
  (Forall (plain_key props) (map fst (localData (this m))) ->
   (get ArgUndefined m).1 =
     Ok (fold_left (fun values k => obj_set values k (obj_get props k))
                   (map fst (localData (this m))) [])) /\
  (forall items,
     journal (get items m).2 =
     journal m ++ map (Build_Event Downloading)
                    (CallGet keyMeta ::
                     map (fun j => CallGet (slotKey j))
                         (seq 0 (Config.slotCount (config (this m)))))).
Proof.
  intros Hstale Htext Hparse.
  pose proof (fun items => get_live_run items m (Some text) Hstale Htext) as Hget.
  split; [|split].
  - intros key _. rewrite Hget, Hparse. cbn [fst]. unfold requested, argKeysToArray.
    by rewrite read_keys_object.
  - intros _. rewrite Hget, Hparse. cbn [fst]. unfold requested, argKeysToArray.
    by rewrite read_keys_object, read_object_strings.
  - intros items. by rewrite Hget.
Qed.


(** X15.  Two engines on one backend: after engine A's [set(items)]
    succeeded without compression, an engine B with as many slots, whose
    cached [lastUpdated] is not the time of that write and whose own record
    does not say [Compressed], reads with [get(key)] the value [items] has
    for [key] (or [undefined]), for a document of bytes below 128 that
    [JSON.parse] reads back. *)
Theorem other_engine_reads_what_was_set `{Platform} (now : Z)
    (items : list (string * json)) (m : Machine) (b : t) :
  NoDup (map fst items) ->
  Config.compress (config (this m)) = false ->
  (set now items m).1 = Ok tt ->
  is_ascii (blob_of_string (JSON_stringify items)) ->
  JSON_parse (JSON_stringify items) = Some (JObj items) ->
  Config.slotCount (config b) = Config.slotCount (config (this m)) ->
  lastUpdated (meta b) <> Some now ->
  getLastCompressState b <> Compressed ->
  forall key, plain_key items key ->
    (get (ArgString key) (attach b (storage (set now items m).2))).1 =
    Ok [(key, obj_get items key)].
Proof.
  intros Hnd Hoff Hok Hascii Hparse Hn Hold Hown key _.
  apply set_ok_inv in Hok as (data & Hp & Hfit).
  assert (data = blob_of_string (JSON_stringify items)) as ->.
  { unfold final_payload in Hp. rewrite Hoff, obj_spread_nodup in Hp by done. congruence. }
  destruct (set_ok now items m _ Hp Hfit) as (_ & _ & _ & _ & Hmeta & Hlive & _).
  destruct (stored_content_ascii now items m _ Hp Hfit Hascii) as [Hstored _].
  cbv zeta in *.
  set (s' := storage (set now items m).2) in *.
  assert ((isUpToDate (attach b s')).1 = Ok false) as Hstale.
  { rewrite (isUpToDate_run (attach b s') _ Hlive). cbn. rewrite Hmeta. cbn.
    rewrite bool_decide_eq_false_2; [done|]. congruence. }
  rewrite (get_live_run _ (attach b s') (Some (JSON_stringify items)) Hstale).
  - rewrite Hparse. cbn [fst]. unfold requested, argKeysToArray.
    by rewrite read_keys_object.
  - cbv zeta. cbn [attach this storage]. rewrite Hn, Hstored.
    rewrite blob_text_of_ascii_string by done.
    by destruct (getLastCompressState b).
Qed.

(** X16.  The loop of [set] that saves the parts, for a payload within the
    capacity: slot 0 always, and every further slot [j] that starts before
    the end of the payload, then holds the text of the bytes
    [j*slotSize .. min((j+1)*slotSize, size)] of the payload; the slots past
    the payload, and every other key, are left as they are; the space in
    use has grown by the size of the payload. *)
Theorem splitIntoParts_slots (cfg : Config.t) (data : Blob) (m : Machine) :
  blob_size data <= maxCapacity cfg ->
  let m' := (splitIntoParts cfg data m).2 in
  (splitIntoParts cfg data m).1 = Ok tt /\
  (forall j, j < Config.slotCount cfg ->
     DummyStorageArea.data (storage m') !! slotKey j =
     if decide (j = 0 \/ j * Config.slotSize cfg < blob_size data)
     then Some (VString (blob_text (part (Config.slotSize cfg) data j)))
     else DummyStorageArea.data (storage m) !! slotKey j) /\
  (forall key, (forall j, j < Config.slotCount cfg -> key <> slotKey j) ->
     DummyStorageArea.data (storage m') !! key = DummyStorageArea.data (storage m) !! key) /\
  occupiedStorage (this m') = occupiedStorage (this m) + blob_size data.
Proof.
  intros Hfit. cbv zeta. split.
  - by destruct (splitIntoParts_run cfg data m) as (occ & st' & j' & ->).
  - by apply splitIntoParts_parts.
Qed.

(** X17.  After every successful [set], [getCurrentUsed()] is the size of
    the payload, whatever its bytes, and the slots hold the texts of its
    parts one after the other; [getCurrentUsed(true)] is the size of that,
    which is larger when a part ends inside a character. *)
Theorem set_space_in_use `{Platform} (now : Z) (items : list (string * json))
    (m : Machine) (data : Blob) :
  final_payload (config (this m)) items = Some data ->
  blob_size data <= maxCapacity (config (this m)) ->
  let cfg := config (this m) in
  let m' := (set now items m).2 in
  let stored := slots_content (Config.slotCount cfg) (DummyStorageArea.data (storage m')) in
  stored =
    blob_concat (map (fun j =>
                        if decide (j = 0 \/ j * Config.slotSize cfg < blob_size data)
                        then blob_of_string (blob_text (part (Config.slotSize cfg) data j))
                        else [])
                     (seq 0 (Config.slotCount cfg))) /\
  (getCurrentUsed false m').1 = Ok (blob_size data) /\
  (getCurrentUsed true m').1 = Ok (blob_size stored).
Proof.
  intros Hp Hfit. cbv zeta.
  destruct (set_ok now items m data Hp Hfit)
    as (_ & Hc & _ & _ & _ & _ & mc & Hcfg & Hnone & Hocc & Hcontent & Hused).
  cbv zeta in *.
  destruct (splitIntoParts_parts (config (this m)) data mc Hfit) as (Hslots & _ & Hsize).
  cbv zeta in *. split; [|split].
  - rewrite Hcontent. unfold slots_content. f_equal. apply map_ext_in.
    intros j Hj. apply in_seq in Hj. rewrite Hslots by lia.
    destruct (decide _); [done|]. by rewrite Hnone by lia.
  - unfold getCurrentUsed, bind, ret, getThis. cbn. rewrite Hused, Hsize, Hocc. done.
  - unfold getCurrentUsed. erewrite bind_ok.
    2:{ erewrite bind_ok by apply connectedBlobs_run. reflexivity. }
    unfold bind, getThis, ret. cbn. by rewrite Hc.
Qed.

(** X18.  Two engines on one backend: after engine A's [set] stored a
    payload of bytes below 128, [getCurrentUsed()] of an engine B with as
    many slots is still what B counted last; [getCurrentUsed(true)] counts
    the slots, giving the size of A's payload, and [getCurrentUsed()] gives
    that from then on; the count writes nothing. *)
Theorem other_engine_space_in_use `{Platform} (now : Z) (items : list (string * json))
    (m : Machine) (data : Blob) (b : t) :
  final_payload (config (this m)) items = Some data ->
  blob_size data <= maxCapacity (config (this m)) ->
  is_ascii data ->
  Config.slotCount (config b) = Config.slotCount (config (this m)) ->
  let mb := attach b (storage (set now items m).2) in
  (getCurrentUsed false mb).1 = Ok (occupiedStorage b) /\
  (getCurrentUsed true mb).1 = Ok (blob_size data) /\
  (getCurrentUsed false (getCurrentUsed true mb).2).1 = Ok (blob_size data) /\
  storage (getCurrentUsed true mb).2 = storage mb.
Proof.
  intros Hp Hfit Hascii Hn. cbv zeta.
  destruct (stored_content_ascii now items m data Hp Hfit Hascii) as [Hs _].
  split; [done|].
  assert (getCurrentUsed true (attach b (storage (set now items m).2)) =
          (Ok (blob_size data),
           {| this := with_occupiedStorage (blob_size data) b;
              storage := storage (set now items m).2;
              journal := map (Build_Event (state b))
                           (map (fun j => CallGet (slotKey j))
                                (seq 0 (Config.slotCount (config b)))) |})) as ->.
  { unfold getCurrentUsed. erewrite bind_ok.
    2:{ erewrite bind_ok by apply connectedBlobs_run. reflexivity. }
    unfold bind, getThis, ret. cbn. by rewrite Hn, Hs. }
  done.
Qed.

(** X19.  Without compression a capacity below two bytes takes no document:
    the smallest one, of no key, is the two braces, so every [set] is
    rejected with [TooLargeDataError], carrying the size of the document
    minus the capacity. *)
Theorem set_below_two_bytes `{Platform} (now : Z) (items : list (string * json))
    (m : Machine) :
  Config.compress (config (this m)) = false ->
  maxCapacity (config (this m)) < 2 ->
  exists over,
    (set now items m).1 = Err (TooLargeDataError over) /\
    (0 < over)%Z /\
    over = (Z.of_nat (blob_size (blob_of_string (JSON_stringify (obj_spread [] items)))) -
            Z.of_nat (maxCapacity (config (this m))))%Z.
Proof.
  intros Hoff Hcap.
  pose proof (JSON_stringify_size (obj_spread [] items)) as Hsize.
  destruct (set_too_large now items m
              (blob_of_string (JSON_stringify (obj_spread [] items)))) as (m' & -> & _).
  - unfold final_payload. by rewrite Hoff.
  - lia.
  - eexists. split; [reflexivity|]. split; [lia|done].
Qed.

(** X20.  Whenever [set] is rejected with [TooLargeDataError], the error
    carries a positive number of bytes, so its message is the one that
    names the number, never the one without it. *)
Theorem capacity_error_message `{Platform} (now : Z) (items : list (string * json))
    (m : Machine) (over : Z) :
  (set now items m).1 = Err (TooLargeDataError over) ->
  (0 < over)%Z /\
  TooLargeDataError_message over =
    "Set data exceeded size of storage by " +:+ pretty over +:+ " bytes.".
Proof.
  intros Herr. apply set_too_large_inv in Herr as (data & _ & Hbig & ->).
  split; [lia|]. unfold TooLargeDataError_message.
  destruct (Z.eqb_spec (Z.of_nat (blob_size data) -
                        Z.of_nat (maxCapacity (config (this m)))) 0); [lia|done].
Qed.

(** X21.  [clear()] goes unnoticed: it leaves the metadata record alone,
    so [isUpToDate()] answers after it what it answered before, for the
    engine that cleared and for every other engine on the backend, and
    [getHash()] and [getLastUpdated()] still tell of the content that is
    gone.  The engine that cleared, when up to date, answers [get(key)] with
    [undefined] from its emptied cache. *)
Theorem clear_goes_unnoticed `{Platform} (m : Machine) (b : t) :
  let m' := (clear m).2 in
  (isUpToDate m').1 = (isUpToDate m).1 /\
  (isUpToDate (attach b (storage m'))).1 = (isUpToDate (attach b (storage m))).1 /\
  getHash (this m') = getHash (this m) /\
  getLastUpdated (this m') = getLastUpdated (this m) /\
  ((isUpToDate m).1 = Ok true ->
   forall key, key <> "__proto__" -> (get (ArgString key) m').1 = Ok [(key, None)]).
Proof.
  cbv zeta. rewrite clear_run. cbn [snd].
  assert (DummyStorageArea.data
            (remove_slots (Config.slotCount (config (this m))) (storage m)) !! keyMeta =
          DummyStorageArea.data (storage m) !! keyMeta) as Hrec.
  { apply remove_slots_other. intros j _ E. by apply (slotKey_ne_meta j). }
  split; [|split; [|split; [|split]]].
  - unfold isUpToDate, bind, storage_get, getThis, DummyStorageArea.get. cbn.
    change (?d !! "__storage_meta") with (d !! keyMeta). rewrite Hrec.
    by destruct (DummyStorageArea.data (storage m) !! keyMeta) as [[?|?]|].
  - unfold isUpToDate, bind, storage_get, getThis, DummyStorageArea.get. cbn.
    change (?d !! "__storage_meta") with (d !! keyMeta). rewrite Hrec.
    by destruct (DummyStorageArea.data (storage m) !! keyMeta) as [[?|?]|].
  - by destruct (this m).
  - by destruct (this m).
  - intros Hup key _.
    assert (exists live, DummyStorageArea.data (storage m) !! keyMeta = Some (VMeta live) /\
                         lastUpdated live = lastUpdated (meta (this m))) as (live & Hlive & Heq).
    { revert Hup. unfold isUpToDate, bind, storage_get, getThis, DummyStorageArea.get. cbn.
      change (?d !! "__storage_meta") with (d !! keyMeta).
      destruct (DummyStorageArea.data (storage m) !! keyMeta) as [[?|live]|]; cbn; try done.
      intros [= Hb]. apply bool_decide_eq_true_1 in Hb. eauto. }
    rewrite <- Hrec in Hlive.
    erewrite get_cached_run; [|exact Hlive|by destruct (this m)].
    cbn. by destruct (this m).
Qed.

(** X22.  The calls a successful [set] makes to the backend, in order and
    whatever the backend held: a [get] of each of the [slotCount] slots; with
    compression a write of the metadata record; a [remove] of each slot; a
    write of the record; a write of each part, slot 0 first; one write of the
    record with compression and two without; a [get] of each slot again; two
    writes of the record.  So [2 * slotCount] reads, [slotCount] removals,
    one write per part and five writes of the metadata record. *)
Theorem set_backend_calls `{Platform} (now : Z) (items : list (string * json))
    (m : Machine) (data : Blob) :
  final_payload (config (this m)) items = Some data ->
  blob_size data <= maxCapacity (config (this m)) ->
  let cfg := config (this m) in
  let slots := map slotKey (seq 0 (Config.slotCount cfg)) in
  let record := CallSet keyMeta (VString "") in
  exists new,
    journal (set now items m).2 = journal m ++ new /\
    map (fun ev => without_value (call ev)) new =
      map CallGet slots ++
      (if Config.compress cfg then [record] else []) ++
      map CallRemove slots ++
      [record] ++
      map (fun j => CallSet (slotKey j) (VString "")) (written_slots cfg (blob_size data)) ++
      (if Config.compress cfg then [record] else [record; record]) ++
      map CallGet slots ++
      [record; record].
Proof.
  intros Hp Hsz. pose proof Hsz as Hfit. unfold final_payload in Hp. unfold maxCapacity in Hsz.
  cbv zeta. destruct (set now items m) as [r m'] eqn:Hset. cbn [fst snd].
  revert Hset. unfold set, try_catch.
  step.
  step. cbv zeta.
  erewrite bind_ok by apply connectedBlobs_run; tidy.
  cbn [this note config with_state].
  set (cfg := config (this m)) in *.
  destruct (Config.compress cfg) eqn:Ec.
  - destruct (deflate _) as [buffer|] eqn:Ed; [|done]. injection Hp as <-.
    erewrite bind_ok by (apply compress_run_some, Ed).
    step.
    cbn [this config with_meta with_state note].
    fold cfg. rewrite over_false by done.
    step.
    erewrite bind_ok by apply clear_run; tidy.
    step.
    match goal with |- context [bind (splitIntoParts _ _) _ ?mm] => remember mm as mc eqn:Emc end.
    assert (config (this mc) = cfg /\ state (this mc) = Uploading /\
            exists before,
              journal mc = journal m ++ before /\
              map (fun ev => without_value (call ev)) before =
                map CallGet (map slotKey (seq 0 (Config.slotCount cfg))) ++
                [CallSet keyMeta (VString "")] ++
                map CallRemove (map slotKey (seq 0 (Config.slotCount cfg))) ++
                [CallSet keyMeta (VString "")])
      as (Hcfg & Hst & before & Hjc & Hbefore).
    { rewrite Emc. cbn. split; [done|]. split; [done|]. fold cfg.
      eexists. split.
      - unfold record. cbn. rewrite <- !app_assoc. reflexivity.
      - rewrite !map_app, !map_map. cbn. reflexivity. }
    clear Emc.
    pose proof (splitIntoParts_journal cfg (blob_of_string (toString_base64 buffer)) mc Hfit)
      as Hjs.
    destruct (splitIntoParts_run cfg (blob_of_string (toString_base64 buffer)) mc)
      as (occ & st' & j' & Hsplit).
    rewrite Hsplit in Hjs. cbn [snd journal] in Hjs.
    erewrite bind_ok by exact Hsplit; tidy.
    step.
    erewrite bind_ok by apply connectedBlobs_run; tidy.
    step.
    step.
    step.
    intros [= <- <-]. cbn [journal].
    eexists. split.
    + unfold record, note. cbn. rewrite Hjs, Hjc, Hcfg. rewrite <- !app_assoc. reflexivity.
    + rewrite !map_app, Hbefore, !map_map. cbn.
      repeat (rewrite <- ?app_assoc; cbn [app]). reflexivity.
  - injection Hp as <-.
    step.
    step.
    cbn [this config with_meta with_state note].
    fold cfg. rewrite over_false by done.
    step.
    erewrite bind_ok by apply clear_run; tidy.
    step.
    match goal with |- context [bind (splitIntoParts _ _) _ ?mm] => remember mm as mc eqn:Emc end.
    assert (config (this mc) = cfg /\ state (this mc) = Uploading /\
            exists before,
              journal mc = journal m ++ before /\
              map (fun ev => without_value (call ev)) before =
                map CallGet (map slotKey (seq 0 (Config.slotCount cfg))) ++
                map CallRemove (map slotKey (seq 0 (Config.slotCount cfg))) ++
                [CallSet keyMeta (VString "")])
      as (Hcfg & Hst & before & Hjc & Hbefore).
    { rewrite Emc. cbn. split; [done|]. split; [done|]. fold cfg.
      eexists. split.
      - unfold record. cbn. rewrite <- !app_assoc. reflexivity.
      - rewrite !map_app, !map_map. cbn. reflexivity. }
    clear Emc.
    pose proof (splitIntoParts_journal cfg
                  (blob_of_string (JSON_stringify (obj_spread [] items))) mc Hfit) as Hjs.
    destruct (splitIntoParts_run cfg (blob_of_string (JSON_stringify (obj_spread [] items))) mc)
      as (occ & st' & j' & Hsplit).
    rewrite Hsplit in Hjs. cbn [snd journal] in Hjs.
    erewrite bind_ok by exact Hsplit; tidy.
    step.
    erewrite bind_ok by apply connectedBlobs_run; tidy.
    step.
    step.
    step.
    intros [= <- <-]. cbn [journal].
    eexists. split.
    + unfold record, note. cbn. rewrite Hjs, Hjc, Hcfg. rewrite <- !app_assoc. reflexivity.
    + rewrite !map_app, Hbefore, !map_map. cbn.
      repeat (rewrite <- ?app_assoc; cbn [app]). reflexivity.
Qed.

(** X23.  With compression enabled, a [set] that is rejected for capacity
    has already written the engine's own metadata record to the backend.  So
    the engine is up to date afterwards even if it had fallen behind, the
    time and hash of another engine's write are gone from the record, and
    [get(key)] is answered from the cache the engine had, not from the
    backend. *)
Theorem rejected_set_claims_the_record `{Platform} (now : Z) (items : list (string * json))
    (m : Machine) (over : Z) :
  Config.compress (config (this m)) = true ->
  (set now items m).1 = Err (TooLargeDataError over) ->
  let m' := (set now items m).2 in
  (isUpToDate m').1 = Ok true /\
  DummyStorageArea.data (storage m') !! keyMeta =
    Some (VMeta (with_lastCompressState Compressed (meta (this m)))) /\
  meta (this m') = with_lastCompressState Compressed (meta (this m)) /\
  localData (this m') = localData (this m) /\
  (forall key, key <> "__proto__" ->
     (get (ArgString key) m').1 = Ok [(key, obj_get (localData (this m)) key)]).
Proof.
  intros Ec Herr. cbv zeta.
  apply set_too_large_inv in Herr as (data & Hp & Hbig & ->).
  destruct (set_too_large now items m data Hp Hbig) as (m' & Hrun & Hthis & Hst).
  unfold compressed_this, compressed_storage in *. rewrite Ec in Hthis, Hst.
  rewrite Hrun. cbn [snd].
  assert (DummyStorageArea.data (storage m') !! keyMeta = Some (VMeta (meta (this m'))))
    as Hlive.
  { rewrite Hst, Hthis. cbn. apply lookup_insert_eq. }
  split; [by apply isUpToDate_own|]. split; [|split; [|split]].
  - rewrite Hst. cbn. apply lookup_insert_eq.
  - by rewrite Hthis.
  - by rewrite Hthis.
  - intros key _. rewrite (get_cached_run _ m' _ Hlive eq_refl). cbn. by rewrite Hthis.
Qed.

(** X24.  After every successful [set], [getLastUpdated()] is the time of
    the call and the backend's metadata record is the engine's own; with
    compression [getLastCompressState()] is [Compressed] and
    [getPreCompressHash()] is the digest of the serialized items, before
    compression; without, they are [Uncomporessed] and [null]. *)
Theorem set_metadata `{Platform} (now : Z) (items : list (string * json)) (m : Machine) :
  (set now items m).1 = Ok tt ->
  let m' := (set now items m).2 in
  getLastUpdated (this m') = Some now /\
  getLastCompressState (this m') =
    (if Config.compress (config (this m)) then Compressed else Uncomporessed) /\
  getPreCompressHash (this m') =
    (if Config.compress (config (this m))
     then Some (calculateHash
                  (blob_text (blob_of_string (JSON_stringify (obj_spread [] items)))))
     else None) /\
  DummyStorageArea.data (storage m') !! keyMeta = Some (VMeta (meta (this m'))) /\
  config (this m') = config (this m) /\
  state (this m') = Idle.
Proof.
  intros Hok. cbv zeta. apply set_ok_inv in Hok as (data & Hp & Hfit).
  destruct (set_ok now items m data Hp Hfit) as (_ & Hc & Hs & _ & Hmeta & Hlive & _).
  cbv zeta in *. unfold getLastUpdated, getLastCompressState, getPreCompressHash, getMeta.
  split; [by rewrite Hmeta|]. split; [by rewrite Hmeta|]. split; [by rewrite Hmeta|]. done.
Qed.

(** X25.  [set(items)] fails with [TooLargeDataError] exactly when the
    payload it has built (the serialization of [items] alone, compressed
    when compression is enabled) is larger than [slotSize * slotCount], and
    the error then carries the size minus the capacity; a payload of exactly
    the capacity is stored, and one of one byte more fails with 1. *)
Theorem capacity_error_iff_payload_over `{Platform} (now : Z) (items : list (string * json))
    (m : Machine) :
  let cfg := config (this m) in
  (forall over,
     (set now items m).1 = Err (TooLargeDataError over) <->
     exists data, final_payload cfg items = Some data /\
                  maxCapacity cfg < blob_size data /\
                  over = (Z.of_nat (blob_size data) - Z.of_nat (maxCapacity cfg))%Z) /\
  (forall data, final_payload cfg items = Some data ->
     blob_size data = maxCapacity cfg -> (set now items m).1 = Ok tt) /\
  (forall data, final_payload cfg items = Some data ->
     blob_size data = maxCapacity cfg + 1 ->
     (set now items m).1 = Err (TooLargeDataError 1)).
Proof.
  cbv zeta. split; [|split].
  - intros over. split; [apply set_too_large_inv|].
    intros (data & Hp & Hbig & ->).
    by destruct (set_too_large now items m data Hp Hbig) as (m' & -> & _).
  - intros data Hp Hsz. apply (set_ok now items m data Hp). lia.
  - intros data Hp Hsz.
    destruct (set_too_large now items m data Hp) as (m' & -> & _); [lia|].
    cbn. do 2 f_equal. lia.
Qed.

(** ** The claims at concrete inputs *)

Section Examples.
Local Existing Instance sample_platform.

(** C2, at an input: one byte too many, compression disabled. *)
Lemma C2_capacity_error_effects_witness :
  (set 3 items_ABCDEFG full_4x4).1 = Err (TooLargeDataError 1) /\
  meta (this (set 3 items_ABCDEFG full_4x4).2) = meta (this full_4x4) /\
  storage (set 3 items_ABCDEFG full_4x4).2 = storage full_4x4.
Proof.
  assert ((set 3 items_ABCDEFG full_4x4).1 = Err (TooLargeDataError 1)) as Herr
    by (vm_compute; reflexivity).
  split; [exact Herr|].
  apply (C2_capacity_error_effects 3 items_ABCDEFG full_4x4 1 Herr).
  reflexivity.
Defined.

(** C2 as stated fails: a new engine with compression enabled, four slots of
    four bytes.  [set({a:"1"})] compresses to 24 characters and fails, eight
    bytes over; yet [lastCompressState] went from [Uncomporessed] to
    [Compressed], in the instance and in the backend's record. *)
Lemma C2_counterexample :
  let m := fresh config_4x4_compress in
  let r := set 1 sample_items m in
  r.1 = Err (TooLargeDataError 8) /\
  lastCompressState (meta (this m)) = Uncomporessed /\
  lastCompressState (meta (this r.2)) = Compressed /\
  DummyStorageArea.data (storage m) !! keyMeta <>
  DummyStorageArea.data (storage r.2) !! keyMeta.
Proof. vm_compute. repeat split; discriminate. Qed.

(** C6, at an input: the second engine was created before the write. *)
Lemma C6_up_to_date_after_set_witness :
  (set 1000 items_a (fresh config_16x16)).1 = Ok tt /\
  lastUpdated (meta (new config_16x16)) <> Some 1000%Z /\
  (isUpToDate (attach (new config_16x16)
                 (storage (set 1000 items_a (fresh config_16x16)).2))).1 = Ok false.
Proof.
  assert ((set 1000 items_a (fresh config_16x16)).1 = Ok tt) as Hok
    by (vm_compute; reflexivity).
  assert (lastUpdated (meta (new config_16x16)) <> Some 1000%Z) as Hne by discriminate.
  split; [exact Hok|]. split; [exact Hne|].
  apply (C6_up_to_date_after_set (fresh config_16x16) (new config_16x16) 1000 items_a Hok).
  exact Hne.
Defined.

(** C6 as stated fails: the first engine writes at time 1000, a second
    engine is created and is up to date, and the first writes again within
    the same millisecond; the second engine's [isUpToDate()] is still true,
    though the document changed. *)
Lemma C6_counterexample :
  let first := set 1000 items_a (fresh config_16x16) in
  let b := this (create config_16x16 (storage first.2)).2 in
  let second := set 1000 items_b first.2 in
  first.1 = Ok tt /\
  (isUpToDate first.2).1 = Ok true /\
  (isUpToDate (attach b (storage first.2))).1 = Ok true /\
  second.1 = Ok tt /\
  (isUpToDate second.2).1 = Ok true /\
  (isUpToDate (attach b (storage second.2))).1 = Ok true /\
  (isUpToDate (attach b (storage second.2))).1 <> Ok false.
Proof. vm_compute. repeat split; discriminate. Qed.

(** C7, at an input, with the digest the test suite expects. *)
Lemma C7_hash_of_stored_content_witness :
  (set 2 items_ABCDEF (set 1 items_ABC (fresh config_4x4)).2).1 = Ok tt /\
  getHash (this (set 2 items_ABCDEF (set 1 items_ABC (fresh config_4x4)).2).2) =
  Some "a87bdb63457038f417c2281643ad591d".
Proof.
  assert ((set 2 items_ABCDEF (set 1 items_ABC (fresh config_4x4)).2).1 = Ok tt) as Hok
    by (vm_compute; reflexivity).
  split; [exact Hok|].
  pose proof (proj1 (proj1 C7_hash_of_stored_content 2%Z items_ABCDEF
                       (set 1 items_ABC (fresh config_4x4)).2 Hok)) as Hw.
  cbv zeta in Hw. rewrite Hw. vm_compute. reflexivity.
Defined.

(** C9, at an input: the key of another user of the backend. *)
Lemma C9_foreign_keys_untouched_witness :
  ~ reserved config_16x16 "dummy1" /\
  DummyStorageArea.data (storage (clear (attach (new config_16x16) shared_storage)).2)
    !! "dummy1" = Some (VString "value1").
Proof.
  assert (~ reserved config_16x16 "dummy1") as Hkey.
  { intros [E | (i & _ & E)]; [discriminate E|]. unfold slotKey, keyPrefix in E.
    cbn in E. discriminate E. }
  split; [exact Hkey|].
  destruct (C9_foreign_keys_untouched (attach (new config_16x16) shared_storage)
              "dummy1" Hkey) as (_ & _ & Hclear & _).
  rewrite Hclear. reflexivity.
Defined.

(** C10, at an input: an object that has no [keys]. *)
Lemma C10_get_with_array_rejects_witness :
  obj_get [("key", JNull)] "keys" = None /\
  exists err, (get (ArgObject [("key", JNull)]) full_4x4).1 = Err err.
Proof.
  split; [reflexivity|].
  apply (C10_get_with_array_rejects full_4x4). reflexivity.
Defined.

(** X1, at an input: nine bytes over four slots of four. *)
Lemma split_then_read_ascii_witness :
  is_ascii (blob_of_string sample_document) /\
  slots_content 4
    (DummyStorageArea.data
       (storage (splitIntoParts config_4x4 (blob_of_string sample_document)
                   (fresh config_4x4)).2)) = blob_of_string sample_document.
Proof.
  assert (is_ascii (blob_of_string sample_document)) as Hascii
    by (vm_compute; repeat constructor).
  split; [exact Hascii|].
  refine (proj1 (proj2 (split_then_read_ascii (blob_of_string sample_document)
                          (fresh config_4x4) Hascii _ _))).
  - intros j Hj. do 4 (destruct j as [|j]; [vm_compute; reflexivity|]). vm_compute in Hj. lia.
  - vm_compute. lia.
Defined.

(** X2, at an input: the sixteen bytes of [{"key":"ABCDEF"}]. *)
Lemma set_stores_ascii_payload_witness :
  final_payload config_4x4 items_ABCDEF =
    Some (blob_of_string ("{" +:+ quoted "key" +:+ ":" +:+ quoted "ABCDEF" +:+ "}")) /\
  (getCurrentUsed true (set 1 items_ABCDEF (fresh config_4x4)).2).1 = Ok 16.
Proof.
  split; [vm_compute; reflexivity|].
  refine (proj2 (proj2 (proj2 (set_stores_ascii_payload 1%Z items_ABCDEF (fresh config_4x4)
            (blob_of_string ("{" +:+ quoted "key" +:+ ":" +:+ quoted "ABCDEF" +:+ "}"))
            _ _ _)))).
  - vm_compute. reflexivity.
  - vm_compute. lia.
  - vm_compute. repeat constructor.
Defined.

(** X4, at an input: a document zlib is taken to fail on. *)
Lemma zlib_failure_is_recorded_witness :
  deflate (blob_of_string (JSON_stringify (obj_spread [] items_b))) = None /\
  getLastCompressState (this (set 1 items_b (fresh config_16x4_compress)).2) = Failed /\
  slots_content 4 (DummyStorageArea.data
                     (storage (set 1 items_b (fresh config_16x4_compress)).2)) = [].
Proof.
  assert (deflate (blob_of_string (JSON_stringify (obj_spread [] items_b))) = None) as Hd
    by (vm_compute; reflexivity).
  split; [exact Hd|].
  split; [|vm_compute; reflexivity].
  refine (proj1 (proj2 (zlib_failure_is_recorded 1%Z items_b (fresh config_16x4_compress) _ Hd))).
  vm_compute. reflexivity.
Defined.
(** X5, at an input: the test suite's [set({foo:"bar"})], [get("foo")]. *)
Lemma backend_get_after_set_witness :
  NoDup (map fst [("foo", VString "bar")]) /\
  DummyStorage.get (ArgString "foo")
    (DummyStorageArea.set [("foo", VString "bar")] DummyStorageArea.empty) =
  {[ "foo" := Some (VString "bar") ]}.
Proof.
  assert (NoDup (map fst [("foo", VString "bar")])) as Hnd by apply NoDup_singleton.
  split; [exact Hnd|].
  exact (proj1 (backend_get_after_set [("foo", VString "bar")] DummyStorageArea.empty Hnd)
               "foo" ltac:(discriminate)).
Defined.

(** X6, at an input: the test suite's three keys, set on a cleared store. *)
Lemma backend_get_everything_witness :
  NoDup (map fst [("key1", VString "val1"); ("key2", VString "val2");
                  ("key3", VString "val3")]) /\
  DummyStorage.get ArgUndefined
    (DummyStorageArea.set [("key1", VString "val1"); ("key2", VString "val2");
                           ("key3", VString "val3")]
       (DummyStorageArea.clear shared_storage)) !! "key2" = Some (Some (VString "val2")).
Proof.
  assert (NoDup (map fst [("key1", VString "val1"); ("key2", VString "val2");
                          ("key3", VString "val3")])) as Hnd.
  { cbn. repeat (apply NoDup_cons; split; [intros Hin; repeat (apply elem_of_cons in Hin as [Hin|Hin]; [discriminate Hin|]); by apply elem_of_nil in Hin|]).
    apply NoDup_nil_2. }
  split; [exact Hnd|].
  exact (proj1 (proj2 (proj2 (proj2 (backend_get_everything _ shared_storage Hnd)))) "key2"
               ltac:(discriminate)).
Defined.

(** X10, at an input: the engine that has just stored [{"key":"ABCDEF"}]. *)
Lemma get_answers_from_cache_witness :
  DummyStorageArea.data (storage full_4x4) !! keyMeta = Some (VMeta (meta (this full_4x4))) /\
  (get (ArgString "key") full_4x4).1 = Ok [("key", Some (JStr "ABCDEF"))].
Proof.
  assert (DummyStorageArea.data (storage full_4x4) !! keyMeta =
          Some (VMeta (meta (this full_4x4)))) as Hlive by (vm_compute; reflexivity).
  split; [exact Hlive|].
  pose proof (proj1 (get_answers_from_cache full_4x4 _ Hlive eq_refl) "key"
                ltac:(discriminate)) as Hw.
  rewrite Hw. vm_compute. reflexivity.
Defined.

(** X11, at an input: [set({key:"ABC"})], then [get("key")]. *)
Lemma get_after_set_witness :
  (set 1 items_ABC (fresh config_4x4)).1 = Ok tt /\
  (get (ArgString "key") (set 1 items_ABC (fresh config_4x4)).2).1 =
  Ok [("key", Some (JStr "ABC"))].
Proof.
  assert ((set 1 items_ABC (fresh config_4x4)).1 = Ok tt) as Hok by (vm_compute; reflexivity).
  split; [exact Hok|].
  assert ("__proto__" ∉ map fst items_ABC) as Hplain
    by (intros [E|E]%elem_of_cons; [discriminate E|by apply elem_of_nil in E]).
  pose proof (proj1 (get_after_set 1%Z items_ABC (fresh config_4x4)
                       (NoDup_singleton "key") Hplain Hok) "key" ltac:(discriminate)) as Hw.
  cbv zeta in Hw. rewrite Hw. reflexivity.
Defined.

(** X12, at an input: a second engine on the store that holds
    [{"key":"ABCDEF"}]. *)
Lemma created_engine_reads_its_empty_cache_witness :
  DummyStorageArea.data (storage full_4x4) !! keyMeta = Some (VMeta (meta (this full_4x4))) /\
  (get (ArgString "key") (create config_4x4 (storage full_4x4)).2).1 = Ok [("key", None)].
Proof.
  assert (DummyStorageArea.data (storage full_4x4) !! keyMeta =
          Some (VMeta (meta (this full_4x4)))) as Hlive by (vm_compute; reflexivity).
  split; [exact Hlive|].
  exact (proj1 (created_engine_reads_its_empty_cache config_4x4 (storage full_4x4) _ Hlive)
               "key" ltac:(discriminate)).
Defined.

(** X13, at an input: an engine that has not seen the write of
    [{"a":"1"}]. *)
Lemma get_reads_the_backend_witness :
  (isUpToDate (attach (new config_16x16)
                 (storage (set 1 items_a (fresh config_16x16)).2))).1 = Ok false /\
  (get (ArgString "a")
     (attach (new config_16x16) (storage (set 1 items_a (fresh config_16x16)).2))).1 =
  Ok [("a", Some (JStr "1"))].
Proof.
  assert ((isUpToDate (attach (new config_16x16)
                         (storage (set 1 items_a (fresh config_16x16)).2))).1 = Ok false)
    as Hstale by (vm_compute; reflexivity).
  split; [exact Hstale|].
  assert (plain_key sample_items "a") as Hplain.
  { split; [discriminate|]. intros Hin. exfalso.
    repeat (apply elem_of_cons in Hin as [Hin|Hin]; [discriminate Hin|]).
    by apply elem_of_nil in Hin. }
  pose proof (proj1 (get_reads_the_backend
                       (attach (new config_16x16)
                          (storage (set 1 items_a (fresh config_16x16)).2))
                       sample_document sample_items Hstale
                       ltac:(vm_compute; reflexivity) ltac:(vm_compute; reflexivity)) "a"
                Hplain)
    as Hw.
  rewrite Hw. reflexivity.
Defined.

(** X15, at an input: the same two engines. *)
Lemma other_engine_reads_what_was_set_witness :
  (set 1 items_a (fresh config_16x16)).1 = Ok tt /\
  (get (ArgString "a")
     (attach (new config_16x16) (storage (set 1 items_a (fresh config_16x16)).2))).1 =
  Ok [("a", Some (JStr "1"))].
Proof.
  assert ((set 1 items_a (fresh config_16x16)).1 = Ok tt) as Hok by (vm_compute; reflexivity).
  split; [exact Hok|].
  refine (other_engine_reads_what_was_set 1%Z items_a (fresh config_16x16) (new config_16x16)
            (NoDup_singleton "a") _ Hok _ _ _ _ _ "a" _).
  - vm_compute. reflexivity.
  - vm_compute. repeat constructor.
  - vm_compute. reflexivity.
  - vm_compute. reflexivity.
  - discriminate.
  - discriminate.
  - split; [discriminate|]. intros Hin. exfalso.
    repeat (apply elem_of_cons in Hin as [Hin|Hin]; [discriminate Hin|]).
    by apply elem_of_nil in Hin.
Defined.

(** X16, at an input: ten bytes over two slots of seven; the second slot
    starts inside a character. *)
Lemma splitIntoParts_slots_witness :
  blob_size (blob_of_string document_e_acute) <= maxCapacity config_7x2 /\
  DummyStorageArea.data
    (storage (splitIntoParts config_7x2 (blob_of_string document_e_acute)
                (fresh config_7x2)).2) !! slotKey 1 =
  Some (VString (blob_text (part 7 (blob_of_string document_e_acute) 1))).
Proof.
  assert (blob_size (blob_of_string document_e_acute) <= maxCapacity config_7x2) as Hfit
    by (vm_compute; lia).
  split; [exact Hfit|].
  pose proof (proj1 (proj2 (splitIntoParts_slots config_7x2
                              (blob_of_string document_e_acute) (fresh config_7x2) Hfit))
                    1 ltac:(vm_compute; lia)) as Hw.
  cbv zeta in Hw. rewrite Hw. vm_compute. reflexivity.
Defined.

(** X17, at an input: the same ten bytes through [set]; the slots then hold
    fourteen. *)
Lemma set_space_in_use_witness :
  final_payload config_7x2 items_e_acute = Some (blob_of_string document_e_acute) /\
  (getCurrentUsed false (set 1 items_e_acute (fresh config_7x2)).2).1 = Ok 10 /\
  (getCurrentUsed true (set 1 items_e_acute (fresh config_7x2)).2).1 = Ok 14.
Proof.
  assert (final_payload (config (this (fresh config_7x2))) items_e_acute =
          Some (blob_of_string document_e_acute)) as Hp by (vm_compute; reflexivity).
  split; [vm_compute; reflexivity|].
  destruct (set_space_in_use 1%Z items_e_acute (fresh config_7x2) _ Hp
              ltac:(vm_compute; lia)) as (_ & Hused & Hlive).
  cbv zeta in Hused, Hlive. rewrite Hused, Hlive. split; vm_compute; reflexivity.
Defined.

(** X18, at an input: the test suite's second engine on the store that
    holds sixteen bytes. *)
Lemma other_engine_space_in_use_witness :
  is_ascii (blob_of_string ("{" +:+ quoted "key" +:+ ":" +:+ quoted "ABCDEF" +:+ "}")) /\
  (getCurrentUsed true
     (attach (new config_4x4) (storage (set 1 items_ABCDEF (fresh config_4x4)).2))).1 = Ok 16.
Proof.
  assert (is_ascii (blob_of_string ("{" +:+ quoted "key" +:+ ":" +:+ quoted "ABCDEF" +:+ "}")))
    as Hascii by (vm_compute; repeat constructor).
  split; [exact Hascii|].
  refine (proj1 (proj2 (other_engine_space_in_use 1%Z items_ABCDEF (fresh config_4x4)
                          (blob_of_string ("{" +:+ quoted "key" +:+ ":" +:+ quoted "ABCDEF" +:+ "}"))
                          (new config_4x4) _ _ Hascii _))).
  - vm_compute. reflexivity.
  - vm_compute. lia.
  - vm_compute. reflexivity.
Defined.

(** X19, at an input: one slot of one byte, and the document of no key. *)
Lemma set_below_two_bytes_witness :
  maxCapacity {| Config.slotSize := 1; Config.slotCount := 1; Config.compress := false |} < 2 /\
  exists over,
    (set 1 [] (fresh {| Config.slotSize := 1; Config.slotCount := 1;
                        Config.compress := false |})).1 = Err (TooLargeDataError over) /\
    (0 < over)%Z.
Proof.
  assert (maxCapacity {| Config.slotSize := 1; Config.slotCount := 1;
                         Config.compress := false |} < 2) as Hcap by (vm_compute; lia).
  split; [exact Hcap|].
  destruct (set_below_two_bytes 1%Z []
              (fresh {| Config.slotSize := 1; Config.slotCount := 1; Config.compress := false |})
              ltac:(vm_compute; reflexivity) ltac:(vm_compute; lia)) as (over & Herr & Hpos & _).
  exists over. split; [exact Herr|exact Hpos].
Defined.

(** X20, at an input: the test suite's one byte too many. *)
Lemma capacity_error_message_witness :
  (set 3 items_ABCDEFG full_4x4).1 = Err (TooLargeDataError 1) /\
  TooLargeDataError_message 1 = "Set data exceeded size of storage by 1 bytes.".
Proof.
  assert ((set 3 items_ABCDEFG full_4x4).1 = Err (TooLargeDataError 1)) as Herr
    by (vm_compute; reflexivity).
  split; [exact Herr|].
  exact (proj2 (capacity_error_message 3%Z items_ABCDEFG full_4x4 1%Z Herr)).
Defined.

(** X22, at an input: thirteen bytes over four slots of four take four
    reads, four removals, four parts, four reads and five writes of the
    record. *)
Lemma set_backend_calls_witness :
  final_payload config_4x4 items_ABC =
    Some (blob_of_string ("{" +:+ quoted "key" +:+ ":" +:+ quoted "ABC" +:+ "}")) /\
  exists new,
    journal (set 1 items_ABC (fresh config_4x4)).2 = journal (fresh config_4x4) ++ new /\
    length new = 21.
Proof.
  assert (final_payload (config (this (fresh config_4x4))) items_ABC =
          Some (blob_of_string ("{" +:+ quoted "key" +:+ ":" +:+ quoted "ABC" +:+ "}")))
    as Hp by (vm_compute; reflexivity).
  split; [vm_compute; reflexivity|].
  destruct (set_backend_calls 1%Z items_ABC (fresh config_4x4) _ Hp ltac:(vm_compute; lia))
    as (new & Hj & Hcalls).
  exists new. split; [exact Hj|].
  rewrite <- (length_map (fun ev => without_value (call ev))), Hcalls.
  vm_compute. reflexivity.
Defined.

(** X23, at an input: a compressed payload of twenty-four bytes against
    sixteen. *)
Lemma rejected_set_claims_the_record_witness :
  (set 1 sample_items (fresh config_4x4_compress)).1 = Err (TooLargeDataError 8) /\
  (isUpToDate (set 1 sample_items (fresh config_4x4_compress)).2).1 = Ok true.
Proof.
  assert ((set 1 sample_items (fresh config_4x4_compress)).1 = Err (TooLargeDataError 8))
    as Herr by (vm_compute; reflexivity).
  split; [exact Herr|].
  exact (proj1 (rejected_set_claims_the_record 1%Z sample_items (fresh config_4x4_compress)
                  8%Z ltac:(vm_compute; reflexivity) Herr)).
Defined.

(** X24, at an input: the compressed [{"a":"1"}]. *)
Lemma set_metadata_witness :
  (set 7 sample_items (fresh config_16x4_compress)).1 = Ok tt /\
  getLastUpdated (this (set 7 sample_items (fresh config_16x4_compress)).2) = Some 7%Z /\
  getLastCompressState (this (set 7 sample_items (fresh config_16x4_compress)).2) = Compressed.
Proof.
  assert ((set 7 sample_items (fresh config_16x4_compress)).1 = Ok tt) as Hok
    by (vm_compute; reflexivity).
  split; [exact Hok|].
  destruct (set_metadata 7%Z sample_items (fresh config_16x4_compress) Hok)
    as (Hupd & Hlast & _).
  cbv zeta in Hupd, Hlast. split; [exact Hupd|]. rewrite Hlast. vm_compute. reflexivity.
Defined.
(** X25, at an input: sixteen bytes in sixteen bytes of capacity. *)
Lemma capacity_error_iff_payload_over_witness :
  final_payload config_4x4 items_ABCDEF =
    Some (blob_of_string (JSON_stringify items_ABCDEF)) /\
  blob_size (blob_of_string (JSON_stringify items_ABCDEF)) = maxCapacity config_4x4 /\
  (set 2 items_ABCDEF (set 1 items_ABC (fresh config_4x4)).2).1 = Ok tt.
Proof.
  split; [reflexivity|]. split; [reflexivity|].
  apply (capacity_error_iff_payload_over 2 items_ABCDEF (set 1 items_ABC (fresh config_4x4)).2)
    with (data := blob_of_string (JSON_stringify items_ABCDEF));
    vm_compute; reflexivity.
Defined.

End Examples.

Section Reading_examples.
Local Existing Instance reading_platform.

End Reading_examples.
